(** * BRVM market analysis: acquisition fallback chain and performance analytics

    A shallow embedding of the core of the repository:
    - [scraper/brvm_scraper.py]: the two source adapters
      ([scrape_sika_finance], [scrape_brvm_official]), the stock list and the
      per-instrument fallback loop [get_all_historical_data];
    - [scripts/create_dashboard.py]: [load_data], [calculate_performance],
      [get_sector_classification] and the sector lookup used by the charts,
      the loop of [create_dashboard] and the row selections of the charts;
    - [scripts/export_excel.py] and [scripts/generate_pdf_report.py]: their
      copies of the three functions above, the sheets of [export_to_excel]
      and the selections of the report's charts;
    - [scripts/update_dashboard.py]: the quotation table read by
      [get_brvm_values].

    Conventions of the embedding.
    - A Python/numpy float is an extended real ([float]): a real number, one
      of the two infinities, or NaN.  Arithmetic follows IEEE 754 for the
      special values; rounding, overflow and the sign of zero are not
      represented, so finite arithmetic is exact.
    - A pandas Series is a list of cells; a missing float is NaN, as in pandas.
    - Code that raises returns [None] (or [Raise]); [try ... except] is a
      match on that outcome.
    - Calendar dates are day numbers ([Z]); a date difference [.days] is a
      subtraction.
    - Python built-ins that parse text ([float], [int], [datetime.strptime],
      [pandas.to_datetime]) and [pow] are parameters of the definitions that
      call them. *)

From Stdlib Require Import ZArith List Reals Lra Lia String Ascii.
From Stdlib Require Import DecimalString DecimalZ.
From stdpp Require Import gmap strings list sorting.

Local Open Scope Z_scope.

(** ** Floats *)

Module Float.

Inductive float : Type :=
| NaN
| Fin (x : R)
| PInf
| NInf.

Definition zero : float := Fin 0%R.
Definition one : float := Fin 1%R.

Definition isnan (x : float) : bool :=
  match x with NaN => true | _ => false end.

(** Sign of a real, as the three-way case analysis the special values need. *)
Inductive sign : Type := Neg | Zer | Pos.

Definition sgn (x : R) : sign :=
  if Rlt_dec 0 x then Pos else if Rlt_dec x 0 then Neg else Zer.

Definition inf_of (s : sign) : float :=
  match s with Pos => PInf | Neg => NInf | Zer => NaN end.

Definition flip (s : sign) : sign :=
  match s with Pos => Neg | Neg => Pos | Zer => Zer end.

Definition opp (x : float) : float :=
  match x with
  | NaN => NaN
  | Fin a => Fin (- a)%R
  | PInf => NInf
  | NInf => PInf
  end.

Definition add (x y : float) : float :=
  match x, y with
  | NaN, _ | _, NaN => NaN
  | Fin a, Fin b => Fin (a + b)%R
  | PInf, NInf | NInf, PInf => NaN
  | PInf, _ | _, PInf => PInf
  | NInf, _ | _, NInf => NInf
  end.

Definition sub (x y : float) : float := add x (opp y).

Definition mul (x y : float) : float :=
  match x, y with
  | NaN, _ | _, NaN => NaN
  | Fin a, Fin b => Fin (a * b)%R
  | Fin a, PInf | PInf, Fin a => inf_of (sgn a)
  | Fin a, NInf | NInf, Fin a => inf_of (flip (sgn a))
  | PInf, PInf | NInf, NInf => PInf
  | PInf, NInf | NInf, PInf => NInf
  end.

(** numpy division: [x / 0] is an infinity of the sign of [x], [0 / 0] and
    [inf / inf] are NaN; no exception is raised. *)
Definition div (x y : float) : float :=
  match x, y with
  | NaN, _ | _, NaN => NaN
  | Fin a, Fin b =>
      if Req_dec_T b 0 then inf_of (sgn a) else Fin (a / b)%R
  | Fin _, (PInf | NInf) => Fin 0%R
  | (PInf | NInf), (PInf | NInf) => NaN
  | PInf, Fin b => if Rlt_dec b 0 then NInf else PInf
  | NInf, Fin b => if Rlt_dec b 0 then PInf else NInf
  end.

(** [x > y]; false as soon as one side is NaN. *)
Definition gtb (x y : float) : bool :=
  match x, y with
  | NaN, _ | _, NaN => false
  | Fin a, Fin b => if Rlt_dec b a then true else false
  | PInf, PInf | NInf, _ | Fin _, PInf => false
  | PInf, _ | Fin _, NInf => true
  end.

(** [np.sqrt]. *)
Definition sqrt (x : float) : float :=
  match x with
  | NaN | NInf => NaN
  | PInf => PInf
  | Fin a => if Rlt_dec a 0 then NaN else Fin (R_sqrt.sqrt a)
  end.

(** [np.maximum] and [np.minimum]: NaN if either argument is NaN. *)
Definition maximum (x y : float) : float :=
  match x, y with
  | NaN, _ | _, NaN => NaN
  | _, _ => if gtb y x then y else x
  end.

Definition minimum (x y : float) : float :=
  match x, y with
  | NaN, _ | _, NaN => NaN
  | _, _ => if gtb x y then y else x
  end.

Definition of_Z (n : Z) : float := Fin (IZR n).
Definition of_nat (n : nat) : float := Fin (INR n).

End Float.

Export Float.

Declare Scope float_scope.
Delimit Scope float_scope with fl.
Bind Scope float_scope with float.
Infix "+" := Float.add : float_scope.
Infix "-" := Float.sub : float_scope.
Infix "*" := Float.mul : float_scope.
Infix "/" := Float.div : float_scope.
Infix ">?" := Float.gtb : float_scope.

(** ** Sector classifier ([create_dashboard.py]) *)

Module Sector.

(** The literal [sectors] of [get_sector_classification], in source order. *)
Definition sectors : list (string * list string) :=
  [ ("Banque", ["SGBCI"; "BOA"; "ECOBANK"; "SIB"; "NSIA"; "BICI"; "BDM"; "CORIS"]);
    ("Agro-industrie", ["SOGB"; "SAPH"; "PALC"; "SIFCA"; "SICOR"; "SUCRIVOIRE"]);
    ("Distribution", ["CFAO"; "BERNABE"; "VIVO"; "TOTAL"]);
    ("Services publics", ["SODECI"; "CIE"; "SONATEL"; "ONATEL"]);
    ("Industrie", ["NESTLE"; "SOLIBRA"; "SMB"; "UNIWAX"; "FILTISAC"; "AIR"]);
    ("Transport", ["BOLLORE"; "MOVIS"; "SETAO"]) ]%string.

(** The two nested loops filling [symbol_to_sector]. *)
Definition get_sector_classification : gmap string string :=
  foldl (fun acc '(sector, symbols) =>
           foldl (fun acc symbol => <[symbol := sector]> acc) acc symbols)
        ∅ sectors.

(** The lambda mapped over the index in [create_sector_chart],
    [create_risk_return_chart] and [create_performance_table]:
    [symbol_to_sector.get(x, 'Indice' if x.startswith('BRVM') else 'Autres')]. *)
Definition classify (x : string) : string :=
  let symbol_to_sector := get_sector_classification in
  default (if String.prefix "BRVM" x then "Indice" else "Autres")%string
          (symbol_to_sector !! x).

End Sector.

(** ** pandas Series of floats *)

Module Series.

(** [s.shift(1)]. *)
Definition shift (xs : list float) : list float := take (length xs) (NaN :: xs).

(** [s.pct_change()]: [s / s.shift(1) - 1].  (Older pandas first pads missing
    values forward; that step is the identity on a series without NaN and is
    not represented.) *)
Definition pct_change (xs : list float) : list float :=
  zip_with (fun x prev => x / prev - one)%fl xs (shift xs).

(** [c + s], [s - c], [s1 / s2] (element-wise, same index). *)
Definition radd (c : float) (xs : list float) : list float :=
  (fun x => c + x)%fl <$> xs.
Definition sub_scalar (xs : list float) (c : float) : list float :=
  (fun x => x - c)%fl <$> xs.
Definition div (xs ys : list float) : list float := zip_with Float.div xs ys.

(** [np.cumprod], [np.maximum.accumulate]: the first entry is the first value. *)
Fixpoint accumulate_from (f : float -> float -> float) (acc : float)
  (xs : list float) : list float :=
  match xs with
  | [] => []
  | x :: xs' => let acc' := f acc x in acc' :: accumulate_from f acc' xs'
  end.

Definition np_accumulate (f : float -> float -> float) (xs : list float)
  : list float :=
  match xs with
  | [] => []
  | x :: xs' => x :: accumulate_from f x xs'
  end.

(** [vals[mask] = v]. *)
Definition putmask (mask : list bool) (v : float) (xs : list float) : list float :=
  zip_with (fun (m : bool) x => if m then v else x) mask xs.

(** pandas' cumulative operations with [skipna=True]: missing entries are
    replaced by the neutral value [mask_a], the accumulation runs, and the
    missing positions are set back to NaN. *)
Definition na_accum_func (f : float -> float -> float) (mask_a : float)
  (xs : list float) : list float :=
  let mask := isnan <$> xs in
  putmask mask NaN (np_accumulate f (putmask mask mask_a xs)).

Definition cumprod : list float -> list float := na_accum_func Float.mul one.
Definition cummax : list float -> list float := na_accum_func Float.maximum NInf.

(** Reductions with [skipna=True]. *)
Definition dropna (xs : list float) : list float :=
  filter (fun x => isnan x = false) xs.

Definition sum (xs : list float) : float := foldl Float.add zero xs.

Definition min (xs : list float) : float :=
  match dropna xs with
  | [] => NaN
  | x :: rest => foldl Float.minimum x rest
  end.

Definition max (xs : list float) : float :=
  match dropna xs with
  | [] => NaN
  | x :: rest => foldl Float.maximum x rest
  end.

(** [nanvar]: NaN unless more than [ddof] values are present. *)
Definition var (ddof : nat) (xs : list float) : float :=
  let vals := dropna xs in
  let count := length vals in
  if (count <=? ddof)%nat then NaN
  else
    let avg := (sum vals / of_nat count)%fl in
    let sqr := (fun x => (avg - x) * (avg - x))%fl <$> vals in
    (sum sqr / of_nat (count - ddof))%fl.

(** [s.std()], sample standard deviation ([ddof=1]). *)
Definition std (xs : list float) : float := Float.sqrt (var 1 xs).

End Series.

(** ** DataFrames as column stores *)

Inductive column : Type :=
| DateCol (xs : list Z)                 (* datetime column, no missing date *)
| NumCol (xs : list float)              (* int or float column; NaN is missing *)
| StrCol (xs : list (option string)).   (* object column; [None] is missing *)

Record DataFrame : Type := mkDataFrame {
  nrows : nat;                         (* len(df.index) *)
  columns : list (string * column)     (* in column order *)
}.

Definition col_length (c : column) : nat :=
  match c with
  | DateCol xs => length xs
  | NumCol xs => length xs
  | StrCol xs => length xs
  end.

(** Every column has one cell per row. *)
Definition well_formed (df : DataFrame) : Prop :=
  Forall (fun nc => col_length (snd nc) = nrows df) (columns df).

(** [df.empty]: no rows or no columns. *)
Definition empty (df : DataFrame) : bool :=
  (nrows df =? 0)%nat || (length (columns df) =? 0)%nat.

Fixpoint lookup_col (name : string) (cols : list (string * column))
  : option column :=
  match cols with
  | [] => None
  | (n, c) :: rest => if String.eqb n name then Some c else lookup_col name rest
  end.

(** [df[name] = c]: overwrite the column in place, or append it. *)
Fixpoint assign_col (name : string) (c : column) (cols : list (string * column))
  : list (string * column) :=
  match cols with
  | [] => [(name, c)]
  | (n, c0) :: rest =>
      if String.eqb n name then (n, c) :: rest
      else (n, c0) :: assign_col name c rest
  end.

(** ** Code that mutates an object and may raise

    A computation takes the state of the object it works on (the caller's
    DataFrame, or the file system and log of a scraping run), leaves it in a
    new state and either returns a value or raises. *)

Definition M (S A : Type) : Type := S -> S * option A.

Definition ret {S A} (a : A) : M S A := fun st => (st, Some a).
Definition raise {S A} : M S A := fun st => (st, None).
Definition bind {S A B} (m : M S A) (k : A -> M S B) : M S B :=
  fun st => match m st with
            | (st', Some a) => k a st'
            | (st', None) => (st', None)
            end.

Notation "x <- m ;; k" := (bind m (fun x => k))
  (at level 100, m at next level, right associativity).
Notation "m ;;; k" := (bind m (fun _ => k))
  (at level 100, right associativity).

Fixpoint for_each {S A} (body : A -> M S unit) (l : list A) : M S unit :=
  match l with
  | [] => ret tt
  | x :: rest => body x ;;; for_each body rest
  end.

Definition get_frame : M DataFrame DataFrame := fun df => (df, Some df).

(** [df[name]] for a numeric / datetime column; [KeyError] when absent, and the
    operations applied below raise on a column of another dtype. *)
Definition getitem_num (name : string) : M DataFrame (list float) :=
  fun df => match lookup_col name (columns df) with
            | Some (NumCol xs) => (df, Some xs)
            | _ => (df, None)
            end.

Definition getitem_date (name : string) : M DataFrame (list Z) :=
  fun df => match lookup_col name (columns df) with
            | Some (DateCol xs) => (df, Some xs)
            | _ => (df, None)
            end.

Definition setitem (name : string) (c : column) : M DataFrame unit :=
  fun df => (mkDataFrame (nrows df) (assign_col name c (columns df)), Some tt).

Definition of_option {S A} (o : option A) : M S A :=
  match o with Some a => ret a | None => raise end.

(** ** Performance analytics ([calculate_performance]) *)

Record metrics : Type := mkMetrics {
  start_date : Z;
  end_date : Z;
  duration_days : Z;
  duration_years : float;
  initial_price : float;
  final_price : float;
  total_return : float;
  annual_return : float;
  volatility : float;
  sharpe_ratio : float;
  max_daily_return : float;
  min_daily_return : float;
  max_drawdown : float
}.

Definition date_min (ds : list Z) : option Z :=
  match ds with [] => None | d :: rest => Some (foldl Z.min d rest) end.
Definition date_max (ds : list Z) : option Z :=
  match ds with [] => None | d :: rest => Some (foldl Z.max d rest) end.

Definition hundred : float := Fin 100%R.
Definition risk_free_rate : float := Fin 0.03%R.

Section Performance.

(** [x ** y] on floats. *)
Variable pow : float -> float -> float.

(** The result is [None] for the empty dictionary [{}]. *)
Definition calculate_performance : M DataFrame (option metrics) :=
  df <- get_frame ;;
  if empty df || (nrows df <? 2)%nat then ret None
  else
    cloture <- getitem_num "Cloture" ;;
    setitem "Rendement" (NumCol (Series.pct_change cloture)) ;;;
    dates <- getitem_date "Date" ;;
    start_date <- of_option (date_min dates) ;;
    end_date <- of_option (date_max dates) ;;
    let duration_days := end_date - start_date in
    let duration_years := (of_Z duration_days / Fin 365.25%R)%fl in
    cloture <- getitem_num "Cloture" ;;
    initial_price <- of_option (head cloture) ;;
    final_price <- of_option (last cloture) ;;
    let total_return := ((final_price / initial_price - one) * hundred)%fl in
    let annual_return :=
      if (duration_years >? zero)%fl
      then ((pow (final_price / initial_price) (one / duration_years) - one)
            * hundred)%fl
      else zero in
    rendement <- getitem_num "Rendement" ;;
    let volatility :=
      (Series.std rendement * Float.sqrt (Fin 252%R) * hundred)%fl in
    let sharpe_ratio :=
      if (volatility >? zero)%fl
      then ((annual_return / hundred - risk_free_rate) / (volatility / hundred))%fl
      else zero in
    let max_daily_return := (Series.max rendement * hundred)%fl in
    let min_daily_return := (Series.min rendement * hundred)%fl in
    rendement <- getitem_num "Rendement" ;;
    setitem "Cumul" (NumCol (Series.cumprod (Series.radd one rendement))) ;;;
    cumul <- getitem_num "Cumul" ;;
    setitem "Drawdown"
      (NumCol (Series.sub_scalar (Series.div cumul (Series.cummax cumul)) one)) ;;;
    drawdown <- getitem_num "Drawdown" ;;
    let max_drawdown := (Series.min drawdown * hundred)%fl in
    ret (Some (mkMetrics start_date end_date duration_days duration_years
                 initial_price final_price total_return annual_return
                 volatility sharpe_ratio max_daily_return min_daily_return
                 max_drawdown)).

(** The frame and the dictionary a complete run leaves behind, written as
    functions of the closing prices, the date span and the two end prices. *)

(** The three derived columns, as functions of the closing prices. *)
Definition rendement_of (cloture : list float) : list float :=
  Series.pct_change cloture.
Definition cumul_of (cloture : list float) : list float :=
  Series.cumprod (Series.radd one (rendement_of cloture)).
Definition drawdown_of (cloture : list float) : list float :=
  Series.sub_scalar
    (Series.div (cumul_of cloture) (Series.cummax (cumul_of cloture))) one.

Definition frame_after (df : DataFrame) (cloture : list float) : DataFrame :=
  mkDataFrame (nrows df)
    (assign_col "Drawdown" (NumCol (drawdown_of cloture))
       (assign_col "Cumul" (NumCol (cumul_of cloture))
          (assign_col "Rendement" (NumCol (rendement_of cloture)) (columns df)))).

Definition annual_return_of (years ratio : float) : float :=
  if (years >? zero)%fl
  then ((pow ratio (one / years) - one) * hundred)%fl
  else zero.

Definition volatility_of (cloture : list float) : float :=
  (Series.std (rendement_of cloture) * Float.sqrt (Fin 252%R) * hundred)%fl.

Definition sharpe_of (annual vol : float) : float :=
  if (vol >? zero)%fl
  then ((annual / hundred - risk_free_rate) / (vol / hundred))%fl
  else zero.

Definition metrics_of (cloture : list float) (d0 d1 : Z) (p0 p1 : float)
  : metrics :=
  let years := (of_Z (d1 - d0) / Fin 365.25%R)%fl in
  let annual := annual_return_of years (p1 / p0)%fl in
  let vol := volatility_of cloture in
  {| start_date := d0; end_date := d1;
     duration_days := d1 - d0;
     duration_years := years;
     initial_price := p0; final_price := p1;
     total_return := ((p1 / p0 - one) * hundred)%fl;
     annual_return := annual;
     volatility := vol;
     sharpe_ratio := sharpe_of annual vol;
     max_daily_return := (Series.max (rendement_of cloture) * hundred)%fl;
     min_daily_return := (Series.min (rendement_of cloture) * hundred)%fl;
     max_drawdown := (Series.min (drawdown_of cloture) * hundred)%fl |}.

(** The loop of [create_dashboard] over [data_frames.items()]: each frame of
    the dictionary is the object handed to [calculate_performance], so the
    dictionary holds the frames as the calls left them; an exception or an
    empty result adds no entry to [performances]. *)
Fixpoint performances_loop (data_frames : list (string * DataFrame))
  : list (string * DataFrame) * list (string * metrics) :=
  match data_frames with
  | [] => ([], [])
  | (symbol, df) :: rest =>
      let '(df', outcome) := calculate_performance df in
      let '(frames, performances) := performances_loop rest in
      ((symbol, df') :: frames,
       match outcome with
       | Some (Some perf) => (symbol, perf) :: performances
       | _ => performances
       end)
  end.

End Performance.

(** The seven persisted columns. *)
Definition canonical_columns : list string :=
  ["Date"; "Ouverture"; "Plus_Haut"; "Plus_Bas"; "Cloture"; "Volume"; "Symbole"]%string.

(** ** Sample inputs

    A frame with the seven persisted columns, as [load_data] returns it for a
    file whose opening, high and low prices equal the close, and [pow] on a
    positive finite base (the case the samples use). *)

Definition sample_frame (dates : list Z) (closes : list R) : DataFrame :=
  let n := length dates in
  let prices := NumCol (Fin <$> closes) in
  mkDataFrame n
    [ ("Date", DateCol dates); ("Ouverture", prices); ("Plus_Haut", prices);
      ("Plus_Bas", prices); ("Cloture", prices);
      ("Volume", NumCol (replicate n (Fin 0%R)));
      ("Symbole", StrCol (replicate n (Some "SNTS"))) ]%string.

Definition real_pow (x y : float) : float :=
  match x, y with
  | Fin a, Fin b => if Rlt_dec 0 a then Fin (Rpower a b) else NaN
  | _, _ => NaN
  end.

(** ** The drawdown computation as the specification words it

    Indexed by record number: [close i] is the closing price of record [i],
    record 0 being the first.  Returns, wealth index, running maximum and
    drawdown are defined from record 1 on. *)

Module DrawdownSpec.
Section Spec.

Variable close : nat -> R.

Local Open Scope R_scope.

(** Daily return at index [i >= 1]. *)
Definition daily_return (i : nat) : R := close i / close (i - 1) - 1.

(** Wealth index: the product of [1 + daily_return j] for [j = 1 .. i]. *)
Fixpoint wealth (i : nat) : R :=
  match i with
  | O => 1
  | S j => wealth j * (1 + daily_return (S j))
  end.

(** Running maximum of the wealth index over [1 .. i]. *)
Fixpoint running_max (i : nat) : R :=
  match i with
  | O => wealth 1
  | S j => match j with
           | O => wealth 1
           | S _ => Rmax (running_max j) (wealth (S j))
           end
  end.

Definition drawdown (i : nat) : R := wealth i / running_max i - 1.

(** Minimum of [f 1 .. f (S k)]. *)
Fixpoint min_upto (f : nat -> R) (k : nat) : R :=
  match k with
  | O => f 1%nat
  | S k' => Rmin (min_upto f k') (f (S (S k')))
  end.

(** Max drawdown in percent of a series of [n >= 2] records. *)
Definition max_drawdown_pct (n : nat) : R := min_upto drawdown (n - 2) * 100.

End Spec.
End DrawdownSpec.

(** ** Exact arithmetic on lists of reals

    The finite part of the float computations above, used to relate
    [calculate_performance] to [DrawdownSpec]. *)

Module RealSeries.

Local Open Scope R_scope.

Fixpoint returns_from (prev : R) (cs : list R) : list R :=
  match cs with
  | [] => []
  | c :: cs' => (c / prev - 1) :: returns_from c cs'
  end.

Fixpoint scan (f : R -> R -> R) (acc : R) (xs : list R) : list R :=
  match xs with
  | [] => []
  | x :: xs' => f acc x :: scan f (f acc x) xs'
  end.

End RealSeries.

(** ** Python strings *)

Module PyStr.

(** Whitespace removed by [str.strip()] (ASCII part). *)
Definition is_space (c : ascii) : bool :=
  let n := nat_of_ascii c in
  (n =? 32)%nat || ((9 <=? n) && (n <=? 13))%nat || ((28 <=? n) && (n <=? 31))%nat.

Fixpoint lstrip (s : string) : string :=
  match s with
  | EmptyString => EmptyString
  | String c s' => if is_space c then lstrip s' else s
  end.

Definition strip (s : string) : string :=
  String.rev (lstrip (String.rev (lstrip s))).

(** [s.replace(a, b)] for one-character [a] and [b]. *)
Fixpoint replace (a b : ascii) (s : string) : string :=
  match s with
  | EmptyString => EmptyString
  | String c s' => String (if Ascii.eqb c a then b else c) (replace a b s')
  end.

(** [s.replace(a, '')] for a one-character [a]. *)
Fixpoint remove (a : ascii) (s : string) : string :=
  match s with
  | EmptyString => EmptyString
  | String c s' => if Ascii.eqb c a then remove a s' else String c (remove a s')
  end.

(** [s.split(sep)] for a one-character [sep]. *)
Fixpoint split (sep : ascii) (s : string) : list string :=
  match s with
  | EmptyString => [EmptyString]
  | String c s' =>
      if Ascii.eqb c sep then EmptyString :: split sep s'
      else match split sep s' with
           | word :: words => String c word :: words
           | [] => [String c EmptyString]
           end
  end.

(** Truth value of a string: non-empty. *)
Definition truthy (s : string) : bool :=
  match s with EmptyString => false | String _ _ => true end.

(** [a in s] for a one-character [a]. *)
Fixpoint has_char (a : ascii) (s : string) : bool :=
  match s with
  | EmptyString => false
  | String c s' => Ascii.eqb c a || has_char a s'
  end.

(** [s[:n]]. *)
Fixpoint slice_to (n : nat) (s : string) : string :=
  match n, s with
  | S n', String c s' => String c (slice_to n' s')
  | _, _ => EmptyString
  end.

End PyStr.

(** ** Frames built from records (the scraper's side)

    The scraper builds its DataFrames from a list of dictionaries, one per
    row; here a frame is that list, a dictionary being an association list in
    key order.  A value is a JSON or Python scalar. *)

Inductive cell : Type :=
| CNull                       (* None / null / NaT *)
| CNum (x : float)
| CInt (n : Z)
| CStr (s : string)
| CDate (d : Z).

Definition record : Type := list (string * cell).
Definition RowFrame : Type := list record.

Module Rec.

Fixpoint get (k : string) (r : record) : option cell :=
  match r with
  | [] => None
  | (k', v) :: rest => if String.eqb k' k then Some v else get k rest
  end.

(** [r[k] = v]: overwrite in place or append. *)
Fixpoint set (k : string) (v : cell) (r : record) : record :=
  match r with
  | [] => [(k, v)]
  | (k', v') :: rest =>
      if String.eqb k' k then (k', v) :: rest else (k', v') :: set k v rest
  end.

Fixpoint lookup_name (k : string) (mapping : list (string * string)) : string :=
  match mapping with
  | [] => k
  | (old, new) :: rest => if String.eqb old k then new else lookup_name k rest
  end.

(** [df.rename(columns=mapping)] on one row. *)
Definition rename (mapping : list (string * string)) (r : record) : record :=
  (fun kv => (lookup_name (fst kv) mapping, snd kv)) <$> r.

End Rec.

Module Rows.

(** [df.empty]: no row, or no column at all. *)
Definition empty (df : RowFrame) : bool :=
  forallb (fun r : record => match r with [] => true | _ => false end) df.

(** A column exists as soon as one row has the key. *)
Definition has_column (k : string) (df : RowFrame) : bool :=
  existsb (fun r => match Rec.get k r with Some _ => true | None => false end) df.

(** [df[k]]: a row without the key holds a missing value. *)
Definition column (k : string) (df : RowFrame) : list cell :=
  (fun r => default CNull (Rec.get k r)) <$> df.

(** [df[k] = values]. *)
Definition set_column (k : string) (values : list cell) (df : RowFrame) : RowFrame :=
  zip_with (fun r v => Rec.set k v r) df values.

(** [df[k] = v] with a scalar. *)
Definition set_scalar (k : string) (v : cell) (df : RowFrame) : RowFrame :=
  Rec.set k v <$> df.

(** Sort key of a row: its date; rows without a date come last. *)
Definition date_key (r : record) : option Z :=
  match Rec.get "Date" r with
  | Some (CDate d) => Some d
  | _ => None
  end.

Definition key_le (a b : option Z) : Prop :=
  match a, b with
  | Some x, Some y => x <= y
  | _, None => True
  | None, Some _ => False
  end.

Definition date_le (r1 r2 : record) : Prop := key_le (date_key r1) (date_key r2).

#[global] Instance key_le_dec : RelDecision key_le.
Proof. intros [x|] [y|]; simpl; apply _. Defined.

#[global] Instance date_le_dec : RelDecision date_le.
Proof. intros r1 r2. unfold date_le. apply _. Defined.

(** [df.sort_values("Date")].  The order of rows with equal dates is that of
    a stable sort; nothing below depends on it beyond permutation and
    sortedness. *)
Definition sort_values_date (df : RowFrame) : RowFrame := merge_sort date_le df.

End Rows.

(** ** Upstream replies *)

(** The HTML pages, as the rows of the first [table.table] ([None] when the
    page has no such table), each row being the texts of its [td] cells. *)
Definition html_table : Type := option (list (list string)).

Inductive http (A : Type) : Type :=
| HttpFailure                 (* network error, error status, bad payload *)
| HttpOk (body : A).
Arguments HttpFailure {A}.
Arguments HttpOk {A} body.

(** The JSON object of the history API: the value of its "intraday" key, when
    present, is a list of objects. *)
Definition sika_json : Type := option (list record).

(** ** Source adapters ([brvm_scraper.py])

    An adapter is a function of the symbol and of the reply its request
    receives.  The date-range arguments only shape the request; their
    defaults always parse. *)

Section Adapters.

(** [float(s)], [int(s)], [datetime.strptime(s, '%d/%m/%Y')] and
    [pd.to_datetime] on one value; [None] when they raise. *)
Variable py_float : string -> option float.
Variable py_int : string -> option Z.
Variable strptime_dmy : string -> option Z.
Variable to_datetime : cell -> option cell.

(** [float(s) if s else None]. *)
Definition float_or_none (s : string) : option cell :=
  if PyStr.truthy s then CNum <$> py_float s else Some CNull.

(** [int(s) if s else 0]. *)
Definition int_or_zero (s : string) : option cell :=
  if PyStr.truthy s then CInt <$> py_int s else Some (CInt 0).

(** The dictionary appended for one table row with at least six cells;
    [None] when a conversion raises. *)
Definition brvm_record (symbol : string) (cols : list string) : option record :=
  match cols with
  | c0 :: c1 :: c2 :: c3 :: c4 :: c5 :: _ =>
      let date_str := PyStr.strip c0 in
      let opening := PyStr.replace "," "." (PyStr.strip c1) in
      let high := PyStr.replace "," "." (PyStr.strip c2) in
      let low := PyStr.replace "," "." (PyStr.strip c3) in
      let closing := PyStr.replace "," "." (PyStr.strip c4) in
      let volume := PyStr.remove " " (PyStr.strip c5) in
      d ← strptime_dmy date_str;
      o ← float_or_none opening;
      h ← float_or_none high;
      l ← float_or_none low;
      c ← float_or_none closing;
      v ← int_or_zero volume;
      Some [ ("Date", CDate d); ("Ouverture", o); ("Plus_Haut", h);
             ("Plus_Bas", l); ("Cloture", c); ("Volume", v);
             ("Symbole", CStr symbol) ]%string
  | _ => None   (* fewer than six cells: not reached from the loop *)
  end.

(** The loop over [tbody tr]: rows with fewer than six cells are skipped, a
    conversion error leaves the loop. *)
Fixpoint brvm_rows (symbol : string) (rows : list (list string))
  : option (list record) :=
  match rows with
  | [] => Some []
  | cols :: rest =>
      if (6 <=? length cols)%nat
      then r ← brvm_record symbol cols;
           data ← brvm_rows symbol rest;
           Some (r :: data)
      else brvm_rows symbol rest
  end.

(** The body of the [try]; [None] when it raises. *)
Definition brvm_try (symbol : string) (response : http html_table)
  : option RowFrame :=
  match response with
  | HttpFailure => None
  | HttpOk table =>
      data ← match table with
             | Some rows => brvm_rows symbol rows
             | None => Some []
             end;
      let df : RowFrame := data in
      Some (if negb (Rows.empty df) then Rows.sort_values_date df else df)
  end.

(** [scrape_brvm_official]: [except Exception] returns an empty frame. *)
Definition scrape_brvm_official (symbol : string) (response : http html_table)
  : RowFrame :=
  match brvm_try symbol response with
  | Some df => df
  | None => []
  end.

Definition sika_columns : list (string * string) :=
  [ ("date", "Date"); ("ouverture", "Ouverture"); ("plus_haut", "Plus_Haut");
    ("plus_bas", "Plus_Bas"); ("cloture", "Cloture");
    ("variation", "Variation"); ("volume", "Volume") ]%string.

Definition sika_try (symbol : string) (response : http sika_json)
  : option RowFrame :=
  match response with
  | HttpFailure => None
  | HttpOk data =>
      match data with
      | Some intraday =>
          if (0 <? length intraday)%nat then
            let df := Rec.rename sika_columns <$> intraday in
            if Rows.has_column "Date" df then
              dates ← mapM to_datetime (Rows.column "Date" df);
              let df := Rows.set_column "Date" dates df in
              let df := Rows.sort_values_date df in
              let df := Rows.set_scalar "Symbole" (CStr symbol) df in
              Some df
            else None   (* KeyError: 'Date' *)
          else Some []
      | None => Some []
      end
  end.

(** [scrape_sika_finance]. *)
Definition scrape_sika_finance (symbol : string) (response : http sika_json)
  : RowFrame :=
  match sika_try symbol response with
  | Some df => df
  | None => []
  end.

End Adapters.

(** ** The collection run ([get_all_stocks], [get_all_historical_data]) *)

Record stock : Type := mkStock { stock_symbol : string; stock_name : string }.

(** What the run can reach: the listing page and, per symbol, the reply of
    the history API and of the official history page. *)
Record world : Type := mkWorld {
  stocks_page : http html_table;
  sika_api : string -> http sika_json;
  brvm_site : string -> http html_table
}.

(** What the run leaves behind: the frames handed to [to_csv], by path, and
    the trace of its calls. *)
Inductive event : Type :=
| CallStocks
| CallSika (symbol : string)
| CallBrvm (symbol : string)
| WriteCsv (path : string)
| NoData (symbol : string)
| Sleep (seconds : Z).

Record run_state : Type := mkRun {
  files : gmap string RowFrame;
  log : list event
}.

Definition emit (e : event) : M run_state unit :=
  fun st => (mkRun (files st) (log st ++ [e]), Some tt).

(** [df.to_csv(path, index=False)]. *)
Definition to_csv (path : string) (df : RowFrame) : M run_state unit :=
  fun st => (mkRun (<[path := df]> (files st)) (log st ++ [WriteCsv path]), Some tt).

Definition get_all_stocks (response : http html_table) : list stock :=
  match response with
  | HttpFailure => []
  | HttpOk None => []
  | HttpOk (Some rows) =>
      omap (fun cols : list string =>
              match cols with
              | c0 :: c1 :: _ => Some (mkStock (PyStr.strip c0) (PyStr.strip c1))
              | _ => None
              end) rows
  end.

Definition indices : list string := ["BRVM-Composite"; "BRVM-30"]%string.

(** [f"data/{symbol.replace('/', '-')}_historical.csv"]. *)
Definition output_path (symbol : string) : string :=
  ("data/" ++ PyStr.replace "/" "-" symbol ++ "_historical.csv")%string.

Section Run.

Variable py_float : string -> option float.
Variable py_int : string -> option Z.
Variable strptime_dmy : string -> option Z.
Variable to_datetime : cell -> option cell.
Variable w : world.

Definition call_sika (symbol : string) : M run_state RowFrame :=
  emit (CallSika symbol) ;;;
  ret (scrape_sika_finance to_datetime symbol (sika_api w symbol)).

Definition call_brvm (symbol : string) : M run_state RowFrame :=
  emit (CallBrvm symbol) ;;;
  ret (scrape_brvm_official py_float py_int strptime_dmy symbol (brvm_site w symbol)).

(** The body of the [for stock in all_symbols] loop. *)
Definition resolve (use_sika use_brvm : bool) (symbol : string) : M run_state unit :=
  let df_combined : RowFrame := [] in
  df_combined <-
    (if use_sika then
       df_sika <- call_sika symbol ;;
       ret (if negb (Rows.empty df_sika) then df_sika else df_combined)
     else ret df_combined) ;;
  df_combined <-
    (if use_brvm && Rows.empty df_combined then
       df_brvm <- call_brvm symbol ;;
       ret (if negb (Rows.empty df_brvm) then df_brvm else df_combined)
     else ret df_combined) ;;
  (if negb (Rows.empty df_combined)
   then to_csv (output_path symbol) df_combined
   else emit (NoData symbol)) ;;;
  emit (Sleep 2).

Definition get_all_historical_data (use_sika use_brvm : bool) : M run_state unit :=
  stocks <- (emit CallStocks ;;; ret (get_all_stocks (stocks_page w))) ;;
  let all_symbols := stocks ++ ((fun idx => mkStock idx idx) <$> indices) in
  for_each (fun stock => resolve use_sika use_brvm (stock_symbol stock)) all_symbols.

End Run.

(** ** Sample built-ins

    Text conversions for the plain spellings the samples use: unsigned or
    signed decimal numbers, [dd/mm/yyyy] and [yyyy-mm-dd] dates.  On these
    spellings they agree with the Python built-ins they stand for. *)

Module Sample.

Fixpoint digits (acc : N) (s : string) : option N :=
  match s with
  | EmptyString => Some acc
  | String c s' => d ← Ascii.is_nat c; digits (10 * acc + N.of_nat d) s'
  end.

Definition uint (s : string) : option N :=
  if PyStr.truthy s then digits 0 s else None.

Definition signed (s : string) : bool * string :=
  match s with
  | String "-" s' => (true, s')
  | String "+" s' => (false, s')
  | _ => (false, s)
  end.

Definition py_int (s : string) : option Z :=
  let '(neg, body) := signed s in
  n ← uint body;
  Some (if neg : bool then - Z.of_N n else Z.of_N n).

Definition py_float (s : string) : option float :=
  let '(neg, body) := signed s in
  let sg x := if neg : bool then (- x)%R else x in
  match PyStr.split "." body with
  | [whole] => n ← uint whole; Some (Fin (sg (IZR (Z.of_N n))))
  | [whole; frac] =>
      if PyStr.truthy whole || PyStr.truthy frac then
        i ← (if PyStr.truthy whole then uint whole else Some 0%N);
        f ← (if PyStr.truthy frac then uint frac else Some 0%N);
        Some (Fin (sg (IZR (Z.of_N i)
                       + IZR (Z.of_N f) / 10 ^ String.length frac)%R))
      else None
  | _ => None
  end.

Definition leap (y : Z) : bool :=
  ((y mod 4 =? 0) && negb (y mod 100 =? 0)) || (y mod 400 =? 0).

Definition days_in_month (y m : Z) : Z :=
  if m =? 2 then (if leap y then 29 else 28)
  else if (m =? 4) || (m =? 6) || (m =? 9) || (m =? 11) then 30
  else 31.

(** Day number of a civil date, 1970-01-01 being day 0. *)
Definition days_from_civil (y m d : Z) : Z :=
  let y' := if m <=? 2 then y - 1 else y in
  let era := y' / 400 in
  let yoe := y' - era * 400 in
  let doy := (153 * (if m >? 2 then m - 3 else m + 9) + 2) / 5 + d - 1 in
  let doe := yoe * 365 + yoe / 4 - yoe / 100 + doy in
  era * 146097 + doe - 719468.

Definition civil (y m d : N) : option Z :=
  let '(y, m, d) := (Z.of_N y, Z.of_N m, Z.of_N d) in
  if (1 <=? y) && (1 <=? m) && (m <=? 12) && (1 <=? d) && (d <=? days_in_month y m)
  then Some (days_from_civil y m d) else None.

Definition short (s : string) : bool := (String.length s <=? 2)%nat.

(** [datetime.strptime(s, '%d/%m/%Y')]. *)
Definition strptime_dmy (s : string) : option Z :=
  match PyStr.split "/" s with
  | [d; m; y] =>
      if short d && short m && (String.length y =? 4)%nat then
        d ← uint d; m ← uint m; y ← uint y; civil y m d
      else None
  | _ => None
  end.

(** [pd.to_datetime] on an ISO date or a missing value. *)
Definition to_datetime (c : cell) : option cell :=
  match c with
  | CNull => Some CNull
  | CStr s =>
      match PyStr.split "-" s with
      | [y; m; d] =>
          if (String.length y =? 4)%nat && (String.length m =? 2)%nat
             && (String.length d =? 2)%nat then
            y ← uint y; m ← uint m; d ← uint d; CDate <$> civil y m d
          else None
      | _ => None
      end
  | _ => None
  end.

End Sample.

(** ** Sample upstream data *)

Definition sample_brvm : string -> http html_table -> RowFrame :=
  scrape_brvm_official Sample.py_float Sample.py_int Sample.strptime_dmy.

Definition sample_sika : string -> http sika_json -> RowFrame :=
  scrape_sika_finance Sample.to_datetime.

(** Table rows: date, open, high, low, close, volume. *)
Definition good_row : list string :=
  ["02/01/2024"; "100"; "110"; "90"; "105"; "1 200"]%string.
Definition bad_row : list string :=
  ["03/01/2024"; "abc"; "111"; "91"; "106"; "300"]%string.
Definition no_close_row : list string :=
  ["03/01/2024"; "100"; "110"; "90"; EmptyString; "1 200"]%string.
Definition same_day_row : list string :=
  ["02/01/2024"; "101"; "111"; "91"; "107"; "1 300"]%string.

(** Objects of the "intraday" array. *)
Definition sika_object (date : string) (close : R) : record :=
  [ ("date", CStr date); ("ouverture", CNum (Fin 100)); ("plus_haut", CNum (Fin 110));
    ("plus_bas", CNum (Fin 90)); ("cloture", CNum (Fin close));
    ("variation", CNum (Fin 0)); ("volume", CInt 1200) ]%string.

Definition sika_same_day : list record :=
  [ sika_object "2024-01-02" 105; sika_object "2024-01-02" 107 ].

(** ** Canonical series *)

(** One record of the canonical series; a missing price is NaN. *)
Record price_record : Type := mkPrice {
  pr_date : Z;
  pr_open : float;
  pr_high : float;
  pr_low : float;
  pr_close : float;
  pr_volume : Z;
  pr_symbol : string
}.

Definition price_cell (x : float) : cell := if isnan x then CNull else CNum x.

(** The dictionary the scraper holds for a record. *)
Definition row_of (p : price_record) : record :=
  [ ("Date", CDate (pr_date p)); ("Ouverture", price_cell (pr_open p));
    ("Plus_Haut", price_cell (pr_high p)); ("Plus_Bas", price_cell (pr_low p));
    ("Cloture", price_cell (pr_close p)); ("Volume", CInt (pr_volume p));
    ("Symbole", CStr (pr_symbol p)) ]%string.

(** The same series as the dashboard's frame. *)
Definition frame_of (series : list price_record) : DataFrame :=
  mkDataFrame (length series)
    [ ("Date", DateCol (pr_date <$> series));
      ("Ouverture", NumCol (pr_open <$> series));
      ("Plus_Haut", NumCol (pr_high <$> series));
      ("Plus_Bas", NumCol (pr_low <$> series));
      ("Cloture", NumCol (pr_close <$> series));
      ("Volume", NumCol ((fun p => of_Z (pr_volume p)) <$> series));
      ("Symbole", StrCol ((fun p => Some (pr_symbol p)) <$> series)) ]%string.

(** ** The per-symbol file ([to_csv], [read_csv], [load_data]) *)

(** A file is its header line and its data lines, each a list of fields. *)
Record csv_file : Type := mkCsv {
  header : list string;
  lines : list (list string)
}.

(** How [read_csv] reads one field on its own: a missing-value marker, a
    number, or text. *)
Inductive token : Type :=
| TMissing
| TNumber (x : float)
| TText.

Section Store.

(** The text [to_csv] writes for a float, an integer and a date. *)
Variable fmt_float : float -> string.
Variable fmt_int : Z -> string.
Variable fmt_date : Z -> string.
(** The reader's view of a field.  [read_csv] is called with its default
    settings, under which every column is typed from its text and markers
    such as the empty field, NA or NaN are read as missing. *)
Variable csv_token : string -> token.
Variable to_datetime : cell -> option cell.

(** Missing values are written as the empty field. *)
Definition cell_text (c : cell) : string :=
  match c with
  | CNull => EmptyString
  | CNum x => if isnan x then EmptyString else fmt_float x
  | CInt n => fmt_int n
  | CStr s => s
  | CDate d => fmt_date d
  end.

(** The fields written for one record of a canonical series. *)
Definition line_of (p : price_record) : list string :=
  [ fmt_date (pr_date p); cell_text (price_cell (pr_open p));
    cell_text (price_cell (pr_high p)); cell_text (price_cell (pr_low p));
    cell_text (price_cell (pr_close p)); fmt_int (pr_volume p); pr_symbol p ].

(** Column names of a frame built from records: keys in order of first
    appearance. *)
Definition add_keys (acc : list string) (r : record) : list string :=
  foldl (fun acc k => if decide (k ∈ acc) then acc else acc ++ [k]) acc (fst <$> r).

Definition all_keys (df : RowFrame) : list string := foldl add_keys [] df.

(** [df.to_csv(path, index=False)]: the content of the file. *)
Definition to_csv_text (df : RowFrame) : csv_file :=
  let names := all_keys df in
  mkCsv names
    ((fun r => (fun k => cell_text (default CNull (Rec.get k r))) <$> names) <$> df).

(** One column as [read_csv] types it: numeric when every field is a number
    or missing, text otherwise. *)
Definition numeric_token (t : token) : bool :=
  match t with TText => false | _ => true end.

Definition token_value (t : token) : float :=
  match t with TNumber x => x | _ => NaN end.

Definition read_column (fields : list string) : column :=
  if forallb (fun s => numeric_token (csv_token s)) fields
  then NumCol ((fun s => token_value (csv_token s)) <$> fields)
  else StrCol ((fun s => match csv_token s with
                         | TMissing => None
                         | _ => Some s
                         end) <$> fields).

(** [pd.read_csv(file_path)]. *)
Definition read_csv (file : csv_file) : DataFrame :=
  mkDataFrame (length (lines file))
    (imap (fun i name =>
             (name, read_column ((fun line => nth i line EmptyString) <$> lines file)))
          (header file)).

Definition column_cells (c : column) : list cell :=
  match c with
  | DateCol ds => CDate <$> ds
  | NumCol xs => CNum <$> xs
  | StrCol ss => (fun s => match s with Some s => CStr s | None => CNull end) <$> ss
  end.

(** [pd.to_datetime(column)]; [None] when it raises.  The frame type has no
    missing date: a column in which a date is missing also gives [None]. *)
Definition to_datetime_column (c : column) : option (list Z) :=
  cells ← mapM to_datetime (column_cells c);
  mapM (fun c => match c with CDate d => Some d | _ => None end) cells.

(** [pd.to_numeric(column, errors='coerce')]. *)
Definition to_numeric (c : column) : column :=
  match c with
  | NumCol xs => NumCol xs
  | StrCol ss => NumCol ((fun s => match s with
                                   | Some s => token_value (csv_token s)
                                   | None => NaN
                                   end) <$> ss)
  | DateCol ds => NumCol (of_Z <$> ds)
  end.

Definition coerce_numeric (df : DataFrame) (name : string) : DataFrame :=
  match lookup_col name (columns df) with
  | Some c => mkDataFrame (nrows df) (assign_col name (to_numeric c) (columns df))
  | None => df
  end.

(** Row order of [df.sort_values('Date')]: the row numbers sorted by date. *)
Definition pair_le (a b : Z * nat) : Prop := fst a <= fst b.

#[global] Instance pair_le_dec : RelDecision pair_le.
Proof. intros a b. unfold pair_le. apply _. Defined.

Definition sort_order (dates : list Z) : list nat :=
  snd <$> merge_sort pair_le (zip dates (seq 0 (length dates))).

Definition take_rows {A} (order : list nat) (xs : list A) : list A :=
  omap (fun i => xs !! i) order.

Definition reorder (order : list nat) (c : column) : column :=
  match c with
  | DateCol ds => DateCol (take_rows order ds)
  | NumCol xs => NumCol (take_rows order xs)
  | StrCol ss => StrCol (take_rows order ss)
  end.

Definition sort_values_Date (df : DataFrame) : DataFrame :=
  match lookup_col "Date" (columns df) with
  | Some (DateCol ds) =>
      mkDataFrame (nrows df)
        ((fun nc => (fst nc, reorder (sort_order ds) (snd nc))) <$> columns df)
  | _ => df
  end.

(** The body of the [try] in [load_data] for one file; [None] when it raises
    and the file is skipped. *)
Definition load_file (file : csv_file) : option DataFrame :=
  let df := read_csv file in
  date_column ← lookup_col "Date" (columns df);
  dates ← to_datetime_column date_column;
  let df := mkDataFrame (nrows df) (assign_col "Date" (DateCol dates) (columns df)) in
  let df := foldl coerce_numeric df
              ["Ouverture"; "Plus_Haut"; "Plus_Bas"; "Cloture"; "Volume"]%string in
  Some (sort_values_Date df).

(** [file_name.split('_')[0]]. *)
Definition symbol_of_file (file_name : string) : string :=
  default EmptyString (head (PyStr.split "_" file_name)).

(** [load_data]: every [*.csv] file of the directory, by base name. *)
Definition load_data (directory : list (string * csv_file)) : gmap string DataFrame :=
  foldl (fun data_frames entry =>
           match load_file (snd entry) with
           | Some df => <[symbol_of_file (fst entry) := df]> data_frames
           | None => data_frames
           end) ∅ directory.

End Store.

(** ** Sample text format

    The writer's and the reader's side of the file format on the sample
    values: integers and dates in full, floats for the sample prices (a real
    number has no computable decimal expansion), and the reader's default
    missing-value markers. *)

Module SampleCsv.

Definition fmt_int (n : Z) : string := NilZero.string_of_int (Z.to_int n).

Definition pad2 (n : Z) : string :=
  let s := fmt_int n in
  if (String.length s <? 2)%nat then String "0" s else s.

Definition pad4 (n : Z) : string :=
  let s := fmt_int n in
  String.app (string_of_list_ascii (replicate (4 - String.length s) "0"%char)) s.

(** The civil date of a day number, as [yyyy-mm-dd]. *)
Definition fmt_date (day : Z) : string :=
  let z := day + 719468 in
  let era := z / 146097 in
  let doe := z - era * 146097 in
  let yoe := (doe - doe / 1460 + doe / 36524 - doe / 146096) / 365 in
  let doy := doe - (365 * yoe + yoe / 4 - yoe / 100) in
  let mp := (5 * doy + 2) / 153 in
  let d := doy - (153 * mp + 2) / 5 + 1 in
  let m := if mp <? 10 then mp + 3 else mp - 9 in
  let y := yoe + era * 400 + (if m <=? 2 then 1 else 0) in
  (pad4 y ++ "-" ++ pad2 m ++ "-" ++ pad2 d)%string.

(** Text of the sample prices. *)
Definition fmt_float (x : float) : string :=
  match x with
  | NaN => "nan"
  | PInf => "inf"
  | NInf => "-inf"
  | Fin r =>
      if Req_dec_T r 90 then "90.0"
      else if Req_dec_T r 100 then "100.0"
      else if Req_dec_T r 105 then "105.0"
      else if Req_dec_T r 110 then "110.0"
      else "0.0"
  end%string.

(** [read_csv]'s default missing-value markers. *)
Definition na_values : list string :=
  [ EmptyString; "#N/A"; "#N/A N/A"; "#NA"; "-1.#IND"; "-1.#QNAN"; "-NaN";
    "-nan"; "1.#IND"; "1.#QNAN"; "<NA>"; "N/A"; "NA"; "NULL"; "NaN"; "None";
    "n/a"; "nan"; "null" ]%string.

Definition csv_token (s : string) : token :=
  if decide (s ∈ na_values) then TMissing
  else match Sample.py_float s with
       | Some x => TNumber x
       | None => TText
       end.

Definition save : RowFrame -> csv_file := to_csv_text fmt_float fmt_int fmt_date.
Definition load : csv_file -> option DataFrame := load_file csv_token Sample.to_datetime.

(** Two consecutive trading days of one instrument. *)
Definition two_days (symbol : string) : list price_record :=
  [ mkPrice 19724 (Fin 100) (Fin 110) (Fin 90) (Fin 105) 1200 symbol;
    mkPrice 19725 (Fin 105) (Fin 110) NaN (Fin 100) 300 symbol ].

End SampleCsv.

(** ** The text of integers, dates and missing values

    What [to_csv] writes for an integer and for a date, and what [read_csv]
    and [pd.to_datetime] make of a field that is a missing-value marker, a
    run of digits and hyphens, or an ISO date.  On every other field (floats
    and other numeric spellings, booleans, words) the two readers are left
    open: they are the parameters [other_token] and [other_datetime]. *)

Module Csv.

(** [str(n)] for an integer and the ISO text of a date. *)
Definition fmt_int : Z -> string := SampleCsv.fmt_int.
Definition fmt_date : Z -> string := SampleCsv.fmt_date.

(** The civil date of a day number, as [fmt_date] computes it. *)
Definition civil_from_days (day : Z) : Z * Z * Z :=
  let z := day + 719468 in
  let era := z / 146097 in
  let doe := z - era * 146097 in
  let yoe := (doe - doe / 1460 + doe / 36524 - doe / 146096) / 365 in
  let doy := doe - (365 * yoe + yoe / 4 - yoe / 100) in
  let mp := (5 * doy + 2) / 153 in
  let d := doy - (153 * mp + 2) / 5 + 1 in
  let m := if mp <? 10 then mp + 3 else mp - 9 in
  let y := yoe + era * 400 + (if m <=? 2 then 1 else 0) in
  (y, m, d).

(** The days a pandas [Timestamp] can hold: 1677-09-22 to 2262-04-11.  The
    dates of a [datetime64[ns]] column are such days. *)
Definition timestamp_min : Z := -106751.
Definition timestamp_max : Z := 106751.

Definition is_timestamp (day : Z) : Prop := timestamp_min <= day <= timestamp_max.

Definition is_digit (c : ascii) : bool :=
  match Ascii.is_nat c with Some _ => true | None => false end.

Fixpoint digits_only (s : string) : bool :=
  match s with
  | EmptyString => true
  | String c s' => is_digit c && digits_only s'
  end.

(** Fields made of digits and hyphens only. *)
Fixpoint plain (s : string) : bool :=
  match s with
  | EmptyString => true
  | String c s' => (is_digit c || Ascii.eqb c "-") && plain s'
  end.

(** A text of [width] digits that reads as the number [n]. *)
Definition field_ok (width : nat) (n : Z) (s : string) : bool :=
  (String.length s =? width)%nat && digits_only s
  && match Sample.uint s with
     | Some k => Z.of_N k =? n
     | None => false
     end.

(** [yyyy-mm-dd] with a valid calendar date. *)
Definition iso_date (s : string) : option Z :=
  match Sample.to_datetime (CStr s) with
  | Some (CDate d) => Some d
  | _ => None
  end.

Section Reader.

Variable other_token : string -> token.
Variable other_datetime : cell -> option cell.

(** [read_csv] on one field: a default missing-value marker is missing, a
    signed run of digits is that integer, any other run of digits and
    hyphens is text.  (Beyond 64 bits pandas keeps the digits as text and
    [to_numeric] then reads them as that number; the columns that hold
    integers here all go through [to_numeric].) *)
Definition csv_token (s : string) : token :=
  if decide (s ∈ SampleCsv.na_values) then TMissing
  else match Sample.py_int s with
       | Some n => TNumber (of_Z n)
       | None => if plain s then TText else other_token s
       end.

(** [pd.to_datetime] on one cell: a missing value stays missing; an ISO date
    is that day, and raises [OutOfBoundsDatetime] outside the range of
    [Timestamp]. *)
Definition to_datetime (c : cell) : option cell :=
  match c with
  | CStr s =>
      match iso_date s with
      | Some d =>
          if (timestamp_min <=? d) && (d <=? timestamp_max) then Some (CDate d)
          else None
      | None => other_datetime c
      end
  | CNull => Some CNull
  | _ => other_datetime c
  end.

Definition save (fmt_float : float -> string) : RowFrame -> csv_file :=
  to_csv_text fmt_float fmt_int fmt_date.

Definition load : csv_file -> option DataFrame := load_file csv_token to_datetime.

End Reader.

End Csv.

(** ** Paths, keys and traces *)

(** [os.path.basename(path)]. *)
Definition basename (path : string) : string :=
  default EmptyString (last (PyStr.split "/" path)).

(** Seconds a run spent in [time.sleep], read off its trace. *)
Definition total_sleep (trace : list event) : Z :=
  foldr (fun e acc => match e with Sleep seconds => seconds + acc | _ => acc end)
        0 trace.

(** ** Selections made by the charts and the export

    The performance table [perf_df] is the list of its rows, a symbol and its
    dictionary of metrics, in index order. *)

(** [perf_df[~perf_df.index.str.startswith('BRVM')]]. *)
Definition values_only (perf_df : list (string * metrics))
  : list (string * metrics) :=
  filter (fun row => String.prefix "BRVM" (fst row) = false) perf_df.

(** Row order of [sort_values(by, ascending=False)] on a table that has the
    column, that is, a table with at least one row (an empty [perf_df] has no
    column at all and sorting it raises): larger values first, missing values
    last.  The order of rows with equal values is left open by pandas'
    default sort; nothing below depends on it. *)
Definition desc_le (x y : float) : Prop :=
  match x, y with
  | _, NaN => True
  | NaN, _ => False
  | _, _ => Float.gtb y x = false
  end.

#[global] Instance desc_le_dec : RelDecision desc_le.
Proof. intros [] []; simpl; apply _. Defined.

Definition by_desc (key : metrics -> float) (a b : string * metrics) : Prop :=
  desc_le (key (snd a)) (key (snd b)).

#[global] Instance by_desc_dec (key : metrics -> float) : RelDecision (by_desc key).
Proof. intros a b. unfold by_desc. apply _. Defined.

Definition sort_values_desc (key : metrics -> float)
  (perf_df : list (string * metrics)) : list (string * metrics) :=
  merge_sort (by_desc key) perf_df.

(** [perf_df.sort_values(by, ascending=False).head(n)]. *)
Definition top_by (key : metrics -> float) (n : nat)
  (perf_df : list (string * metrics)) : list (string * metrics) :=
  take n (sort_values_desc key perf_df).

(** The rows drawn by [create_performance_chart] and, in the PDF report, by
    the table of the best Sharpe ratios. *)
Definition top_perf : list (string * metrics) -> list (string * metrics) :=
  top_by total_return 15.
Definition top_sharpe (perf_df : list (string * metrics))
  : list (string * metrics) :=
  top_by sharpe_ratio 10 (values_only perf_df).

(** [export_to_excel]: the sheet of a symbol is named
    [symbol[:20] if len(symbol) > 20 else symbol] (lengths are counted in
    characters, one byte each for the ASCII symbols of the market). *)
Definition sheet_name (symbol : string) : string :=
  if (20 <? String.length symbol)%nat then PyStr.slice_to 20 symbol else symbol.

(** [df[names]] with a list of names: [KeyError] when one is missing. *)
Definition getitem_columns (names : list string) (df : DataFrame)
  : option DataFrame :=
  cols ← mapM (fun name => pair name <$> lookup_col name (columns df)) names;
  Some (mkDataFrame (nrows df) cols).

(** The columns [export_to_excel] writes on the sheet of a symbol. *)
Definition export_names : list string :=
  ["Date"; "Ouverture"; "Plus_Haut"; "Plus_Bas"; "Cloture"; "Volume"]%string.

(** ** Live quotations ([update_dashboard.py]) *)

(** A [td] cell: its text and the [href] of its first link, if it has one. *)
Record td : Type := mkTd { td_text : string; td_href : option string }.

Module Quote.

(** The dictionary appended for one row of the quotation table. *)
Record t : Type := mk {
  symbol : string;
  name : string;
  sector : string;
  current_price : float;
  change : float;
  volume : Z;
  previous_price : float;
  year_high : float;
  year_low : float;
  detail_link : option string
}.

End Quote.

(** The quotation page: the rows ([tr]) of the table of class
    [table-cotation], [None] when the page has no such table. *)
Definition quotation_table : Type := option (list (list td)).

Section Quotations.

Variable py_float : string -> option float.
Variable py_int : string -> option Z.

(** [float(s or 0)] and [int(s or 0)]. *)
Definition float_or_0 (s : string) : option float :=
  if PyStr.truthy s then py_float s else Some zero.
Definition int_or_0 (s : string) : option Z :=
  if PyStr.truthy s then py_int s else Some 0.

(** [text.strip().replace(' ', '').replace(',', '.')]. *)
Definition price_text (s : string) : string :=
  PyStr.replace "," "." (PyStr.remove " " (PyStr.strip s)).

(** [text.strip().replace('%', '').replace(',', '.').replace(' ', '')]. *)
Definition change_text (s : string) : string :=
  PyStr.remove " " (PyStr.replace "," "." (PyStr.remove "%" (PyStr.strip s))).

(** The link of the first cell, made absolute when it is relative. *)
Definition absolute_link (href : option string) : option string :=
  match href with
  | Some link =>
      if PyStr.truthy link && negb (String.prefix "http" link)
      then Some ("https://www.sikafinance.com" ++ link)%string
      else Some link
  | None => None
  end.

(** The body of the inner [try] for one row with at least nine cells; [None]
    when a conversion raises. *)
Definition quote_of (cells : list td) : option Quote.t :=
  match cells with
  | c0 :: c1 :: c2 :: c3 :: c4 :: c5 :: c6 :: c7 :: c8 :: _ =>
      let symbol := PyStr.strip (td_text c0) in
      let name := PyStr.strip (td_text c1) in
      let sector := PyStr.strip (td_text c2) in
      current_price ← float_or_0 (price_text (td_text c3));
      change ← float_or_0 (change_text (td_text c4));
      volume ← int_or_0 (PyStr.remove " " (PyStr.strip (td_text c5)));
      previous_price ← float_or_0 (price_text (td_text c6));
      year_high ← float_or_0 (price_text (td_text c7));
      year_low ← float_or_0 (price_text (td_text c8));
      Some (Quote.mk symbol name sector current_price change volume
              previous_price year_high year_low (absolute_link (td_href c0)))
  | _ => None   (* fewer than nine cells: not reached from the loop *)
  end.

(** [get_brvm_values]: the first row is the header; a row with fewer than
    nine cells, or on which a conversion raises, is passed over. *)
Definition get_brvm_values (response : http quotation_table) : list Quote.t :=
  match response with
  | HttpFailure => []
  | HttpOk None => []
  | HttpOk (Some rows) =>
      omap (fun cells => if (9 <=? length cells)%nat then quote_of cells else None)
           (drop 1 rows)
  end.

End Quotations.

(** ** Further sample data *)

(** A listing page that cannot be fetched, a history API that answers for
    every symbol, and an official site that is down. *)
Definition sample_world : world :=
  mkWorld HttpFailure (fun _ => HttpOk (Some sika_same_day)) (fun _ => HttpFailure).

(** A saved file whose lines are not in date order, and a file without a
    [Date] column. *)
Definition sample_file : csv_file :=
  mkCsv ["Date"; "Cloture"; "Volume"]%string
        [ ["2024-01-03"; "110"; "5"]; ["2024-01-02"; "100"; "7"] ]%string.

Definition no_date_file : csv_file :=
  mkCsv ["Jour"; "Cloture"]%string [ ["2024-01-02"; "100"] ]%string.

(** A row of the quotation table: symbol (with a relative link), name,
    sector, price, change, volume, previous price, high and low of the year. *)
Definition quote_cells (symbol price : string) : list td :=
  [ mkTd symbol (Some "/marches/cotation_seance"%string); mkTd "Sonatel" None;
    mkTd "Services publics" None; mkTd price None; mkTd "1,5 %" None;
    mkTd "1 200" None; mkTd "14 900" None; mkTd "16 000" None;
    mkTd "12 000" None ]%string.

(** * Theorems *)

Section SectorFacts.
Import Sector.

Lemma classify_known (x s : string) :
  get_sector_classification !! x = Some s -> classify x = s.
Proof. intros H. unfold classify. now rewrite H. Qed.

Lemma classify_unknown (x : string) :
  get_sector_classification !! x = None ->
  classify x = (if String.prefix "BRVM" x then "Indice" else "Autres")%string.
Proof. intros H. unfold classify. now rewrite H. Qed.

End SectorFacts.

Section SectorClaims.
Import Sector.
Local Open Scope string_scope.

(** The labels a lookup can return: the six keys of [sectors] and the two
    defaults of the lambda. *)
Lemma classify_closed (x : string) :
  classify x ∈ ["Banque"; "Agro-industrie"; "Distribution"; "Services publics";
                "Industrie"; "Transport"; "Indice"; "Autres"].
Proof.
  destruct (get_sector_classification !! x) as [s|] eqn:E.
  - rewrite (classify_known _ _ E).
    apply elem_of_map_to_list in E.
    revert E. vm_compute (map_to_list _).
    rewrite !elem_of_cons, elem_of_nil.
    intros H. repeat (destruct H as [H|H]; [inversion H; subst; set_solver|]).
    destruct H.
  - rewrite (classify_unknown _ E). destruct (String.prefix _ _); set_solver.
Qed.

(** C9 (as stated, refuted): the lookup does not return the English labels
    "Public Services", "Index" and "Other" for "SONATEL", "BRVM-30" and
    "UNKNOWNCO". *)
Lemma C9_english_labels_refuted :
  ~ (classify "SONATEL" = "Public Services" /\
     classify "BRVM-30" = "Index" /\
     classify "UNKNOWNCO" = "Other").
Proof. intros (H & _ & _). vm_compute in H. discriminate H. Qed.

(** C9 (amended): the classifier is a total lookup; "SONATEL" maps to
    "Services publics"; "BRVM-30" is absent from the sector map, starts with
    "BRVM" and maps to "Indice"; "UNKNOWNCO" is absent and maps to "Autres";
    every symbol absent from the map gets "Indice" or "Autres" by its
    prefix alone, and every symbol gets one of the six sector labels or one
    of these two. *)
Theorem C9_classify_labels :
  classify "SONATEL" = "Services publics" /\
  get_sector_classification !! "BRVM-30" = None /\
  String.prefix "BRVM" "BRVM-30" = true /\
  classify "BRVM-30" = "Indice" /\
  get_sector_classification !! "UNKNOWNCO" = None /\
  classify "UNKNOWNCO" = "Autres" /\
  (forall x : string,
     get_sector_classification !! x = None ->
     classify x = if String.prefix "BRVM" x then "Indice" else "Autres") /\
  (forall x : string,
     classify x ∈ ["Banque"; "Agro-industrie"; "Distribution"; "Services publics";
                   "Industrie"; "Transport"; "Indice"; "Autres"]).
Proof.
  repeat split; try (vm_compute; reflexivity).
  - intros x H. exact (classify_unknown x H).
  - exact classify_closed.
Qed.

End SectorClaims.

(** ** Float arithmetic on finite values *)

Section FloatFacts.

Local Open Scope R_scope.

Lemma div_Fin (a b : R) : b <> 0 -> Float.div (Fin a) (Fin b) = Fin (a / b).
Proof. intros H. simpl. destruct (Req_dec_T b 0); [contradiction | reflexivity]. Qed.

Lemma gtb_Fin (a b : R) : Float.gtb (Fin a) (Fin b) = true <-> b < a.
Proof. simpl. destruct (Rlt_dec b a); split; intros; try lra; congruence. Qed.

Lemma maximum_NInf_Fin (a : R) : Float.maximum NInf (Fin a) = Fin a.
Proof. reflexivity. Qed.

Lemma maximum_Fin (a b : R) : Float.maximum (Fin a) (Fin b) = Fin (Rmax a b).
Proof.
  unfold Float.maximum, Rmax. simpl.
  destruct (Rlt_dec a b), (Rle_dec a b); try reflexivity; try lra.
  f_equal. lra.
Qed.

Lemma minimum_Fin (a b : R) : Float.minimum (Fin a) (Fin b) = Fin (Rmin a b).
Proof.
  unfold Float.minimum, Rmin. simpl.
  destruct (Rlt_dec b a), (Rle_dec a b); try reflexivity; lra.
Qed.

End FloatFacts.

(** ** Series operations on a column whose first cell is missing *)

Section SeriesFacts.

Import RealSeries.
Local Open Scope R_scope.

Lemma shift_cons (x : float) (xs : list float) :
  Series.shift (x :: xs) = NaN :: take (length xs) (x :: xs).
Proof. reflexivity. Qed.

Lemma pct_change_tail (p : R) (cs : list R) :
  Forall (fun c => c <> 0) (p :: cs) ->
  zip_with (fun x prev => x / prev - one)%fl (Fin <$> cs)
           (take (length (Fin <$> cs)) (Fin p :: (Fin <$> cs)))
  = Fin <$> returns_from p cs.
Proof.
  revert p. induction cs as [|c cs IH]; intros p H; [reflexivity|].
  inversion H as [|? ? Hp Hcs]; subst.
  cbn [fmap list_fmap length take zip_with returns_from].
  rewrite div_Fin by exact Hp.
  f_equal. apply IH. exact Hcs.
Qed.

Lemma pct_change_Fin (c0 : R) (cs : list R) :
  Forall (fun c => c <> 0) (c0 :: cs) ->
  Series.pct_change (Fin <$> (c0 :: cs)) = NaN :: (Fin <$> returns_from c0 cs).
Proof.
  intros H. unfold Series.pct_change.
  change (Fin <$> c0 :: cs) with (Fin c0 :: (Fin <$> cs)).
  rewrite shift_cons. cbn [zip_with]. f_equal.
  apply pct_change_tail. exact H.
Qed.

Lemma radd_Fin (rs : list R) :
  Series.radd one (NaN :: (Fin <$> rs)) = NaN :: (Fin <$> (Rplus 1 <$> rs)).
Proof.
  unfold Series.radd. cbn [fmap list_fmap]. f_equal.
  rewrite <- !list_fmap_compose. reflexivity.
Qed.

Lemma isnan_Fin (xs : list R) :
  isnan <$> (Fin <$> xs) = (fun _ => false) <$> xs.
Proof. rewrite <- list_fmap_compose. reflexivity. Qed.

Lemma putmask_false (v : float) (xs : list R) (ys : list float) :
  length ys = length xs ->
  Series.putmask ((fun _ => false) <$> xs) v ys = ys.
Proof.
  revert ys. induction xs as [|x xs IH]; intros [|y ys] H; try discriminate;
    [reflexivity|].
  cbn. f_equal. apply IH. simpl in H. lia.
Qed.

Lemma accumulate_mul_Fin (acc : R) (fs : list R) :
  Series.accumulate_from Float.mul (Fin acc) (Fin <$> fs)
  = Fin <$> scan Rmult acc fs.
Proof.
  revert acc. induction fs as [|f fs IH]; intros acc; [reflexivity|].
  cbn. f_equal. apply IH.
Qed.

Lemma accumulate_max_Fin (acc : R) (ws : list R) :
  Series.accumulate_from Float.maximum (Fin acc) (Fin <$> ws)
  = Fin <$> scan Rmax acc ws.
Proof.
  revert acc. induction ws as [|w ws IH]; intros acc; [reflexivity|].
  cbn [fmap list_fmap Series.accumulate_from scan].
  rewrite maximum_Fin. f_equal. apply IH.
Qed.

Lemma length_scan (f : R -> R -> R) (acc : R) (xs : list R) :
  length (scan f acc xs) = length xs.
Proof. revert acc. induction xs; intros; simpl; auto. Qed.

(** Cumulative product of [1 + return] when only the first cell is missing. *)
Lemma cumprod_Fin (fs : list R) :
  Series.cumprod (NaN :: (Fin <$> fs)) = NaN :: (Fin <$> scan Rmult 1 fs).
Proof.
  unfold Series.cumprod, Series.na_accum_func.
  cbn [fmap list_fmap isnan]. fold (@fmap list _ _ _ isnan (Fin <$> fs)).
  rewrite isnan_Fin.
  cbn [Series.putmask zip_with].
  fold (Series.putmask ((fun _ => false) <$> fs) one (Fin <$> fs)).
  rewrite putmask_false by (now rewrite length_fmap).
  cbn [Series.np_accumulate zip_with]. f_equal.
  fold (Series.putmask ((fun _ => false) <$> fs) NaN
          (Series.accumulate_from Float.mul one (Fin <$> fs))).
  unfold one. rewrite accumulate_mul_Fin.
  apply putmask_false. now rewrite length_fmap, length_scan.
Qed.

(** Running maximum when only the first cell is missing. *)
Lemma cummax_Fin (w : R) (ws : list R) :
  Series.cummax (NaN :: (Fin <$> (w :: ws)))
  = NaN :: (Fin <$> (w :: scan Rmax w ws)).
Proof.
  unfold Series.cummax, Series.na_accum_func.
  cbn [fmap list_fmap isnan]. fold (@fmap list _ _ _ isnan (Fin <$> ws)).
  rewrite isnan_Fin.
  cbn [Series.putmask zip_with Series.np_accumulate Series.accumulate_from].
  rewrite maximum_NInf_Fin. f_equal. f_equal.
  fold (Series.putmask ((fun _ => false) <$> ws) NInf (Fin <$> ws)).
  rewrite putmask_false by (now rewrite length_fmap).
  rewrite accumulate_max_Fin.
  apply putmask_false. now rewrite length_fmap, length_scan.
Qed.

Lemma length_shift (xs : list float) : length (Series.shift xs) = length xs.
Proof. unfold Series.shift. rewrite length_take. cbn [length]. lia. Qed.

Lemma length_pct_change (xs : list float) :
  length (Series.pct_change xs) = length xs.
Proof.
  unfold Series.pct_change. rewrite length_zip_with, length_shift. lia.
Qed.

Lemma length_accumulate_from (f : float -> float -> float) (acc : float)
  (xs : list float) :
  length (Series.accumulate_from f acc xs) = length xs.
Proof. revert acc. induction xs; intros; simpl; auto. Qed.

Lemma length_na_accum_func (f : float -> float -> float) (a : float)
  (xs : list float) :
  length (Series.na_accum_func f a xs) = length xs.
Proof.
  unfold Series.na_accum_func, Series.putmask.
  rewrite length_zip_with, length_fmap.
  assert (E : length (Series.np_accumulate f
                        (zip_with (fun (m : bool) x => if m then a else x)
                           (isnan <$> xs) xs)) = length xs).
  { destruct xs as [|x xs]; [reflexivity|].
    cbn [fmap list_fmap zip_with Series.np_accumulate length].
    rewrite length_accumulate_from, length_zip_with.
    fold (@fmap list _ _ _ isnan xs). rewrite length_fmap. lia. }
  rewrite E. lia.
Qed.

Lemma length_derived (cloture : list float) :
  length (rendement_of cloture) = length cloture /\
  length (cumul_of cloture) = length cloture /\
  length (drawdown_of cloture) = length cloture.
Proof.
  assert (L1 : length (rendement_of cloture) = length cloture)
    by apply length_pct_change.
  assert (L2 : length (cumul_of cloture) = length cloture).
  { unfold cumul_of, Series.cumprod, Series.radd.
    now rewrite length_na_accum_func, length_fmap. }
  repeat split; [exact L1 | exact L2 |].
  unfold drawdown_of, Series.sub_scalar, Series.div, Series.cummax.
  rewrite length_fmap, length_zip_with, length_na_accum_func, L2. lia.
Qed.

End SeriesFacts.

(** ** Column store *)

Section FrameFacts.

Lemma lookup_assign_eq (name : string) (c : column) (cols : list (string * column)) :
  lookup_col name (assign_col name c cols) = Some c.
Proof.
  induction cols as [|[n c0] rest IH]; simpl.
  - now rewrite String.eqb_refl.
  - destruct (String.eqb n name) eqn:E; simpl; rewrite E; auto.
Qed.

Lemma lookup_assign_ne (name name' : string) (c : column)
  (cols : list (string * column)) :
  name <> name' ->
  lookup_col name' (assign_col name c cols) = lookup_col name' cols.
Proof.
  intros Hne. induction cols as [|[n c0] rest IH]; simpl.
  - destruct (String.eqb name name') eqn:E; [|reflexivity].
    apply String.eqb_eq in E. contradiction.
  - destruct (String.eqb n name) eqn:E; simpl.
    + apply String.eqb_eq in E. subst n.
      destruct (String.eqb name name') eqn:E'; [|reflexivity].
      apply String.eqb_eq in E'. contradiction.
    + destruct (String.eqb n name'); auto.
Qed.

Lemma lookup_col_well_formed (df : DataFrame) (name : string) (c : column) :
  well_formed df -> lookup_col name (columns df) = Some c ->
  col_length c = nrows df.
Proof.
  unfold well_formed. generalize (nrows df) as n. intros n.
  induction (columns df) as [|[n0 c0] rest IH]; simpl; [discriminate|].
  intros H. inversion_clear H as [|? ? H1 H2].
  destruct (String.eqb n0 name); [|now apply IH].
  intros E. injection E as <-. exact H1.
Qed.

Lemma assign_col_well_formed (n : nat) (name : string) (c : column)
  (cols : list (string * column)) :
  Forall (fun nc => col_length (snd nc) = n) cols -> col_length c = n ->
  Forall (fun nc => col_length (snd nc) = n) (assign_col name c cols).
Proof.
  intros H Hc. induction cols as [|[n0 c0] rest IH]; simpl.
  - repeat constructor. exact Hc.
  - inversion_clear H as [|? ? H1 H2].
    destruct (String.eqb n0 name); constructor; auto.
Qed.

End FrameFacts.

(** ** One run of [calculate_performance] *)

Section PerformanceRun.

Variable pow : float -> float -> float.

Lemma calculate_performance_run (df : DataFrame) (cloture : list float)
  (dates : list Z) (d0 d1 : Z) (p0 p1 : float) :
  (2 <= nrows df)%nat ->
  lookup_col "Cloture" (columns df) = Some (NumCol cloture) ->
  lookup_col "Date" (columns df) = Some (DateCol dates) ->
  date_min dates = Some d0 -> date_max dates = Some d1 ->
  head cloture = Some p0 -> last cloture = Some p1 ->
  calculate_performance pow df
  = (frame_after df cloture, Some (Some (metrics_of pow cloture d0 d1 p0 p1))).
Proof.
  intros Hn Hc Hd Hmin Hmax Hhd Hlast.
  assert (Hempty : empty df || (nrows df <? 2)%nat = false).
  { unfold empty. destruct (columns df) as [|x l] eqn:E; [discriminate|].
    simpl. destruct (nrows df) as [|[|n]]; [lia|lia|reflexivity]. }
  unfold calculate_performance, bind, get_frame.
  rewrite Hempty.
  unfold getitem_num at 1. rewrite Hc.
  unfold setitem at 1. cbn [columns nrows].
  unfold getitem_date. cbn [columns nrows].
  rewrite lookup_assign_ne, Hd by discriminate.
  rewrite Hmin, Hmax. cbn [of_option ret].
  unfold getitem_num at 1. cbn [columns nrows].
  rewrite lookup_assign_ne, Hc by discriminate.
  rewrite Hhd, Hlast. cbn [of_option ret].
  unfold getitem_num at 1. cbn [columns nrows].
  rewrite lookup_assign_eq.
  unfold getitem_num at 1. cbn [columns nrows].
  rewrite lookup_assign_eq.
  unfold setitem at 1. cbn [columns nrows].
  unfold getitem_num at 1. cbn [columns nrows].
  rewrite lookup_assign_eq.
  unfold setitem at 1. cbn [columns nrows].
  unfold getitem_num at 1. cbn [columns nrows].
  rewrite lookup_assign_eq.
  reflexivity.
Qed.

End PerformanceRun.

(** ** Frames with at least two rows *)

Section CanonicalFrames.

Variable pow : float -> float -> float.

Lemma head_is_Some {A} (l : list A) : (1 <= length l)%nat -> is_Some (head l).
Proof. destruct l; simpl; [lia | eauto]. Qed.

Lemma last_is_Some' {A} (l : list A) : (1 <= length l)%nat -> is_Some (last l).
Proof.
  destruct l as [|a l]; simpl; [lia | intros _].
  revert a. induction l as [|b l IH]; intros a; simpl; eauto.
Qed.

Lemma date_min_is_Some (ds : list Z) : (1 <= length ds)%nat -> is_Some (date_min ds).
Proof. destruct ds; simpl; [lia | eauto]. Qed.

Lemma date_max_is_Some (ds : list Z) : (1 <= length ds)%nat -> is_Some (date_max ds).
Proof. destruct ds; simpl; [lia | eauto]. Qed.

(** A frame with a numeric [Cloture] column, a datetime [Date] column and at
    least two rows never makes [calculate_performance] raise, and the call
    leaves the caller's frame in the state [frame_after]. *)
Lemma calculate_performance_total (df : DataFrame) (cloture : list float)
  (dates : list Z) :
  well_formed df -> (2 <= nrows df)%nat ->
  lookup_col "Cloture" (columns df) = Some (NumCol cloture) ->
  lookup_col "Date" (columns df) = Some (DateCol dates) ->
  exists d0 d1 p0 p1,
    date_min dates = Some d0 /\ date_max dates = Some d1 /\
    head cloture = Some p0 /\ last cloture = Some p1 /\
    calculate_performance pow df
    = (frame_after df cloture, Some (Some (metrics_of pow cloture d0 d1 p0 p1))).
Proof.
  intros Hwf Hn Hc Hd.
  pose proof (lookup_col_well_formed _ _ _ Hwf Hc) as Lc.
  pose proof (lookup_col_well_formed _ _ _ Hwf Hd) as Ld.
  simpl in Lc, Ld.
  destruct (date_min_is_Some dates) as [d0 E0]; [lia|].
  destruct (date_max_is_Some dates) as [d1 E1]; [lia|].
  destruct (head_is_Some cloture) as [p0 E2]; [lia|].
  destruct (last_is_Some' cloture) as [p1 E3]; [lia|].
  exists d0, d1, p0, p1. repeat split; auto.
  now apply calculate_performance_run with (dates := dates).
Qed.

(** In a date-sorted column the minimum is the first date and the maximum
    the last one. *)
Lemma foldl_min_lower (d : Z) (ds : list Z) :
  Forall (Z.le d) ds -> foldl Z.min d ds = d.
Proof.
  induction ds as [|x ds IH]; simpl; [reflexivity|].
  intros H. inversion_clear H as [|? ? H1 H2].
  rewrite Z.min_l by exact H1. now apply IH.
Qed.

Lemma date_min_sorted (ds : list Z) :
  Sorted Z.le ds -> date_min ds = head ds.
Proof.
  intros H. apply Sorted_StronglySorted in H; [|intros x y z; lia].
  destruct ds as [|d ds]; [reflexivity|]. simpl. f_equal.
  apply foldl_min_lower. now inversion H.
Qed.

Lemma date_max_sorted (ds : list Z) :
  Sorted Z.le ds -> date_max ds = last ds.
Proof.
  intros H. apply Sorted_StronglySorted in H; [|intros x y z; lia].
  destruct ds as [|d ds]; [reflexivity|].
  simpl date_max. revert d H. induction ds as [|x ds IH]; intros d H.
  - reflexivity.
  - inversion_clear H as [|? ? H1 H2]. inversion_clear H2 as [|? ? H3 H4].
    simpl foldl. rewrite Z.max_r by exact H3.
    rewrite IH by exact H1. reflexivity.
Qed.

Lemma duration_years_Fin (days : Z) :
  (of_Z days / Fin 365.25%R)%fl = Fin (IZR days / 365.25)%R.
Proof. unfold of_Z. apply div_Fin. lra. Qed.

Lemma duration_years_positive (days : Z) :
  ((of_Z days / Fin 365.25%R) >? zero)%fl = true <-> 0 < days.
Proof.
  rewrite duration_years_Fin. unfold zero. rewrite gtb_Fin.
  split; intros H.
  - apply lt_IZR. assert (0 < IZR days / 365.25)%R as H' by exact H.
    apply (Rmult_lt_compat_r 365.25) in H'; [|lra].
    unfold Rdiv in H'. rewrite Rmult_assoc, Rinv_l in H' by lra. lra.
  - apply IZR_lt in H. apply Rdiv_lt_0_compat; lra.
Qed.

End CanonicalFrames.

(** ** Date span and returns *)

Section DateSpanClaims.

Variable pow : float -> float -> float.

(** C3: for a date-sorted frame with at least two rows, first date [d0], last
    date [d1], first close [p0] and last close [p1], [calculate_performance]
    returns a dictionary whose duration in years is [(d1 - d0) / 365.25],
    whose total return is [(p1 / p0 - 1) * 100], and whose annualized return
    is [((p1 / p0) ** (1 / years) - 1) * 100] when the duration is positive
    and 0 when it is zero. *)
Theorem C3_duration_and_returns (df : DataFrame) (cloture : list float)
  (dates : list Z) (d0 d1 : Z) (p0 p1 : float) :
  well_formed df -> (2 <= nrows df)%nat ->
  lookup_col "Cloture" (columns df) = Some (NumCol cloture) ->
  lookup_col "Date" (columns df) = Some (DateCol dates) ->
  Sorted Z.le dates ->
  head dates = Some d0 -> last dates = Some d1 ->
  head cloture = Some p0 -> last cloture = Some p1 ->
  exists df' m,
    calculate_performance pow df = (df', Some (Some m)) /\
    duration_days m = d1 - d0 /\
    duration_years m = Fin (IZR (d1 - d0) / 365.25)%R /\
    total_return m = ((p1 / p0 - one) * hundred)%fl /\
    ((duration_years m >? zero)%fl = true <-> d0 < d1) /\
    (d0 < d1 ->
     annual_return m
     = ((pow (p1 / p0) (one / duration_years m) - one) * hundred)%fl) /\
    (d1 = d0 -> duration_years m = zero /\ annual_return m = zero).
Proof.
  intros Hwf Hn Hc Hd Hs Hd0 Hd1 Hp0 Hp1.
  destruct (calculate_performance_total pow df cloture dates Hwf Hn Hc Hd)
    as (e0 & e1 & q0 & q1 & E0 & E1 & E2 & E3 & Hrun).
  rewrite date_min_sorted, Hd0 in E0 by exact Hs. injection E0 as <-.
  rewrite date_max_sorted, Hd1 in E1 by exact Hs. injection E1 as <-.
  rewrite Hp0 in E2. injection E2 as <-.
  rewrite Hp1 in E3. injection E3 as <-.
  eexists _, _. split; [exact Hrun|].
  cbn [duration_days duration_years total_return annual_return metrics_of].
  pose proof (duration_years_positive (d1 - d0)) as Hpos.
  repeat split.
  - apply duration_years_Fin.
  - intros H. apply Hpos in H. lia.
  - intros H. apply Hpos. lia.
  - intros H. unfold annual_return_of.
    destruct (_ >? _)%fl; [reflexivity|].
    destruct Hpos as [_ Hpos]. discriminate Hpos. lia.
  - subst d1. rewrite duration_years_Fin, Z.sub_diag. unfold zero.
    f_equal. lra.
  - subst d1. unfold annual_return_of.
    destruct (_ >? _)%fl; [|reflexivity].
    destruct Hpos as [Hpos _]. specialize (Hpos eq_refl). lia.
Qed.

End DateSpanClaims.

(** Two records one year apart, closes 100 and 110. *)
Lemma C3_duration_and_returns_witness :
  exists df' m,
    calculate_performance real_pow (sample_frame [0; 365] [100; 110]%R)
    = (df', Some (Some m)) /\
    duration_days m = 365 - 0 /\
    duration_years m = Fin (IZR (365 - 0) / 365.25)%R /\
    total_return m = ((Fin 110 / Fin 100 - one) * hundred)%fl /\
    ((duration_years m >? zero)%fl = true <-> 0 < 365) /\
    (0 < 365 ->
     annual_return m
     = ((real_pow (Fin 110 / Fin 100) (one / duration_years m) - one)
        * hundred)%fl) /\
    (365 = 0 -> duration_years m = zero /\ annual_return m = zero).
Proof.
  apply (C3_duration_and_returns real_pow
           (sample_frame [0; 365] [100; 110]%R)
           [Fin 100; Fin 110]%R [0; 365] 0 365 (Fin 100) (Fin 110)).
  - repeat constructor.
  - simpl. lia.
  - reflexivity.
  - reflexivity.
  - repeat constructor. simpl. lia.
  - reflexivity.
  - reflexivity.
  - reflexivity.
  - reflexivity.
Defined.

(** ** Frame effect of [calculate_performance] *)

Lemma frame_after_derived (df : DataFrame) (cloture : list float) :
  let cols := columns (frame_after df cloture) in
  lookup_col "Rendement" cols = Some (NumCol (rendement_of cloture)) /\
  lookup_col "Cumul" cols = Some (NumCol (cumul_of cloture)) /\
  lookup_col "Drawdown" cols = Some (NumCol (drawdown_of cloture)).
Proof.
  cbn [frame_after columns]. repeat split.
  - rewrite !lookup_assign_ne by discriminate. apply lookup_assign_eq.
  - rewrite lookup_assign_ne by discriminate. apply lookup_assign_eq.
  - apply lookup_assign_eq.
Qed.

Lemma frame_after_other (df : DataFrame) (cloture : list float) (name : string) :
  name <> "Rendement"%string -> name <> "Cumul"%string ->
  name <> "Drawdown"%string ->
  lookup_col name (columns (frame_after df cloture)) = lookup_col name (columns df).
Proof.
  intros H1 H2 H3. cbn [frame_after columns].
  rewrite !lookup_assign_ne by congruence. reflexivity.
Qed.

Lemma frame_after_well_formed (df : DataFrame) (cloture : list float) :
  well_formed df -> length cloture = nrows df ->
  well_formed (frame_after df cloture).
Proof.
  intros Hwf Hlen. unfold well_formed, frame_after. cbn [nrows columns].
  destruct (length_derived cloture) as (L1 & L2 & L3).
  repeat apply assign_col_well_formed; cbn [col_length]; try lia.
  exact Hwf.
Qed.

(** C10: on a frame with at least two rows, [calculate_performance] leaves
    the caller's DataFrame with the three derived columns 'Rendement',
    'Cumul' and 'Drawdown' set, the same number of rows, and the columns Date,
    Ouverture, Plus_Haut, Plus_Bas, Cloture, Volume and Symbole as they were;
    a frame that lacked one of the derived columns is therefore not the frame
    the caller passed in, and the dictionary [data_frames] of the calling loop
    holds the frame with the derived columns. *)
Theorem C10_calculate_performance_mutates_input
  (pow : float -> float -> float) (df : DataFrame) (cloture : list float)
  (dates : list Z) :
  well_formed df -> (2 <= nrows df)%nat ->
  lookup_col "Cloture" (columns df) = Some (NumCol cloture) ->
  lookup_col "Date" (columns df) = Some (DateCol dates) ->
  let df' := fst (calculate_performance pow df) in
  lookup_col "Rendement" (columns df') = Some (NumCol (Series.pct_change cloture)) /\
  (exists cumul drawdown,
     lookup_col "Cumul" (columns df') = Some (NumCol cumul) /\
     lookup_col "Drawdown" (columns df') = Some (NumCol drawdown)) /\
  nrows df' = nrows df /\
  well_formed df' /\
  (forall name, name ∈ canonical_columns ->
                lookup_col name (columns df') = lookup_col name (columns df)) /\
  (lookup_col "Rendement" (columns df) = None \/
   lookup_col "Cumul" (columns df) = None \/
   lookup_col "Drawdown" (columns df) = None -> df' <> df) /\
  (forall symbol, fst (performances_loop pow [(symbol, df)]) = [(symbol, df')]).
Proof.
  intros Hwf Hn Hc Hd.
  destruct (calculate_performance_total pow df cloture dates Hwf Hn Hc Hd)
    as (d0 & d1 & p0 & p1 & _ & _ & _ & _ & Hrun).
  cbn [performances_loop]. rewrite Hrun. cbn [fst].
  destruct (frame_after_derived df cloture) as (R1 & R2 & R3).
  split; [exact R1|]. split; [eauto|]. split; [reflexivity|].
  split; [|split; [|split]].
  - apply frame_after_well_formed; [exact Hwf|].
    exact (lookup_col_well_formed _ _ _ Hwf Hc).
  - intros name Hin. apply frame_after_other;
      intros ->; unfold canonical_columns in Hin;
      rewrite !elem_of_cons, elem_of_nil in Hin;
      repeat (destruct Hin as [Hin|Hin]; [discriminate Hin|]); exact Hin.
  - intros Hnone Heq. rewrite Heq in R1, R2, R3.
    destruct Hnone as [H|[H|H]]; congruence.
  - reflexivity.
Qed.

(** Three records, closes 100, 150, 90, on the seven persisted columns. *)
Lemma C10_calculate_performance_mutates_input_witness :
  let df := sample_frame [0; 2; 4] [100; 150; 90]%R in
  let df' := fst (calculate_performance real_pow df) in
  lookup_col "Rendement" (columns df')
  = Some (NumCol (Series.pct_change [Fin 100; Fin 150; Fin 90]%R)) /\
  (exists cumul drawdown,
     lookup_col "Cumul" (columns df') = Some (NumCol cumul) /\
     lookup_col "Drawdown" (columns df') = Some (NumCol drawdown)) /\
  nrows df' = nrows df /\
  well_formed df' /\
  (forall name, name ∈ canonical_columns ->
                lookup_col name (columns df') = lookup_col name (columns df)) /\
  (lookup_col "Rendement" (columns df) = None \/
   lookup_col "Cumul" (columns df) = None \/
   lookup_col "Drawdown" (columns df) = None -> df' <> df) /\
  (forall symbol, fst (performances_loop real_pow [(symbol, df)]) = [(symbol, df')]).
Proof.
  apply (C10_calculate_performance_mutates_input real_pow
           (sample_frame [0; 2; 4] [100; 150; 90]%R)
           [Fin 100; Fin 150; Fin 90]%R [0; 2; 4]).
  - repeat constructor.
  - simpl. lia.
  - reflexivity.
  - reflexivity.
Defined.

(** ** Volatility and Sharpe ratio *)

Section FlatSeries.

Local Open Scope R_scope.

Lemma pct_change_replicate_tail (x : float) (k : nat) :
  zip_with (fun a prev => a / prev - one)%fl (replicate k x)
           (take (length (replicate k x)) (x :: replicate k x))
  = replicate k (x / x - one)%fl.
Proof.
  induction k as [|k IH]; [reflexivity|].
  cbn [replicate length take zip_with]. f_equal. exact IH.
Qed.

Lemma pct_change_replicate (x : float) (k : nat) :
  Series.pct_change (replicate (S k) x) = NaN :: replicate k (x / x - one)%fl.
Proof.
  unfold Series.pct_change. cbn [replicate]. rewrite shift_cons.
  cbn [zip_with]. f_equal.
  - destruct x; reflexivity.
  - apply pct_change_replicate_tail.
Qed.

(** The return between two equal prices: 0 for a finite non-zero price, NaN
    otherwise ([0 / 0], [inf / inf], NaN). *)
Lemma flat_return (x : float) :
  (exists c, x = Fin c /\ c <> 0 /\ (x / x - one)%fl = Fin 0) \/
  (x / x - one)%fl = NaN.
Proof.
  destruct x as [|c| |]; try (right; reflexivity).
  destruct (Req_dec_T c 0) as [->|Hc].
  - right. simpl. destruct (Req_dec_T 0 0); [|contradiction].
    unfold sgn. destruct (Rlt_dec 0 0); [lra|]. reflexivity.
  - left. exists c. repeat split; auto.
    rewrite div_Fin by exact Hc. simpl. f_equal. field. exact Hc.
Qed.

Lemma dropna_replicate_NaN (k : nat) : Series.dropna (replicate k NaN) = [].
Proof. induction k; simpl; auto. Qed.

Lemma dropna_replicate_Fin (a : R) (k : nat) :
  Series.dropna (replicate k (Fin a)) = replicate k (Fin a).
Proof.
  induction k as [|k IH]; [reflexivity|].
  cbn [replicate]. unfold Series.dropna in *. rewrite filter_cons.
  cbn [isnan]. destruct (decide (false = false)); [|contradiction].
  f_equal. exact IH.
Qed.

Lemma sum_zeros_from (k : nat) :
  foldl Float.add (Fin 0) (replicate k (Fin 0)) = Fin 0.
Proof.
  induction k as [|k IH]; [reflexivity|].
  cbn [replicate foldl Float.add]. rewrite Rplus_0_l. exact IH.
Qed.

Lemma INR_nonzero (k : nat) : (1 <= k)%nat -> INR k <> 0.
Proof. intros H. apply not_0_INR. lia. Qed.

Lemma var_zeros (k : nat) :
  (2 <= k)%nat -> Series.var 1 (NaN :: replicate k (Fin 0)) = Fin 0.
Proof.
  intros Hk. unfold Series.var.
  assert (E : Series.dropna (NaN :: replicate k (Fin 0)) = replicate k (Fin 0)).
  { unfold Series.dropna. rewrite filter_cons. cbn [isnan].
    destruct (decide (true = false)); [discriminate|].
    apply dropna_replicate_Fin. }
  rewrite E, length_replicate.
  destruct (k <=? 1)%nat eqn:L; [apply Nat.leb_le in L; lia|].
  unfold Series.sum, zero, of_nat. rewrite sum_zeros_from.
  rewrite div_Fin by (apply INR_nonzero; lia).
  rewrite fmap_replicate.
  replace ((Fin (0 / INR k) - Fin 0) * (Fin (0 / INR k) - Fin 0))%fl
    with (Fin 0) by (simpl; f_equal; unfold Rdiv; ring).
  rewrite sum_zeros_from.
  rewrite div_Fin by (apply INR_nonzero; lia).
  f_equal. unfold Rdiv. ring.
Qed.

Lemma std_zeros (k : nat) :
  (2 <= k)%nat -> Series.std (NaN :: replicate k (Fin 0)) = Fin 0.
Proof.
  intros Hk. unfold Series.std. rewrite var_zeros by exact Hk.
  simpl. destruct (Rlt_dec 0 0); [lra|]. now rewrite sqrt_0.
Qed.

Lemma std_single (x : float) : Series.std [NaN; x] = NaN.
Proof.
  unfold Series.std, Series.var, Series.dropna.
  rewrite filter_cons. cbn [isnan].
  destruct (decide (true = false)); [discriminate|].
  rewrite filter_cons, filter_nil.
  destruct (decide (isnan x = false)); reflexivity.
Qed.

Lemma std_all_NaN (k : nat) : Series.std (NaN :: replicate k NaN) = NaN.
Proof.
  unfold Series.std, Series.var.
  change (NaN :: replicate k NaN) with (replicate (S k) NaN).
  rewrite dropna_replicate_NaN. reflexivity.
Qed.

Lemma sqrt_252 : Float.sqrt (Fin 252) = Fin (R_sqrt.sqrt 252).
Proof. simpl. destruct (Rlt_dec 252 0); [lra | reflexivity]. Qed.

(** Volatility of a flat series: 0 from three records on for a finite
    non-zero price, NaN in every other case. *)
Lemma volatility_flat (x : float) (k : nat) :
  let vol := volatility_of (replicate (S (S k)) x) in
  vol = NaN \/
  (vol = zero /\ (1 <= k)%nat /\ exists c, x = Fin c /\ c <> 0).
Proof.
  unfold volatility_of, rendement_of. rewrite pct_change_replicate.
  destruct (flat_return x) as [(c & -> & Hc & E)|E]; rewrite E.
  - destruct k as [|k].
    + left. cbn [replicate]. rewrite std_single. reflexivity.
    + right. split; [|split; [lia | eauto]].
      rewrite std_zeros by lia. rewrite sqrt_252. simpl. unfold zero.
      f_equal. ring.
  - left. rewrite std_all_NaN. reflexivity.
Qed.

Lemma volatility_flat_three (c : R) (k : nat) :
  c <> 0 -> volatility_of (replicate (S (S (S k))) (Fin c)) = zero.
Proof.
  intros Hc. unfold volatility_of, rendement_of. rewrite pct_change_replicate.
  rewrite div_Fin by exact Hc.
  replace (Fin (c / c) - one)%fl with (Fin 0)
    by (simpl; f_equal; field; exact Hc).
  rewrite std_zeros by lia. rewrite sqrt_252. simpl. unfold zero.
  f_equal. ring.
Qed.

Lemma volatility_flat_two (x : float) : volatility_of [x; x] = NaN.
Proof.
  unfold volatility_of, rendement_of.
  change [x; x] with (replicate 2 x). rewrite pct_change_replicate.
  cbn [replicate]. rewrite std_single. reflexivity.
Qed.

End FlatSeries.

Section SharpeClaims.

Local Open Scope R_scope.

Lemma positive_volatility_divisor (vol : float) :
  (vol >? zero)%fl = true ->
  (vol / hundred)%fl <> zero /\ (vol / hundred)%fl <> NaN.
Proof.
  destruct vol as [|v| |]; simpl; try discriminate.
  - destruct (Rlt_dec 0 v) as [Hv|]; [|discriminate]. intros _.
    destruct (Req_dec_T 100 0); [lra|]. split; [|discriminate].
    unfold zero. intros E. injection E as E.
    apply (Rmult_eq_compat_r 100) in E. unfold Rdiv in E.
    rewrite Rmult_assoc, Rinv_l in E by lra. lra.
  - intros _. destruct (Rlt_dec 100 0); [lra|]. split; discriminate.
Qed.

(** C7 (amended): the Sharpe ratio is
    [(annual_return / 100 - 0.03) / (volatility / 100)] exactly when the
    volatility compares greater than 0, in which case the divisor is neither
    0 nor NaN, and it is 0 otherwise.  On a flat series (every close equal)
    the Sharpe ratio is 0 and the volatility is 0 or NaN: it is 0 when the
    series has at least three records and the price is a finite non-zero
    number, and NaN when the series has exactly two records. *)
Theorem C7_sharpe_guard (pow : float -> float -> float) (df : DataFrame)
  (cloture : list float) (dates : list Z) :
  well_formed df -> (2 <= nrows df)%nat ->
  lookup_col "Cloture" (columns df) = Some (NumCol cloture) ->
  lookup_col "Date" (columns df) = Some (DateCol dates) ->
  exists df' m,
    calculate_performance pow df = (df', Some (Some m)) /\
    ((volatility m >? zero)%fl = true ->
     sharpe_ratio m
     = ((annual_return m / hundred - risk_free_rate) / (volatility m / hundred))%fl
     /\ (volatility m / hundred)%fl <> zero
     /\ (volatility m / hundred)%fl <> NaN) /\
    ((volatility m >? zero)%fl = false -> sharpe_ratio m = zero) /\
    (forall x, cloture = replicate (nrows df) x ->
               sharpe_ratio m = zero /\
               (volatility m = zero \/ volatility m = NaN)) /\
    (forall c, c <> 0 -> (3 <= nrows df)%nat ->
               cloture = replicate (nrows df) (Fin c) -> volatility m = zero) /\
    (forall x, nrows df = 2%nat -> cloture = replicate (nrows df) x ->
               volatility m = NaN).
Proof.
  intros Hwf Hn Hc Hd.
  destruct (calculate_performance_total pow df cloture dates Hwf Hn Hc Hd)
    as (d0 & d1 & p0 & p1 & _ & _ & _ & _ & Hrun).
  eexists _, _. split; [exact Hrun|].
  cbn [sharpe_ratio volatility annual_return metrics_of].
  split; [|split; [|split; [|split]]].
  - intros G. unfold sharpe_of at 1. rewrite G. split; [reflexivity|].
    now apply positive_volatility_divisor.
  - intros G. unfold sharpe_of. now rewrite G.
  - intros x ->. destruct (nrows df) as [|[|k]]; [lia|lia|].
    destruct (volatility_flat x k) as [E|(E & _)]; cbv zeta in E;
      unfold sharpe_of; rewrite E.
    + split; [reflexivity | now right].
    + split; [|now left]. simpl. destruct (Rlt_dec 0 0); [lra | reflexivity].
  - intros c Hc0 H3 ->. destruct (nrows df) as [|[|[|k]]]; [lia|lia|lia|].
    now apply volatility_flat_three.
  - intros x H2 ->. rewrite H2. apply volatility_flat_two.
Qed.

End SharpeClaims.

(** Three records with the same close. *)
Lemma C7_sharpe_guard_witness :
  exists df' m,
    calculate_performance real_pow (sample_frame [0; 1; 2] [100; 100; 100]%R)
    = (df', Some (Some m)) /\
    volatility m = zero /\ sharpe_ratio m = zero.
Proof.
  destruct (C7_sharpe_guard real_pow
              (sample_frame [0; 1; 2] [100; 100; 100]%R)
              [Fin 100; Fin 100; Fin 100]%R [0; 1; 2])
    as (df' & m & Hrun & _ & _ & Hflat & Hvol & _).
  - repeat constructor.
  - simpl. lia.
  - reflexivity.
  - reflexivity.
  - exists df', m. split; [exact Hrun|]. split.
    + apply (Hvol 100%R); [lra | simpl; lia | reflexivity].
    + apply (Hflat (Fin 100%R)). reflexivity.
Defined.

(** C7 (as stated, refuted): a series of two records with the same close has
    a volatility that is NaN, not 0 (the sample standard deviation of its
    single daily return is undefined). *)
Lemma C7_flat_two_records_volatility_not_zero :
  exists df' m,
    calculate_performance real_pow (sample_frame [0; 1] [100; 100]%R)
    = (df', Some (Some m)) /\
    volatility m = NaN /\ volatility m <> zero.
Proof.
  eexists _, _. split.
  - apply calculate_performance_run
      with (cloture := [Fin 100; Fin 100]%R) (dates := [0; 1]);
      [simpl; lia | reflexivity ..].
  - cbn [volatility metrics_of]. rewrite volatility_flat_two.
    split; [reflexivity | discriminate].
Qed.

(** ** Drawdown: the column pipeline on finite values *)

Section DrawdownPipeline.

Import RealSeries.
Local Open Scope R_scope.

Lemma div_Fin_list (ws ms : list R) :
  Forall (fun m => m <> 0) ms ->
  Series.div (NaN :: (Fin <$> ws)) (NaN :: (Fin <$> ms))
  = NaN :: (Fin <$> zip_with Rdiv ws ms).
Proof.
  intros H. unfold Series.div. cbn [zip_with Float.div]. f_equal.
  revert ws. induction H as [|m ms Hm _ IH]; intros [|w ws]; try reflexivity.
  cbn [fmap list_fmap zip_with]. rewrite div_Fin by exact Hm. f_equal. apply IH.
Qed.

Lemma sub_scalar_Fin (qs : list R) :
  Series.sub_scalar (NaN :: (Fin <$> qs)) one
  = NaN :: (Fin <$> ((fun q => q - 1) <$> qs)).
Proof.
  unfold Series.sub_scalar. cbn [fmap list_fmap]. f_equal.
  rewrite <- !list_fmap_compose. reflexivity.
Qed.

Lemma foldl_minimum_Fin (d : R) (ds : list R) :
  foldl Float.minimum (Fin d) (Fin <$> ds) = Fin (foldl Rmin d ds).
Proof.
  revert d. induction ds as [|x ds IH]; intros d; [reflexivity|].
  cbn [fmap list_fmap foldl]. rewrite minimum_Fin. apply IH.
Qed.

Lemma dropna_Fin (xs : list R) : Series.dropna (Fin <$> xs) = Fin <$> xs.
Proof.
  unfold Series.dropna. induction xs as [|x xs IH]; [reflexivity|].
  cbn [fmap list_fmap]. rewrite filter_cons. cbn [isnan].
  destruct (decide (false = false)); [|contradiction]. f_equal. exact IH.
Qed.

Lemma min_Fin (d : R) (ds : list R) :
  Series.min (NaN :: (Fin <$> (d :: ds))) = Fin (foldl Rmin d ds).
Proof.
  unfold Series.min, Series.dropna. rewrite filter_cons. cbn [isnan].
  destruct (decide (true = false)); [discriminate|].
  fold (Series.dropna (Fin <$> d :: ds)). rewrite dropna_Fin.
  cbn [fmap list_fmap]. apply foldl_minimum_Fin.
Qed.

Lemma scan_Rmax_nonzero (w : R) (ws : list R) :
  Forall (fun x => x <> 0) (w :: ws) ->
  Forall (fun x => x <> 0) (w :: scan Rmax w ws).
Proof.
  revert w. induction ws as [|x ws IH]; intros w H; [exact H|].
  inversion_clear H as [|? ? Hw H']. inversion_clear H' as [|? ? Hx Hws].
  constructor; [exact Hw|]. cbn [scan]. apply IH. constructor; [|exact Hws].
  unfold Rmax. destruct (Rle_dec w x); assumption.
Qed.

Lemma returns_factors_nonzero (p : R) (cs : list R) :
  Forall (fun c => c <> 0) (p :: cs) ->
  Forall (fun f => f <> 0) (Rplus 1 <$> returns_from p cs).
Proof.
  revert p. induction cs as [|c cs IH]; intros p H; [constructor|].
  inversion_clear H as [|? ? Hp H']. pose proof H' as H''.
  inversion_clear H' as [|? ? Hc _].
  cbn [returns_from fmap list_fmap]. constructor; [|now apply IH].
  replace (1 + (c / p - 1)) with (c / p) by lra.
  unfold Rdiv. apply Rmult_integral_contrapositive_currified; [exact Hc|].
  now apply Rinv_neq_0_compat.
Qed.

Lemma scan_Rmult_nonzero (acc : R) (fs : list R) :
  acc <> 0 -> Forall (fun f => f <> 0) fs ->
  Forall (fun w => w <> 0) (scan Rmult acc fs).
Proof.
  intros Hacc H. revert acc Hacc.
  induction H as [|f fs Hf _ IH]; intros acc Hacc; [constructor|].
  cbn [scan].
  assert (acc * f <> 0) by now apply Rmult_integral_contrapositive_currified.
  constructor; [assumption | now apply IH].
Qed.

(** The three stages on a series of finite non-zero closes. *)
Lemma drawdown_pipeline (c0 c1 : R) (cs : list R) :
  Forall (fun c => c <> 0) (c0 :: c1 :: cs) ->
  let closes := Fin <$> (c0 :: c1 :: cs) in
  let fs := Rplus 1 <$> returns_from c0 (c1 :: cs) in
  exists w ws,
    scan Rmult 1 fs = w :: ws /\
    let ms := w :: scan Rmax w ws in
    cumul_of closes = NaN :: (Fin <$> (w :: ws)) /\
    Series.cummax (cumul_of closes) = NaN :: (Fin <$> ms) /\
    drawdown_of closes
    = NaN :: (Fin <$> ((fun q => q - 1) <$> zip_with Rdiv (w :: ws) ms)).
Proof.
  intros H closes fs.
  assert (Hcum : cumul_of closes = NaN :: (Fin <$> scan Rmult 1 fs)).
  { unfold cumul_of, rendement_of, closes.
    rewrite pct_change_Fin by exact H. rewrite radd_Fin. apply cumprod_Fin. }
  assert (Hnz : Forall (fun w => w <> 0) (scan Rmult 1 fs)).
  { apply scan_Rmult_nonzero; [lra|]. now apply returns_factors_nonzero. }
  destruct (scan Rmult 1 fs) as [|w ws] eqn:E; [discriminate E|].
  exists w, ws. split; [reflexivity|]. cbv zeta.
  assert (Hmax : Series.cummax (cumul_of closes)
                 = NaN :: (Fin <$> (w :: scan Rmax w ws))).
  { rewrite Hcum. apply cummax_Fin. }
  split; [exact Hcum|]. split; [exact Hmax|].
  unfold drawdown_of. rewrite Hmax, Hcum.
  rewrite div_Fin_list by now apply scan_Rmax_nonzero.
  apply sub_scalar_Fin.
Qed.

End DrawdownPipeline.

(** ** Drawdown: the pipeline against the indexed definitions *)

Section DrawdownRefinement.

Import RealSeries DrawdownSpec.
Local Open Scope R_scope.

Variable close : nat -> R.

Local Abbreviation ret_ := (daily_return close).
Local Abbreviation W := (wealth close).
Local Abbreviation Mx := (running_max close).
Local Abbreviation DD := (drawdown close).

Lemma returns_from_close (k n : nat) :
  returns_from (close k) (close <$> seq (S k) n) = ret_ <$> seq (S k) n.
Proof.
  revert k. induction n as [|n IH]; intros k; [reflexivity|].
  cbn [seq fmap list_fmap returns_from]. f_equal.
  - unfold daily_return. now rewrite Nat.sub_succ, Nat.sub_0_r.
  - apply IH.
Qed.

Lemma scan_wealth (k n : nat) :
  scan Rmult (W k) (Rplus 1 <$> (ret_ <$> seq (S k) n)) = W <$> seq (S k) n.
Proof.
  revert k. induction n as [|n IH]; intros k; [reflexivity|].
  cbn [seq fmap list_fmap scan]. f_equal.
  change (W k * (1 + ret_ (S k))) with (W (S k)). apply IH.
Qed.

Lemma scan_running_max (k n : nat) :
  scan Rmax (Mx (S k)) (W <$> seq (S (S k)) n) = Mx <$> seq (S (S k)) n.
Proof.
  revert k. induction n as [|n IH]; intros k; [reflexivity|].
  cbn [seq fmap list_fmap scan]. f_equal.
  change (Rmax (Mx (S k)) (W (S (S k)))) with (Mx (S (S k))). apply IH.
Qed.

Lemma zip_drawdown (k n : nat) :
  (fun q => q - 1) <$> zip_with Rdiv (W <$> seq k n) (Mx <$> seq k n)
  = DD <$> seq k n.
Proof.
  revert k. induction n as [|n IH]; intros k; [reflexivity|].
  cbn [seq fmap list_fmap zip_with]. f_equal. apply IH.
Qed.

Lemma foldl_min_upto (k n : nat) :
  foldl Rmin (min_upto DD k) (DD <$> seq (S (S k)) n) = min_upto DD (k + n).
Proof.
  revert k. induction n as [|n IH]; intros k.
  - now rewrite Nat.add_0_r.
  - cbn [seq fmap list_fmap foldl].
    change (Rmin (min_upto DD k) (DD (S (S k)))) with (min_upto DD (S k)).
    rewrite IH. f_equal. lia.
Qed.

End DrawdownRefinement.

Section DrawdownClaim.

Import RealSeries DrawdownSpec.
Local Open Scope R_scope.

Lemma list_as_function (pre l : list R) :
  l = (fun i => nth i (pre ++ l) 0) <$> seq (length pre) (length l).
Proof.
  revert pre. induction l as [|x l IH]; intros pre; [reflexivity|].
  cbn [length seq fmap list_fmap]. f_equal.
  - rewrite app_nth2 by lia. now rewrite Nat.sub_diag.
  - specialize (IH (pre ++ [x])).
    rewrite <- app_assoc, length_app in IH. cbn [length app] in IH.
    rewrite Nat.add_1_r in IH. exact IH.
Qed.

(** C2: on a frame with at least two rows whose closing prices are all
    present (finite and non-zero), the column 'Cumul' holds the wealth index
    (the cumulative product of [1 + daily return], from record 1 on, record 0
    being missing), its [cummax] is the running maximum of that index,
    'Drawdown' holds index / running maximum - 1, and the reported max
    drawdown is the minimum drawdown times 100.  For the closes 100, 150, 90
    it is -40. *)
Theorem C2_drawdown (pow : float -> float -> float) (df : DataFrame)
  (closes : list R) (dates : list Z) :
  well_formed df -> (2 <= nrows df)%nat ->
  lookup_col "Cloture" (columns df) = Some (NumCol (Fin <$> closes)) ->
  lookup_col "Date" (columns df) = Some (DateCol dates) ->
  Forall (fun c => c <> 0) closes ->
  let close := fun i => nth i closes 0 in
  let later := seq 1 (nrows df - 1) in
  exists df' m cumul,
    calculate_performance pow df = (df', Some (Some m)) /\
    lookup_col "Cumul" (columns df') = Some (NumCol cumul) /\
    cumul = NaN :: (Fin <$> (wealth close <$> later)) /\
    Series.cummax cumul = NaN :: (Fin <$> (running_max close <$> later)) /\
    lookup_col "Drawdown" (columns df')
    = Some (NumCol (NaN :: (Fin <$> (drawdown close <$> later)))) /\
    max_drawdown m = Fin (max_drawdown_pct close (nrows df)) /\
    (closes = [100; 150; 90] -> max_drawdown m = Fin (-40)).
Proof.
  intros Hwf Hn Hc Hd Hnz close later.
  pose proof (lookup_col_well_formed _ _ _ Hwf Hc) as Len.
  cbn [col_length] in Len. rewrite length_fmap in Len.
  destruct closes as [|c0 [|c1 cs]]; cbn [length] in Len; [lia|lia|].
  destruct (calculate_performance_total pow df _ dates Hwf Hn Hc Hd)
    as (d0 & d1 & p0 & p1 & _ & _ & _ & _ & Hrun).
  destruct (frame_after_derived df (Fin <$> c0 :: c1 :: cs)) as (_ & R2 & R3).
  destruct (drawdown_pipeline c0 c1 cs Hnz) as (w & ws & Hscan & P1 & P2 & P3).
  (* the closes as a function of the record number *)
  assert (Htail : c1 :: cs = close <$> seq 1 (S (length cs)))
    by exact (list_as_function [c0] (c1 :: cs)).
  assert (Hlater : later = seq 1 (S (length cs))).
  { unfold later. f_equal. lia. }
  change c0 with (close 0%nat) in Hscan at 1.
  rewrite Htail, returns_from_close in Hscan.
  change 1 with (wealth close 0) in Hscan at 1.
  rewrite scan_wealth in Hscan.
  change (wealth close <$> seq 1 (S (length cs)))
    with (wealth close 1 :: (wealth close <$> seq 2 (length cs))) in Hscan.
  assert (Hw : w = wealth close 1) by congruence.
  assert (Hws : ws = wealth close <$> seq 2 (length cs)) by congruence.
  clear Hscan. subst w ws.
  assert (Hmax : wealth close 1 :: scan Rmax (wealth close 1)
                                     (wealth close <$> seq 2 (length cs))
                 = running_max close <$> seq 1 (S (length cs))).
  { change (wealth close 1) with (running_max close 1).
    rewrite scan_running_max. reflexivity. }
  rewrite Hmax in P2, P3.
  change (wealth close 1 :: (wealth close <$> seq 2 (length cs)))
    with (wealth close <$> seq 1 (S (length cs))) in P1, P3.
  rewrite zip_drawdown in P3.
  assert (Hmdd : max_drawdown (metrics_of pow (Fin <$> c0 :: c1 :: cs) d0 d1 p0 p1)
                 = Fin (max_drawdown_pct close (nrows df))).
  { cbn [max_drawdown metrics_of]. rewrite P3.
    change (seq 1 (S (length cs))) with (1%nat :: seq 2 (length cs)).
    rewrite fmap_cons, min_Fin.
    change (drawdown close 1) with (min_upto (drawdown close) 0).
    rewrite foldl_min_upto. unfold max_drawdown_pct.
    replace (nrows df - 2)%nat with (0 + length cs)%nat by lia.
    reflexivity. }
  eexists _, _, _. split; [exact Hrun|]. split; [exact R2|].
  rewrite Hlater. split; [exact P1|]. split; [exact P2|].
  split; [now rewrite R3, P3|]. split; [exact Hmdd|].
  intros E. rewrite Hmdd. injection E as -> -> ->.
  cbn [length] in Len. rewrite <- Len. f_equal.
  unfold max_drawdown_pct, drawdown, close. cbn. unfold daily_return. cbn.
  replace (1 * (1 + (150 / 100 - 1))) with 1.5 by lra.
  replace (1.5 * (1 + (90 / 150 - 1))) with 0.9 by lra.
  unfold Rmax. destruct (Rle_dec 1.5 0.9); [lra|].
  unfold Rmin. destruct (Rle_dec _ _); lra.
Qed.

End DrawdownClaim.

(** The closes 100, 150, 90 at two-day spacing. *)
Lemma C2_drawdown_witness :
  exists df' m,
    calculate_performance real_pow (sample_frame [0; 2; 4] [100; 150; 90]%R)
    = (df', Some (Some m)) /\
    lookup_col "Drawdown" (columns df')
    = Some (NumCol [NaN; Fin 0%R; Fin (-0.4)%R]) /\
    max_drawdown m = Fin (-40)%R.
Proof.
  destruct (C2_drawdown real_pow (sample_frame [0; 2; 4] [100; 150; 90]%R)
              [100; 150; 90]%R [0; 2; 4])
    as (df' & m & cumul & Hrun & _ & _ & _ & Hdd & _ & Hmdd).
  - repeat constructor.
  - simpl. lia.
  - reflexivity.
  - reflexivity.
  - repeat constructor; lra.
  - exists df', m. split; [exact Hrun|]. split; [|now apply Hmdd].
    rewrite Hdd. do 2 f_equal. cbn [sample_frame nrows length Nat.sub seq fmap list_fmap].
    unfold DrawdownSpec.drawdown. cbn. unfold DrawdownSpec.daily_return. cbn.
    replace (1 * (1 + (150 / 100 - 1)))%R with 1.5%R by lra.
    replace (1.5 * (1 + (90 / 150 - 1)))%R with 0.9%R by lra.
    unfold Rmax. destruct (Rle_dec _ _); repeat f_equal; lra.
Defined.

(** ** The HTML-table adapter *)

Section BrvmAdapterFacts.

Variable py_float : string -> option float.
Variable py_int : string -> option Z.
Variable strptime_dmy : string -> option Z.

Local Abbreviation record_of := (brvm_record py_float py_int strptime_dmy).
Local Abbreviation rows_of := (brvm_rows py_float py_int strptime_dmy).
Local Abbreviation scrape := (scrape_brvm_official py_float py_int strptime_dmy).

Lemma brvm_rows_short (symbol : string) (cols : list string)
  (rows : list (list string)) :
  (length cols < 6)%nat -> rows_of symbol (cols :: rows) = rows_of symbol rows.
Proof.
  intros H. cbn [brvm_rows].
  destruct (6 <=? length cols)%nat eqn:E; [|reflexivity].
  apply Nat.leb_le in E. lia.
Qed.

Lemma brvm_rows_error (symbol : string) (rows : list (list string))
  (cols : list string) :
  cols ∈ rows -> (6 <= length cols)%nat -> record_of symbol cols = None ->
  rows_of symbol rows = None.
Proof.
  intros Hin Hlen Hbad. induction rows as [|row rest IH]; [inversion Hin|].
  cbn [brvm_rows]. apply elem_of_cons in Hin as [<-|Hin].
  - apply Nat.leb_le in Hlen. rewrite Hlen, Hbad. reflexivity.
  - rewrite (IH Hin).
    destruct (6 <=? length row)%nat; [|reflexivity].
    destruct (record_of symbol row); reflexivity.
Qed.

Lemma brvm_rows_elem (symbol : string) (rows : list (list string))
  (data : list record) (cols : list string) (r : record) :
  rows_of symbol rows = Some data ->
  cols ∈ rows -> (6 <= length cols)%nat -> record_of symbol cols = Some r ->
  r ∈ data.
Proof.
  revert data. induction rows as [|row rest IH]; intros data Hrows Hin Hlen Hr;
    [inversion Hin|].
  cbn [brvm_rows] in Hrows.
  apply elem_of_cons in Hin as [<-|Hin].
  - apply Nat.leb_le in Hlen. rewrite Hlen, Hr in Hrows. cbn in Hrows.
    destruct (rows_of symbol rest); [|discriminate].
    injection Hrows as <-. apply list_elem_of_here.
  - destruct (6 <=? length row)%nat.
    + destruct (record_of symbol row); [|discriminate]. cbn in Hrows.
      destruct (rows_of symbol rest) as [data'|]; [|discriminate].
      injection Hrows as <-. apply list_elem_of_further. now apply IH.
    + now apply IH.
Qed.

(** Sorting keeps every row. *)
Lemma sort_values_date_Permutation (df : RowFrame) :
  Rows.sort_values_date df ≡ₚ df.
Proof. apply merge_sort_Permutation. Qed.

(** When no conversion raises, the adapter returns the parsed records, all of
    them, reordered by date. *)
Lemma scrape_brvm_official_Permutation (symbol : string)
  (rows : list (list string)) (data : list record) :
  rows_of symbol rows = Some data ->
  scrape symbol (HttpOk (Some rows)) ≡ₚ data.
Proof.
  intros H. unfold scrape_brvm_official, brvm_try. rewrite H. cbn.
  destruct (Rows.empty data); cbn; [reflexivity|].
  apply sort_values_date_Permutation.
Qed.

Lemma scrape_brvm_official_error (symbol : string) (rows : list (list string)) :
  rows_of symbol rows = None -> scrape symbol (HttpOk (Some rows)) = [].
Proof. intros H. unfold scrape_brvm_official, brvm_try. now rewrite H. Qed.

(** The closing-price entry of a record is missing exactly when the cleaned
    closing cell is the empty string or [float] returned nothing for it. *)
Lemma brvm_record_cloture (symbol : string) (c0 c1 c2 c3 c4 c5 : string)
  (more : list string) (r : record) :
  record_of symbol (c0 :: c1 :: c2 :: c3 :: c4 :: c5 :: more) = Some r ->
  Rec.get "Cloture" r
  = float_or_none py_float (PyStr.replace "," "." (PyStr.strip c4)).
Proof.
  cbn [brvm_record]. intros H.
  destruct (strptime_dmy _); [|discriminate]. cbn in H.
  destruct (float_or_none _ (PyStr.replace _ _ (PyStr.strip c1))); [|discriminate].
  cbn in H.
  destruct (float_or_none _ (PyStr.replace _ _ (PyStr.strip c2))); [|discriminate].
  cbn in H.
  destruct (float_or_none _ (PyStr.replace _ _ (PyStr.strip c3))); [|discriminate].
  cbn in H.
  destruct (float_or_none _ (PyStr.replace _ _ (PyStr.strip c4)));
    [|discriminate].
  cbn in H. destruct (int_or_zero _ _); [|discriminate]. cbn in H.
  injection H as <-. reflexivity.
Qed.

End BrvmAdapterFacts.

Section BrvmAdapterClaims.

Variable py_float : string -> option float.
Variable py_int : string -> option Z.
Variable strptime_dmy : string -> option Z.

Local Abbreviation record_of := (brvm_record py_float py_int strptime_dmy).
Local Abbreviation rows_of := (brvm_rows py_float py_int strptime_dmy).
Local Abbreviation scrape := (scrape_brvm_official py_float py_int strptime_dmy).

(** C5 (amended): a table row with fewer than six cells is skipped on its
    own, but one row with at least six cells whose date or numeric cell does
    not convert makes the HTML-table adapter return an empty series, whatever
    the other rows of the page hold. *)
Theorem C5_conversion_error_empties_fetch (symbol : string)
  (rows : list (list string)) (cols : list string) :
  cols ∈ rows -> (6 <= length cols)%nat -> record_of symbol cols = None ->
  scrape symbol (HttpOk (Some rows)) = [] /\
  forall short rest,
    (length short < 6)%nat ->
    scrape symbol (HttpOk (Some (short :: rest))) = scrape symbol (HttpOk (Some rest)).
Proof.
  intros Hin Hlen Hbad. split.
  - apply scrape_brvm_official_error. now apply brvm_rows_error with (cols := cols).
  - intros short rest Hs. unfold scrape_brvm_official, brvm_try.
    now rewrite brvm_rows_short.
Qed.

(** C6 (amended): a table row whose closing-price cell is empty still yields
    a record, and the adapter returns it with a missing closing price; the
    closing price may be absent like the opening, high and low prices. *)
Theorem C6_empty_close_is_kept_missing (symbol : string)
  (rows : list (list string)) (data : list record)
  (c0 c1 c2 c3 c4 c5 : string) (more : list string) (r : record) :
  rows_of symbol rows = Some data ->
  c0 :: c1 :: c2 :: c3 :: c4 :: c5 :: more ∈ rows ->
  record_of symbol (c0 :: c1 :: c2 :: c3 :: c4 :: c5 :: more) = Some r ->
  PyStr.replace "," "." (PyStr.strip c4) = EmptyString ->
  r ∈ scrape symbol (HttpOk (Some rows)) /\
  Rec.get "Cloture" r = Some CNull.
Proof.
  intros Hrows Hin Hr Hc4. split.
  - rewrite (scrape_brvm_official_Permutation _ _ _ symbol rows data Hrows).
    apply (brvm_rows_elem _ _ _ symbol rows data _ r Hrows Hin);
      [simpl; lia | exact Hr].
  - rewrite (brvm_record_cloture _ _ _ _ _ _ _ _ _ _ _ _ Hr), Hc4. reflexivity.
Qed.

End BrvmAdapterClaims.

(** A page of two rows, the second with an opening price that is no number. *)
Lemma C5_conversion_error_empties_fetch_witness :
  sample_brvm "SNTS" (HttpOk (Some [good_row; bad_row])) = [] /\
  forall short rest,
    (length short < 6)%nat ->
    sample_brvm "SNTS" (HttpOk (Some (short :: rest)))
    = sample_brvm "SNTS" (HttpOk (Some rest)).
Proof.
  apply (C5_conversion_error_empties_fetch
           Sample.py_float Sample.py_int Sample.strptime_dmy
           "SNTS" [good_row; bad_row] bad_row).
  - apply list_elem_of_further, list_elem_of_here.
  - simpl. lia.
  - vm_compute. reflexivity.
Defined.

(** C5 (as stated, refuted): the first row alone gives one record; with an
    unparseable second row the same page gives none, so the first row is not
    salvaged. *)
Lemma C5_good_row_not_salvaged :
  length (sample_brvm "SNTS" (HttpOk (Some [good_row]))) = 1%nat /\
  sample_brvm "SNTS" (HttpOk (Some [good_row; bad_row])) = [].
Proof. split; vm_compute; reflexivity. Qed.

(** One row with an empty closing cell. *)
Lemma C6_empty_close_is_kept_missing_witness :
  exists r,
    r ∈ sample_brvm "SNTS" (HttpOk (Some [no_close_row])) /\
    Rec.get "Cloture" r = Some CNull.
Proof.
  assert (E : exists r, brvm_record Sample.py_float Sample.py_int
                          Sample.strptime_dmy "SNTS" no_close_row = Some r).
  { vm_compute. eexists. reflexivity. }
  destruct E as [r E]. exists r. unfold sample_brvm, no_close_row in *.
  apply (C6_empty_close_is_kept_missing
           Sample.py_float Sample.py_int Sample.strptime_dmy
           "SNTS" _ [r] "03/01/2024" "100" "110" "90" EmptyString "1 200" [] r).
  - cbn [brvm_rows length Nat.leb]. rewrite E. reflexivity.
  - apply list_elem_of_here.
  - exact E.
  - reflexivity.
Defined.

(** C6 (as stated, refuted): the record of a row with an empty closing cell
    is returned, with no closing price. *)
Lemma C6_record_without_close_returned :
  let df := sample_brvm "SNTS" (HttpOk (Some [no_close_row])) in
  length df = 1%nat /\ Rows.column "Cloture" df = [CNull].
Proof. split; vm_compute; reflexivity. Qed.

(** ** The structured-API adapter *)

Section SikaAdapterFacts.

Variable to_datetime : cell -> option cell.

Lemma scrape_sika_finance_run (symbol : string) (intraday : list record)
  (dates : list cell) :
  let df := Rec.rename sika_columns <$> intraday in
  (0 < length intraday)%nat ->
  Rows.has_column "Date" df = true ->
  mapM to_datetime (Rows.column "Date" df) = Some dates ->
  scrape_sika_finance to_datetime symbol (HttpOk (Some intraday))
  = Rows.set_scalar "Symbole" (CStr symbol)
      (Rows.sort_values_date (Rows.set_column "Date" dates df)).
Proof.
  intros df Hlen Hcol Hdates. unfold scrape_sika_finance, sika_try.
  apply Nat.ltb_lt in Hlen. rewrite Hlen. fold df. rewrite Hcol, Hdates.
  reflexivity.
Qed.

Lemma set_column_length (k : string) (values : list cell) (df : RowFrame) :
  length values = length df -> length (Rows.set_column k values df) = length df.
Proof. intros H. unfold Rows.set_column. apply length_zip_with_l_eq. lia. Qed.

End SikaAdapterFacts.

Section DuplicateDatesClaim.

Variable py_float : string -> option float.
Variable py_int : string -> option Z.
Variable strptime_dmy : string -> option Z.
Variable to_datetime : cell -> option cell.

(** C4 (amended): neither adapter removes records that share a date.  The
    HTML-table adapter returns a permutation of the records it parsed; the
    structured-API adapter returns a permutation of the upstream objects (with
    parsed dates and the symbol attached), one record per object.  Two
    upstream records for the same date are therefore both returned. *)
Theorem C4_adapters_keep_every_record (symbol : string)
  (rows : list (list string)) (data : list record)
  (intraday : list record) (dates : list cell) :
  let renamed := Rec.rename sika_columns <$> intraday in
  brvm_rows py_float py_int strptime_dmy symbol rows = Some data ->
  (0 < length intraday)%nat ->
  Rows.has_column "Date" renamed = true ->
  mapM to_datetime (Rows.column "Date" renamed) = Some dates ->
  scrape_brvm_official py_float py_int strptime_dmy symbol (HttpOk (Some rows))
    ≡ₚ data /\
  scrape_sika_finance to_datetime symbol (HttpOk (Some intraday))
    ≡ₚ Rows.set_scalar "Symbole" (CStr symbol)
         (Rows.set_column "Date" dates renamed) /\
  length (scrape_sika_finance to_datetime symbol (HttpOk (Some intraday)))
  = length intraday.
Proof.
  intros renamed Hrows Hlen Hcol Hdates.
  split; [now apply scrape_brvm_official_Permutation|].
  rewrite (scrape_sika_finance_run to_datetime symbol intraday dates Hlen Hcol Hdates).
  fold renamed.
  assert (P : Rows.set_scalar "Symbole" (CStr symbol)
                (Rows.sort_values_date (Rows.set_column "Date" dates renamed))
              ≡ₚ Rows.set_scalar "Symbole" (CStr symbol)
                   (Rows.set_column "Date" dates renamed)).
  { unfold Rows.set_scalar. apply fmap_Permutation.
    apply sort_values_date_Permutation. }
  split; [exact P|].
  rewrite (Permutation_length P). unfold Rows.set_scalar.
  rewrite length_fmap, set_column_length.
  - unfold renamed. apply length_fmap.
  - apply length_mapM in Hdates. rewrite <- Hdates.
    unfold Rows.column. apply length_fmap.
Qed.

End DuplicateDatesClaim.

(** Two table rows and two API objects for 2 January 2024. *)
Lemma C4_adapters_keep_every_record_witness :
  length (sample_brvm "SNTS" (HttpOk (Some [good_row; same_day_row]))) = 2%nat /\
  length (sample_sika "SNTS" (HttpOk (Some sika_same_day))) = 2%nat.
Proof.
  assert (E : exists data,
             brvm_rows Sample.py_float Sample.py_int Sample.strptime_dmy
               "SNTS" [good_row; same_day_row] = Some data /\
             length data = 2%nat).
  { vm_compute. eexists. split; reflexivity. }
  destruct E as (data & E & Ldata).
  destruct (C4_adapters_keep_every_record
              Sample.py_float Sample.py_int Sample.strptime_dmy
              Sample.to_datetime "SNTS" [good_row; same_day_row] data
              sika_same_day [CDate 19724; CDate 19724])
    as (P & _ & L).
  - exact E.
  - simpl. lia.
  - vm_compute. reflexivity.
  - vm_compute. reflexivity.
  - split; [|exact L]. unfold sample_brvm.
    rewrite (Permutation_length P). exact Ldata.
Defined.

(** C4 (as stated, refuted): both adapters return two records for the same
    trading date when the source lists that date twice. *)
Lemma C4_same_date_returned_twice :
  Rows.column "Date" (sample_brvm "SNTS" (HttpOk (Some [good_row; same_day_row])))
  = [CDate 19724; CDate 19724] /\
  Rows.column "Date" (sample_sika "SNTS" (HttpOk (Some sika_same_day)))
  = [CDate 19724; CDate 19724].
Proof. split; vm_compute; reflexivity. Qed.

(** ** The fallback loop *)

Section FallbackClaim.

Variable py_float : string -> option float.
Variable py_int : string -> option Z.
Variable strptime_dmy : string -> option Z.
Variable to_datetime : cell -> option cell.
Variable w : world.

Local Abbreviation resolve_both :=
  (resolve py_float py_int strptime_dmy to_datetime w true true).

Lemma for_each_cons {S A} (body : A -> M S unit) (x : A) (rest : list A) (st : S) :
  snd (body x st) = Some tt ->
  for_each body (x :: rest) st = for_each body rest (fst (body x st)).
Proof.
  intros H. cbn [for_each]. unfold bind.
  destruct (body x st) as [st' [[]|]]; [reflexivity | discriminate H].
Qed.

Lemma for_each_fmap {S A B} (g : A -> B) (body : B -> M S unit) (l : list A) :
  for_each (fun x => body (g x)) l = for_each body (g <$> l).
Proof.
  induction l as [|x l IH]; [reflexivity|].
  cbn [for_each fmap list_fmap]. now rewrite IH.
Qed.

Lemma for_each_total {S A} (body : A -> M S unit) (l : list A) (st : S) :
  (forall x st, snd (body x st) = Some tt) ->
  snd (for_each body l st) = Some tt.
Proof.
  intros H. revert st. induction l as [|x l IH]; intros st; [reflexivity|].
  rewrite for_each_cons by apply H. apply IH.
Qed.

(** The run is the loop body applied to every listed stock, then to the two
    indices, in that order. *)
Lemma get_all_historical_data_unfold (st : run_state) :
  get_all_historical_data py_float py_int strptime_dmy to_datetime w true true st
  = for_each resolve_both
      ((stock_symbol <$> get_all_stocks (stocks_page w)) ++ indices)
      (mkRun (files st) (log st ++ [CallStocks])).
Proof.
  unfold get_all_historical_data.
  unfold bind at 1 2. unfold emit, ret.
  rewrite for_each_fmap, fmap_app, <- list_fmap_compose. reflexivity.
Qed.

(** What one pass of the loop body does, in full. *)
Lemma resolve_run (symbol : string) (st : run_state) :
  let sika := scrape_sika_finance to_datetime symbol (sika_api w symbol) in
  let brvm := scrape_brvm_official py_float py_int strptime_dmy symbol
                (brvm_site w symbol) in
  let chosen : option RowFrame :=
    if negb (Rows.empty sika) then Some sika
    else if negb (Rows.empty brvm) then Some brvm
    else None in
  resolve_both symbol st
  = (mkRun (match chosen with
            | Some df => <[output_path symbol := df]> (files st)
            | None => files st
            end)
           (log st ++ [CallSika symbol]
              ++ (if Rows.empty sika then [CallBrvm symbol] else [])
              ++ [match chosen with
                  | Some _ => WriteCsv (output_path symbol)
                  | None => NoData symbol
                  end; Sleep 2]),
     Some tt).
Proof.
  intros sika brvm chosen.
  unfold resolve, call_sika, call_brvm, bind, emit, ret, to_csv, chosen.
  fold sika. fold brvm. clearbody sika brvm.
  destruct (Rows.empty sika) eqn:Es, (Rows.empty brvm) eqn:Eb;
    cbn [negb andb files log];
    change (Rows.empty []) with true;
    rewrite ?Es, ?Eb; cbn [negb andb files log];
    change (Rows.empty []) with true;
    rewrite ?Es, ?Eb; cbn [negb andb files log];
    rewrite <- ?app_assoc; reflexivity.
Qed.

Lemma resolve_total (symbol : string) (st : run_state) :
  snd (resolve_both symbol st) = Some tt.
Proof. now rewrite resolve_run. Qed.

(** C1: for one instrument, with both sources enabled, the loop body calls
    the structured-API adapter first and the HTML-table adapter only when the
    first result is empty; it writes under the instrument's path exactly the
    first non-empty result, or writes nothing (and records that no data was
    found) when both are empty; it never raises, so the loop goes on with the
    remaining instruments from the state it leaves.  The run applies this
    body to every listed stock and then to the two indices, and completes. *)
Theorem C1_fallback_resolver (symbol : string) (rest : list string)
  (st : run_state) :
  let sika := scrape_sika_finance to_datetime symbol (sika_api w symbol) in
  let brvm := scrape_brvm_official py_float py_int strptime_dmy symbol
                (brvm_site w symbol) in
  let chosen : option RowFrame :=
    if negb (Rows.empty sika) then Some sika
    else if negb (Rows.empty brvm) then Some brvm
    else None in
  let st' := fst (resolve_both symbol st) in
  snd (resolve_both symbol st) = Some tt /\
  log st'
  = log st ++ [CallSika symbol]
      ++ (if Rows.empty sika then [CallBrvm symbol] else [])
      ++ [match chosen with
          | Some _ => WriteCsv (output_path symbol)
          | None => NoData symbol
          end; Sleep 2] /\
  files st'
  = match chosen with
    | Some df => <[output_path symbol := df]> (files st)
    | None => files st
    end /\
  for_each resolve_both (symbol :: rest) st = for_each resolve_both rest st' /\
  forall st0,
    let run := get_all_historical_data py_float py_int strptime_dmy to_datetime
                 w true true in
    run st0
    = for_each resolve_both
        ((stock_symbol <$> get_all_stocks (stocks_page w)) ++ indices)
        (mkRun (files st0) (log st0 ++ [CallStocks])) /\
    snd (run st0) = Some tt.
Proof.
  intros sika brvm chosen st'.
  pose proof (resolve_run symbol st) as Run. cbv zeta in Run.
  fold sika brvm in Run. fold chosen in Run.
  unfold st'. rewrite for_each_cons by apply resolve_total.
  rewrite Run. cbn [fst snd files log]. repeat split.
  - apply get_all_historical_data_unfold.
  - rewrite get_all_historical_data_unfold.
    apply for_each_total. exact resolve_total.
Qed.

End FallbackClaim.

(** ** Saving and loading a series *)

Section SortedFrames.

Lemma take_rows_from {A} (pre xs : list A) :
  take_rows (seq (length pre) (length xs)) (pre ++ xs) = xs.
Proof.
  unfold take_rows. revert pre. induction xs as [|x xs IH]; intros pre;
    [reflexivity|].
  cbn [length seq omap list_omap]. rewrite list_lookup_middle by reflexivity.
  f_equal. specialize (IH (pre ++ [x])).
  rewrite <- app_assoc, length_app, Nat.add_1_r in IH. exact IH.
Qed.

Lemma take_rows_all {A} (xs : list A) : take_rows (seq 0 (length xs)) xs = xs.
Proof. exact (take_rows_from [] xs). Qed.

Lemma zip_seq_lookup (ds : list Z) (k : nat) (d : Z) (i : nat) :
  (d, i) ∈ zip ds (seq k (length ds)) -> ds !! (i - k)%nat = Some d /\ (k <= i)%nat.
Proof.
  revert k. induction ds as [|x ds IH]; intros k H; [inversion H|].
  cbn [length seq zip zip_with] in H. apply elem_of_cons in H as [E|H].
  - injection E as -> ->. rewrite Nat.sub_diag. split; [reflexivity | lia].
  - apply IH in H as [H1 H2]. split; [|lia].
    replace (i - k)%nat with (S (i - S k)) by lia. exact H1.
Qed.

Lemma Sorted_lt_lookup (ds : list Z) (i j : nat) (a b : Z) :
  Sorted Z.lt ds -> ds !! i = Some a -> ds !! j = Some b -> (i < j)%nat -> a < b.
Proof.
  intros H. apply Sorted_StronglySorted in H; [|intros x y z; lia].
  revert i j. induction H as [|x ds Hs IH Hx]; intros i j Hi Hj Hlt;
    [rewrite lookup_nil in Hi; discriminate|].
  destruct j as [|j]; [lia|]. cbn in Hj.
  destruct i as [|i].
  - cbn in Hi. injection Hi as <-. rewrite Forall_forall in Hx.
    apply Hx. eapply list_elem_of_lookup_2. exact Hj.
  - cbn in Hi. apply (IH i j); auto. lia.
Qed.

Lemma Sorted_zip_seq (ds : list Z) (k : nat) :
  Sorted Z.lt ds -> Sorted pair_le (zip ds (seq k (length ds))).
Proof.
  intros H. revert k. induction H as [|x ds Hs IH Hx]; intros k; [constructor|].
  cbn [length seq zip zip_with]. constructor; [apply IH|].
  destruct Hx as [|y ds' Hxy]; cbn; constructor.
  unfold pair_le. cbn. lia.
Qed.

(** Sorting by date leaves a strictly date-sorted column in place. *)
Lemma sort_order_sorted (ds : list Z) :
  Sorted Z.lt ds -> sort_order ds = seq 0 (length ds).
Proof.
  intros H. unfold sort_order.
  assert (Tr : Transitive pair_le) by (intros a b c; unfold pair_le; lia).
  assert (To : Total pair_le) by (intros a b; unfold pair_le; lia).
  rewrite (Sorted_unique_strong pair_le (merge_sort pair_le (zip ds (seq 0 (length ds))))
             (zip ds (seq 0 (length ds)))).
  - apply snd_zip. rewrite length_seq. lia.
  - intros [d1 i1] [d2 i2] H1 H2 L1 L2. unfold pair_le in L1, L2. cbn in L1, L2.
    rewrite merge_sort_Permutation in H1.
    apply zip_seq_lookup in H1 as [H1 _]. apply zip_seq_lookup in H2 as [H2 _].
    rewrite Nat.sub_0_r in H1, H2.
    assert (d1 = d2) by lia. subst d2. f_equal.
    destruct (Nat.lt_trichotomy i1 i2) as [L|[E|L]]; [|exact E|].
    + pose proof (Sorted_lt_lookup ds i1 i2 d1 d1 H H1 H2 L). lia.
    + pose proof (Sorted_lt_lookup ds i2 i1 d1 d1 H H2 H1 L). lia.
  - apply Sorted_merge_sort. exact To.
  - now apply Sorted_zip_seq.
  - apply merge_sort_Permutation.
Qed.

End SortedFrames.

Section StoreRoundTrip.

Variable fmt_float : float -> string.
Variable fmt_int : Z -> string.
Variable fmt_date : Z -> string.
Variable csv_token : string -> token.
Variable to_datetime : cell -> option cell.

Local Abbreviation text := (cell_text fmt_float fmt_int fmt_date).
Local Abbreviation save := (to_csv_text fmt_float fmt_int fmt_date).
Local Abbreviation load := (load_file csv_token to_datetime).
Local Abbreviation line := (line_of fmt_float fmt_int fmt_date).

Lemma all_keys_rows (series : list price_record) :
  series <> [] -> all_keys (row_of <$> series) = canonical_columns.
Proof.
  destruct series as [|p series]; [congruence|]. intros _.
  unfold all_keys. rewrite fmap_cons. cbn [foldl].
  assert (E0 : add_keys [] (row_of p) = canonical_columns) by reflexivity.
  rewrite E0. clear E0 p.
  induction series as [|p series IH]; [reflexivity|].
  rewrite fmap_cons. cbn [foldl].
  assert (E : add_keys canonical_columns (row_of p) = canonical_columns)
    by reflexivity.
  rewrite E. exact IH.
Qed.

Lemma save_rows (series : list price_record) :
  series <> [] ->
  save (row_of <$> series) = mkCsv canonical_columns (line <$> series).
Proof.
  intros H. unfold to_csv_text. rewrite all_keys_rows by exact H. f_equal.
  rewrite <- list_fmap_compose. apply list_fmap_ext. intros i p _. reflexivity.
Qed.

Lemma read_column_text {A} (f : A -> string) (l : list A) :
  l <> [] -> (forall a, a ∈ l -> csv_token (f a) = TText) ->
  read_column csv_token (f <$> l) = StrCol ((fun a => Some (f a)) <$> l).
Proof.
  intros Hne H. unfold read_column.
  assert (E : forallb (fun s => numeric_token (csv_token s)) (f <$> l) = false).
  { destruct l as [|a l]; [congruence|]. cbn.
    rewrite (H a) by apply list_elem_of_here. reflexivity. }
  rewrite E. f_equal. rewrite <- list_fmap_compose.
  apply list_fmap_ext. intros i a Ha. cbn.
  rewrite (H a) by (eapply list_elem_of_lookup_2; exact Ha). reflexivity.
Qed.

Lemma read_column_numeric {A} (f : A -> string) (g : A -> float) (l : list A) :
  (forall a, a ∈ l ->
             numeric_token (csv_token (f a)) = true /\
             token_value (csv_token (f a)) = g a) ->
  read_column csv_token (f <$> l) = NumCol (g <$> l).
Proof.
  intros H. unfold read_column.
  assert (E : forallb (fun s => numeric_token (csv_token s)) (f <$> l) = true).
  { apply forallb_forall. intros s Hs. apply list_elem_of_In in Hs.
    apply list_elem_of_fmap in Hs as (a & -> & Ha). now apply H. }
  rewrite E. f_equal. rewrite <- list_fmap_compose.
  apply list_fmap_ext. intros i a Ha. cbn.
  apply H. eapply list_elem_of_lookup_2. exact Ha.
Qed.

Lemma mapM_fmap_Some {A B C} (f : B -> option C) (g : A -> B) (h : A -> C)
  (l : list A) :
  (forall a, a ∈ l -> f (g a) = Some (h a)) -> mapM f (g <$> l) = Some (h <$> l).
Proof.
  intros H. apply mapM_Some. apply Forall2_fmap. apply Forall_Forall2_diag.
  apply Forall_forall. exact H.
Qed.

Lemma isnan_true (x : float) : isnan x = true -> x = NaN.
Proof. destruct x; simpl; congruence. Qed.

Lemma price_field (x : float) :
  (isnan x = false -> csv_token (fmt_float x) = TNumber x) ->
  csv_token EmptyString = TMissing ->
  numeric_token (csv_token (text (price_cell x))) = true /\
  token_value (csv_token (text (price_cell x))) = x.
Proof.
  intros Hx Hm. unfold price_cell. destruct (isnan x) eqn:E.
  - cbn [cell_text]. rewrite Hm. split; [reflexivity|].
    symmetry. now apply isnan_true.
  - cbn [cell_text]. rewrite E, Hx by reflexivity. split; reflexivity.
Qed.

Lemma reorder_all (n : nat) (c : column) :
  col_length c = n -> reorder (seq 0 n) c = c.
Proof. intros <-. destruct c; cbn; f_equal; apply take_rows_all. Qed.

Lemma read_csv_rows (series : list price_record) :
  read_csv csv_token (mkCsv canonical_columns (line <$> series))
  = mkDataFrame (length series)
      [ ("Date", read_column csv_token ((fun p => fmt_date (pr_date p)) <$> series));
        ("Ouverture",
         read_column csv_token ((fun p => text (price_cell (pr_open p))) <$> series));
        ("Plus_Haut",
         read_column csv_token ((fun p => text (price_cell (pr_high p))) <$> series));
        ("Plus_Bas",
         read_column csv_token ((fun p => text (price_cell (pr_low p))) <$> series));
        ("Cloture",
         read_column csv_token ((fun p => text (price_cell (pr_close p))) <$> series));
        ("Volume", read_column csv_token ((fun p => fmt_int (pr_volume p)) <$> series));
        ("Symbole", read_column csv_token (pr_symbol <$> series)) ]%string.
Proof.
  unfold read_csv. cbn [header lines canonical_columns imap].
  rewrite length_fmap. unfold compose. cbn beta.
  rewrite <- !list_fmap_compose. reflexivity.
Qed.

(** Loading a saved series: every column but the symbol is read back as
    written; [symbols] is the symbol column as the reader types it. *)
Lemma load_after_save_columns (series : list price_record) (symbols : column) :
  series <> [] ->
  Sorted Z.lt (pr_date <$> series) ->
  csv_token EmptyString = TMissing ->
  (forall p x, p ∈ series ->
               x ∈ [pr_open p; pr_high p; pr_low p; pr_close p] ->
               isnan x = false -> csv_token (fmt_float x) = TNumber x) ->
  (forall p, p ∈ series ->
             csv_token (fmt_int (pr_volume p)) = TNumber (of_Z (pr_volume p))) ->
  (forall p, p ∈ series ->
             csv_token (fmt_date (pr_date p)) = TText /\
             to_datetime (CStr (fmt_date (pr_date p))) = Some (CDate (pr_date p))) ->
  read_column csv_token (pr_symbol <$> series) = symbols ->
  col_length symbols = length series ->
  load (save (row_of <$> series))
  = Some (mkDataFrame (length series)
            [ ("Date", DateCol (pr_date <$> series));
              ("Ouverture", NumCol (pr_open <$> series));
              ("Plus_Haut", NumCol (pr_high <$> series));
              ("Plus_Bas", NumCol (pr_low <$> series));
              ("Cloture", NumCol (pr_close <$> series));
              ("Volume", NumCol ((fun p => of_Z (pr_volume p)) <$> series));
              ("Symbole", symbols) ]%string).
Proof.
  intros Hne Hsorted Hmiss Hfloat Hint Hdate Hsym Hlen.
  rewrite save_rows by exact Hne.
  unfold load_file. rewrite read_csv_rows. cbn [nrows columns].
  (* the seven columns as the reader types them *)
  rewrite (read_column_text (fun p => fmt_date (pr_date p)) series Hne)
    by (intros p Hp; now apply Hdate).
  rewrite (read_column_numeric (fun p => text (price_cell (pr_open p))) pr_open)
    by (intros p Hp; apply price_field;
        [intros E; apply (Hfloat p); [exact Hp | repeat constructor | exact E] | exact Hmiss]).
  rewrite (read_column_numeric (fun p => text (price_cell (pr_high p))) pr_high)
    by (intros p Hp; apply price_field;
        [intros E; apply (Hfloat p); [exact Hp | repeat constructor | exact E] | exact Hmiss]).
  rewrite (read_column_numeric (fun p => text (price_cell (pr_low p))) pr_low)
    by (intros p Hp; apply price_field;
        [intros E; apply (Hfloat p); [exact Hp | repeat constructor | exact E] | exact Hmiss]).
  rewrite (read_column_numeric (fun p => text (price_cell (pr_close p))) pr_close)
    by (intros p Hp; apply price_field;
        [intros E; apply (Hfloat p); [exact Hp | repeat constructor | exact E] | exact Hmiss]).
  rewrite (read_column_numeric (fun p => fmt_int (pr_volume p))
             (fun p => of_Z (pr_volume p)))
    by (intros p Hp; rewrite (Hint p Hp); split; reflexivity).
  rewrite Hsym.
  (* the Date column is parsed *)
  cbn [lookup_col String.eqb Ascii.eqb Bool.eqb mbind option_bind].
  unfold to_datetime_column. cbn [column_cells].
  rewrite <- list_fmap_compose.
  rewrite (mapM_fmap_Some to_datetime _ (fun p => CDate (pr_date p)))
    by (intros p Hp; now apply Hdate).
  cbn [mbind option_bind].
  rewrite (mapM_fmap_Some _ (fun p => CDate (pr_date p)) pr_date)
    by reflexivity.
  cbn [mbind option_bind]. f_equal.
  (* numeric coercion changes nothing, and neither does the sort *)
  cbn [foldl coerce_numeric assign_col lookup_col columns nrows to_numeric
         String.eqb Ascii.eqb Bool.eqb].
  unfold sort_values_Date.
  cbn [lookup_col columns nrows String.eqb Ascii.eqb Bool.eqb].
  rewrite sort_order_sorted by exact Hsorted.
  f_equal.
  cbn [fmap list_fmap fst snd].
  rewrite !reorder_all by (cbn [col_length]; now rewrite ?length_fmap).
  reflexivity.
Qed.

(** Loading a saved series under a text format in which every written
    date, price, volume and missing value is read back as what was written,
    and the symbol as text: the frame of the same records, filed by
    [load_data] under the file name's prefix. *)
Lemma load_after_save_format (series : list price_record) (file_name : string) :
  series <> [] ->
  Sorted Z.lt (pr_date <$> series) ->
  csv_token EmptyString = TMissing ->
  (forall p x, p ∈ series ->
               x ∈ [pr_open p; pr_high p; pr_low p; pr_close p] ->
               isnan x = false -> csv_token (fmt_float x) = TNumber x) ->
  (forall p, p ∈ series ->
             csv_token (fmt_int (pr_volume p)) = TNumber (of_Z (pr_volume p))) ->
  (forall p, p ∈ series ->
             csv_token (fmt_date (pr_date p)) = TText /\
             to_datetime (CStr (fmt_date (pr_date p))) = Some (CDate (pr_date p))) ->
  (forall p, p ∈ series -> csv_token (pr_symbol p) = TText) ->
  load (save (row_of <$> series)) = Some (frame_of series) /\
  load_data csv_token to_datetime [(file_name, save (row_of <$> series))]
  = <[symbol_of_file file_name := frame_of series]> ∅.
Proof.
  intros Hne Hsorted Hmiss Hfloat Hint Hdate Hsym.
  assert (E : load (save (row_of <$> series)) = Some (frame_of series)).
  { apply load_after_save_columns; auto.
    - now apply read_column_text.
    - cbn [col_length]. apply length_fmap. }
  split; [exact E|].
  unfold load_data. cbn [foldl fst snd]. now rewrite E.
Qed.

End StoreRoundTrip.

(** ** The sample text format on the sample series *)

Section SampleStore.

Import SampleCsv.
Local Open Scope string_scope.

Ltac norm_IZR :=
  repeat match goal with
         | |- context [IZR ?z] =>
             let z' := eval vm_compute in z in progress change z with z'
         end.

Ltac not_a_marker :=
  unfold csv_token;
  match goal with
  | |- context [decide (?s ∈ na_values)] =>
      let Hin := fresh "Hin" in
      destruct (decide (s ∈ na_values)) as [Hin|_];
      [ exfalso; apply list_elem_of_In in Hin; cbn in Hin;
        repeat (destruct Hin as [Hin|Hin]; [discriminate Hin|]); exact Hin | ]
  end.

Lemma sample_price_text (r : R) :
  r = 90%R \/ r = 100%R \/ r = 105%R \/ r = 110%R ->
  csv_token (fmt_float (Fin r)) = TNumber (Fin r).
Proof.
  intros H. unfold fmt_float.
  destruct (Req_dec_T r 90) as [->|N1].
  { not_a_marker. cbn. norm_IZR. do 2 f_equal. lra. }
  destruct (Req_dec_T r 100) as [->|N2].
  { not_a_marker. cbn. norm_IZR. do 2 f_equal. lra. }
  destruct (Req_dec_T r 105) as [->|N3].
  { not_a_marker. cbn. norm_IZR. do 2 f_equal. lra. }
  destruct (Req_dec_T r 110) as [->|N4].
  { not_a_marker. cbn. norm_IZR. do 2 f_equal. lra. }
  exfalso. destruct H as [H|[H|[H|H]]]; contradiction.
Qed.

Lemma two_days_sorted (symbol : string) : Sorted Z.lt (pr_date <$> two_days symbol).
Proof. repeat constructor. Qed.

End SampleStore.

(** ** The collection run under any choice of sources *)

Section RunInvariants.

Variable py_float : string -> option float.
Variable py_int : string -> option Z.
Variable strptime_dmy : string -> option Z.
Variable to_datetime : cell -> option cell.
Variable w : world.

Local Abbreviation resolve_with :=
  (resolve py_float py_int strptime_dmy to_datetime w).
Local Abbreviation run_with :=
  (get_all_historical_data py_float py_int strptime_dmy to_datetime w).
Local Abbreviation sika_of :=
  (fun symbol => scrape_sika_finance to_datetime symbol (sika_api w symbol)).
Local Abbreviation brvm_of :=
  (fun symbol => scrape_brvm_official py_float py_int strptime_dmy symbol
                   (brvm_site w symbol)).

(** A property of the state kept by every pass of a loop body holds when the
    loop ends, whether it ran to its end or stopped on an exception. *)
Lemma for_each_invariant {S A} (P : S -> Prop) (body : A -> M S unit)
  (l : list A) (st : S) :
  (forall x st, P st -> P (fst (body x st))) ->
  P st -> P (fst (for_each body l st)).
Proof.
  intros H. revert st. induction l as [|x l IH]; intros st Hst; [exact Hst|].
  cbn [for_each]. unfold bind. specialize (H x st Hst).
  destruct (body x st) as [st' [[]|]]; cbn [fst] in *; [now apply IH | exact H].
Qed.

(** One pass of the loop body, for any choice of sources. *)
Lemma resolve_flags_run (use_sika use_brvm : bool) (symbol : string)
  (st : run_state) :
  let chosen : option RowFrame :=
    if use_sika && negb (Rows.empty (sika_of symbol)) then Some (sika_of symbol)
    else if use_brvm && negb (Rows.empty (brvm_of symbol)) then Some (brvm_of symbol)
    else None in
  resolve_with use_sika use_brvm symbol st
  = (mkRun (match chosen with
            | Some df => <[output_path symbol := df]> (files st)
            | None => files st
            end)
           (log st ++ (if use_sika then [CallSika symbol] else [])
              ++ (if use_brvm && (negb use_sika || Rows.empty (sika_of symbol))
                  then [CallBrvm symbol] else [])
              ++ [match chosen with
                  | Some _ => WriteCsv (output_path symbol)
                  | None => NoData symbol
                  end; Sleep 2]),
     Some tt).
Proof.
  intros chosen. subst chosen. cbv beta.
  unfold resolve, call_sika, call_brvm, bind, emit, ret, to_csv.
  set (sika := scrape_sika_finance to_datetime symbol (sika_api w symbol)).
  set (brvm := scrape_brvm_official py_float py_int strptime_dmy symbol
                 (brvm_site w symbol)).
  clearbody sika brvm.
  destruct use_sika, use_brvm, (Rows.empty sika) eqn:Es, (Rows.empty brvm) eqn:Eb;
    cbn [negb andb orb files log];
    change (Rows.empty []) with true;
    rewrite ?Es, ?Eb; cbn [negb andb orb files log];
    change (Rows.empty []) with true;
    rewrite ?Es, ?Eb; cbn [negb andb orb files log];
    rewrite <- ?app_assoc, ?app_nil_r; reflexivity.
Qed.

Lemma run_flags_unfold (use_sika use_brvm : bool) (st : run_state) :
  run_with use_sika use_brvm st
  = for_each (resolve_with use_sika use_brvm)
      ((stock_symbol <$> get_all_stocks (stocks_page w)) ++ indices)
      (mkRun (files st) (log st ++ [CallStocks])).
Proof.
  unfold get_all_historical_data.
  unfold bind at 1 2. unfold emit, ret.
  rewrite for_each_fmap, fmap_app, <- list_fmap_compose. reflexivity.
Qed.

(** X1: a source that is switched off is never called, for any instrument:
    the trace of a run has no call to the history API beyond those already in
    it when [use_sika] is false, none to the official site when [use_brvm] is
    false, and with both switched off the run writes no file at all. *)
Theorem disabled_source_is_never_called (use_sika use_brvm : bool)
  (st : run_state) :
  let st' := fst (run_with use_sika use_brvm st) in
  (forall symbol, CallSika symbol ∈ log st' ->
                  CallSika symbol ∈ log st \/ use_sika = true) /\
  (forall symbol, CallBrvm symbol ∈ log st' ->
                  CallBrvm symbol ∈ log st \/ use_brvm = true) /\
  (use_sika = false -> use_brvm = false -> files st' = files st).
Proof.
  intros st'. unfold st'. rewrite run_flags_unfold.
  set (st0 := mkRun (files st) (log st ++ [CallStocks])).
  set (P := fun s : run_state =>
    (forall symbol, CallSika symbol ∈ log s ->
                    CallSika symbol ∈ log st \/ use_sika = true) /\
    (forall symbol, CallBrvm symbol ∈ log s ->
                    CallBrvm symbol ∈ log st \/ use_brvm = true) /\
    (use_sika = false -> use_brvm = false -> files s = files st)).
  apply (for_each_invariant P).
  - intros symbol s (H1 & H2 & H3). unfold P.
    rewrite resolve_flags_run. cbn [fst files log].
    split; [|split].
    + intros x. rewrite !elem_of_app. intros [H|[H|[H|H]]].
      * now apply H1.
      * destruct use_sika; [now right|]. inversion H.
      * destruct (_ && _); [|inversion H].
        apply list_elem_of_singleton in H. discriminate H.
      * rewrite !elem_of_cons, elem_of_nil in H.
        destruct H as [H|[H|[]]]; [|discriminate H].
        destruct (if _ && _ then _ else _); discriminate H.
    + intros x. rewrite !elem_of_app. intros [H|[H|[H|H]]].
      * now apply H2.
      * destruct use_sika; [|inversion H].
        apply list_elem_of_singleton in H. discriminate H.
      * destruct use_brvm; [now right|]. inversion H.
      * rewrite !elem_of_cons, elem_of_nil in H.
        destruct H as [H|[H|[]]]; [|discriminate H].
        destruct (if _ && _ then _ else _); discriminate H.
    + intros -> ->. cbn. now apply H3.
  - unfold P, st0. cbn [files log]. split; [|split].
    + intros x. rewrite elem_of_app. intros [H|H]; [now left|].
      apply list_elem_of_singleton in H. discriminate H.
    + intros x. rewrite elem_of_app. intros [H|H]; [now left|].
      apply list_elem_of_singleton in H. discriminate H.
    + reflexivity.
Qed.

(** X2: every file a run leaves behind that was not there before holds a
    non-empty frame, stored under the path of an instrument and returned for
    that instrument by one of the two adapters; an empty frame is never
    written. *)
Theorem written_files_are_nonempty (use_sika use_brvm : bool) (st : run_state)
  (path : string) (df : RowFrame) :
  files (fst (run_with use_sika use_brvm st)) !! path = Some df ->
  files st !! path = Some df \/
  (Rows.empty df = false /\
   exists symbol, path = output_path symbol /\
                  (df = sika_of symbol \/ df = brvm_of symbol)).
Proof.
  rewrite run_flags_unfold.
  set (st0 := mkRun (files st) (log st ++ [CallStocks])).
  set (P := fun s : run_state =>
    files s !! path = Some df ->
    files st !! path = Some df \/
    (Rows.empty df = false /\
     exists symbol, path = output_path symbol /\
                    (df = sika_of symbol \/ df = brvm_of symbol))).
  apply (for_each_invariant P); [|unfold P, st0; cbn [files]; tauto].
  intros symbol s IH. unfold P. rewrite resolve_flags_run. cbn [fst files].
  destruct (use_sika && negb (Rows.empty (sika_of symbol))) eqn:E1.
  - destruct (decide (path = output_path symbol)) as [->|Hne].
    + rewrite lookup_insert_eq. intros [= <-]. right.
      apply andb_prop in E1 as [_ E1]. apply negb_true_iff in E1.
      split; [exact E1|]. exists symbol. auto.
    + rewrite lookup_insert_ne by congruence. exact IH.
  - destruct (use_brvm && negb (Rows.empty (brvm_of symbol))) eqn:E2; [|exact IH].
    destruct (decide (path = output_path symbol)) as [->|Hne].
    + rewrite lookup_insert_eq. intros [= <-]. right.
      apply andb_prop in E2 as [_ E2]. apply negb_true_iff in E2.
      split; [exact E2|]. exists symbol. auto.
    + rewrite lookup_insert_ne by congruence. exact IH.
Qed.

Lemma total_sleep_app (l1 l2 : list event) :
  total_sleep (l1 ++ l2) = total_sleep l1 + total_sleep l2.
Proof.
  unfold total_sleep. induction l1 as [|e l1 IH]; cbn [app foldr]; [lia|].
  rewrite IH. destruct e; lia.
Qed.

Lemma for_each_resolve_sleep (use_sika use_brvm : bool) (symbols : list string)
  (st : run_state) :
  total_sleep (log (fst (for_each (resolve_with use_sika use_brvm) symbols st)))
  = total_sleep (log st) + 2 * Z.of_nat (length symbols).
Proof.
  revert st. induction symbols as [|symbol rest IH]; intros st.
  - cbn. lia.
  - rewrite for_each_cons by now rewrite resolve_flags_run.
    rewrite IH, resolve_flags_run. cbn [fst log length].
    rewrite !total_sleep_app.
    assert (E1 : total_sleep (if use_sika then [CallSika symbol] else []) = 0)
      by now destruct use_sika.
    assert (E2 : total_sleep
                   (if use_brvm && (negb use_sika || Rows.empty (sika_of symbol))
                    then [CallBrvm symbol] else []) = 0)
      by now destruct (_ && _).
    rewrite E1, E2.
    assert (E3 : forall e, match e with Sleep _ => False | _ => True end ->
                           total_sleep [e; Sleep 2] = 2)
      by (intros []; cbn; tauto).
    rewrite E3; [lia|].
    destruct (if use_sika && _ then _ else _); exact I.
Qed.

(** X3: a run pauses two seconds after every instrument, whatever the two
    sources returned and whichever are enabled: the time it spends asleep is
    2 s times the number of listed stocks plus the two indices (4 s when the
    listing page fails or has no table, since the stock list is then empty). *)
Theorem run_sleeps_once_per_instrument (use_sika use_brvm : bool)
  (st : run_state) :
  total_sleep (log (fst (run_with use_sika use_brvm st)))
  = total_sleep (log st)
    + 2 * (Z.of_nat (length (get_all_stocks (stocks_page w))) + 2) /\
  (stocks_page w = HttpFailure \/ stocks_page w = HttpOk None ->
   total_sleep (log (fst (run_with use_sika use_brvm st)))
   = total_sleep (log st) + 4).
Proof.
  assert (E : total_sleep (log (fst (run_with use_sika use_brvm st)))
              = total_sleep (log st)
                + 2 * (Z.of_nat (length (get_all_stocks (stocks_page w))) + 2)).
  { rewrite run_flags_unfold, for_each_resolve_sleep. cbn [log].
    rewrite total_sleep_app, length_app, length_fmap. cbn. lia. }
  split; [exact E|].
  intros [H|H]; rewrite E, H; reflexivity.
Qed.

End RunInvariants.

(** ** What the two adapters return, whatever the reply *)

Section AdapterInvariants.

Variable py_float : string -> option float.
Variable py_int : string -> option Z.
Variable strptime_dmy : string -> option Z.
Variable to_datetime : cell -> option cell.

Local Abbreviation record_of := (brvm_record py_float py_int strptime_dmy).
Local Abbreviation rows_of := (brvm_rows py_float py_int strptime_dmy).
Local Abbreviation scrape_brvm := (scrape_brvm_official py_float py_int strptime_dmy).
Local Abbreviation scrape_sika := (scrape_sika_finance to_datetime).

Lemma date_le_total : Total Rows.date_le.
Proof.
  intros r1 r2. unfold Rows.date_le.
  destruct (Rows.date_key r1), (Rows.date_key r2); cbn; try tauto. lia.
Qed.

Lemma sort_values_date_Sorted (df : RowFrame) :
  Sorted Rows.date_le (Rows.sort_values_date df).
Proof. apply Sorted_merge_sort. exact date_le_total. Qed.

(** A frame that pandas calls empty is sorted: none of its rows has a date. *)
Lemma empty_frame_Sorted (df : RowFrame) :
  Rows.empty df = true -> Sorted Rows.date_le df.
Proof.
  unfold Rows.empty. induction df as [|r df IH]; intros H; [constructor|].
  cbn [forallb] in H. destruct r; [|discriminate H].
  constructor; [now apply IH|].
  destruct df as [|r' df]; constructor.
  cbn [forallb andb] in H. destruct r'; [|discriminate H]. exact I.
Qed.

Lemma get_set_eq (k : string) (v : cell) (r : record) :
  Rec.get k (Rec.set k v r) = Some v.
Proof.
  induction r as [|[k' v'] r IH]; cbn.
  - now rewrite String.eqb_refl.
  - destruct (String.eqb k' k) eqn:E; cbn; rewrite E; auto.
Qed.

Lemma get_set_ne (k k' : string) (v : cell) (r : record) :
  k <> k' -> Rec.get k' (Rec.set k v r) = Rec.get k' r.
Proof.
  intros Hne. induction r as [|[k0 v0] r IH]; cbn.
  - destruct (String.eqb_spec k k'); [contradiction | reflexivity].
  - destruct (String.eqb_spec k0 k) as [->|Hk]; cbn.
    + destruct (String.eqb_spec k k'); [contradiction | reflexivity].
    + destruct (String.eqb k0 k'); auto.
Qed.

Lemma date_key_set_symbol (v : cell) (r : record) :
  Rows.date_key (Rec.set "Symbole" v r) = Rows.date_key r.
Proof. unfold Rows.date_key. now rewrite get_set_ne by discriminate. Qed.

(** X4: both adapters return their records in ascending date order, whatever
    the upstream reply: the official-site adapter sorts a non-empty table (and
    returns nothing otherwise), the history-API adapter sorts before it
    attaches the symbol, which leaves the dates in place. *)
Theorem adapters_return_date_sorted_series (symbol : string)
  (page : http html_table) (reply : http sika_json) :
  Sorted Rows.date_le (scrape_brvm symbol page) /\
  Sorted Rows.date_le (scrape_sika symbol reply).
Proof.
  split.
  - unfold scrape_brvm_official, brvm_try.
    destruct page as [|[rows|]]; cbn; try constructor.
    destruct (rows_of symbol rows) as [data|]; cbn; [|constructor].
    destruct (Rows.empty data) eqn:E; cbn.
    + now apply empty_frame_Sorted.
    + apply sort_values_date_Sorted.
  - unfold scrape_sika_finance, sika_try.
    destruct reply as [|[intraday|]]; try constructor.
    destruct (0 <? length intraday)%nat; [|constructor].
    destruct (Rows.has_column _ _); [|constructor].
    destruct (mapM _ _) as [dates|]; cbn; [|constructor].
    unfold Rows.set_scalar.
    apply (Sorted_fmap _ Rows.date_le Rows.date_le).
    + intros r1 r2. unfold Rows.date_le. now rewrite !date_key_set_symbol.
    + apply sort_values_date_Sorted.
Qed.

Lemma float_or_none_cell (s : string) (c : cell) :
  float_or_none py_float s = Some c -> c = CNull \/ exists x, c = CNum x.
Proof.
  unfold float_or_none. destruct (PyStr.truthy s).
  - destruct (py_float s) as [x|]; cbn; [|discriminate].
    intros [= <-]. eauto.
  - intros [= <-]. now left.
Qed.

Lemma int_or_zero_cell (s : string) (c : cell) :
  int_or_zero py_int s = Some c -> exists n, c = CInt n.
Proof.
  unfold int_or_zero. destruct (PyStr.truthy s).
  - destruct (py_int s) as [n|]; cbn; [|discriminate].
    intros [= <-]. eauto.
  - intros [= <-]. eauto.
Qed.

(** The dictionary built for a table row. *)
Lemma brvm_record_shape (symbol : string) (cols : list string) (r : record) :
  record_of symbol cols = Some r ->
  exists d o h l c n,
    r = [ ("Date", CDate d); ("Ouverture", o); ("Plus_Haut", h);
          ("Plus_Bas", l); ("Cloture", c); ("Volume", CInt n);
          ("Symbole", CStr symbol) ]%string /\
    Forall (fun x => x = CNull \/ exists y, x = CNum y) [o; h; l; c].
Proof.
  unfold brvm_record.
  destruct cols as [|c0 [|c1 [|c2 [|c3 [|c4 [|c5 more]]]]]]; try discriminate.
  destruct (strptime_dmy _) as [d|]; [|discriminate]. cbn.
  destruct (float_or_none _ (PyStr.replace _ _ (PyStr.strip c1))) as [o|] eqn:Eo;
    [|discriminate]. cbn.
  destruct (float_or_none _ (PyStr.replace _ _ (PyStr.strip c2))) as [h|] eqn:Eh;
    [|discriminate]. cbn.
  destruct (float_or_none _ (PyStr.replace _ _ (PyStr.strip c3))) as [l|] eqn:El;
    [|discriminate]. cbn.
  destruct (float_or_none _ (PyStr.replace _ _ (PyStr.strip c4))) as [c|] eqn:Ec;
    [|discriminate]. cbn.
  destruct (int_or_zero _ _) as [v|] eqn:Ev; [|discriminate]. cbn.
  intros [= <-]. apply int_or_zero_cell in Ev as [n ->].
  exists d, o, h, l, c, n. split; [reflexivity|].
  repeat (constructor; [eapply float_or_none_cell; eassumption|]). constructor.
Qed.

Lemma brvm_rows_Forall (P : record -> Prop) (symbol : string)
  (rows : list (list string)) (data : list record) :
  (forall cols r, record_of symbol cols = Some r -> P r) ->
  rows_of symbol rows = Some data -> Forall P data.
Proof.
  intros HP. revert data. induction rows as [|cols rest IH]; intros data.
  - intros [= <-]. constructor.
  - cbn [brvm_rows]. destruct (6 <=? length cols)%nat; [|apply IH].
    destruct (record_of symbol cols) as [r|] eqn:Er; [|discriminate]. cbn.
    destruct (rows_of symbol rest) as [data'|]; [|discriminate]. cbn.
    intros [= <-]. constructor; [eapply HP, Er | now apply IH].
Qed.

Lemma scrape_brvm_Forall (P : record -> Prop) (symbol : string)
  (page : http html_table) :
  (forall cols r, record_of symbol cols = Some r -> P r) ->
  Forall P (scrape_brvm symbol page).
Proof.
  intros HP. unfold scrape_brvm_official, brvm_try.
  destruct page as [|[rows|]]; cbn; try constructor.
  destruct (rows_of symbol rows) as [data|] eqn:E; cbn; [|constructor].
  pose proof (brvm_rows_Forall P symbol rows data HP E) as H.
  destruct (Rows.empty data); cbn; [exact H|].
  unfold Rows.sort_values_date. now rewrite merge_sort_Permutation.
Qed.

(** X5: every record the official-site adapter returns has the seven
    canonical keys, in the canonical order: a parsed date, four prices that
    are each a number or missing, an integer volume, and the symbol that was
    asked for. *)
Theorem brvm_records_have_canonical_schema (symbol : string)
  (page : http html_table) (r : record) :
  r ∈ scrape_brvm symbol page ->
  fst <$> r = canonical_columns /\
  (exists d, Rec.get "Date" r = Some (CDate d)) /\
  (forall k, k ∈ ["Ouverture"; "Plus_Haut"; "Plus_Bas"; "Cloture"]%string ->
             Rec.get k r = Some CNull \/ exists x, Rec.get k r = Some (CNum x)) /\
  (exists n, Rec.get "Volume" r = Some (CInt n)) /\
  Rec.get "Symbole" r = Some (CStr symbol).
Proof.
  revert r. apply Forall_forall. apply scrape_brvm_Forall.
  intros cols r Hr.
  apply brvm_record_shape in Hr as (d & o & h & l & c & n & -> & Hp).
  split; [reflexivity|]. split; [eauto|]. split; [|split; [eauto | reflexivity]].
  inversion_clear Hp as [|? ? Ho Hp']. inversion_clear Hp' as [|? ? Hh Hp].
  inversion_clear Hp as [|? ? Hl Hp']. inversion_clear Hp' as [|? ? Hc _].
  intros k Hk. rewrite !elem_of_cons, elem_of_nil in Hk.
  destruct Hk as [->|[->|[->|[->|[]]]]]; cbn;
    [destruct Ho as [->|[x ->]] | destruct Hh as [->|[x ->]]
     | destruct Hl as [->|[x ->]] | destruct Hc as [->|[x ->]]]; eauto.
Qed.

(** X6: every record the history-API adapter returns carries the symbol that
    was asked for and a date that [pd.to_datetime] produced, and the adapter
    never returns more records than the reply lists. *)
Theorem sika_records_carry_symbol_and_date (symbol : string)
  (reply : http sika_json) :
  (forall r, r ∈ scrape_sika symbol reply ->
             Rec.get "Symbole" r = Some (CStr symbol) /\
             exists c d, to_datetime c = Some d /\ Rec.get "Date" r = Some d) /\
  (length (scrape_sika symbol reply)
   <= match reply with
      | HttpOk (Some intraday) => length intraday
      | _ => 0
      end)%nat.
Proof.
  unfold scrape_sika_finance, sika_try.
  destruct reply as [|[intraday|]];
    try (split; [intros r Hr; inversion Hr | cbn; lia]).
  destruct (0 <? length intraday)%nat;
    [|split; [intros r Hr; inversion Hr | cbn; lia]].
  destruct (Rows.has_column _ _);
    [|split; [intros r Hr; inversion Hr | cbn; lia]].
  destruct (mapM _ _) as [dates|] eqn:E; cbn;
    [|split; [intros r Hr; inversion Hr | lia]].
  split.
  - intros r Hr. unfold Rows.set_scalar in Hr.
    apply list_elem_of_fmap in Hr as (r0 & -> & Hr0).
    split; [apply get_set_eq|].
    rewrite get_set_ne by discriminate.
    unfold Rows.sort_values_date in Hr0. rewrite merge_sort_Permutation in Hr0.
    unfold Rows.set_column in Hr0.
    apply elem_of_zip_with in Hr0 as (r1 & d & -> & _ & Hd).
    rewrite get_set_eq.
    apply mapM_Some in E.
    apply list_elem_of_lookup in Hd as [i Hi].
    destruct (Forall2_lookup_r _ _ _ _ _ E Hi) as (c & _ & Hc).
    eauto.
  - unfold Rows.set_scalar. rewrite length_fmap.
    unfold Rows.sort_values_date. rewrite merge_sort_Permutation.
    unfold Rows.set_column. rewrite length_zip_with, length_fmap. lia.
Qed.

End AdapterInvariants.

(** ** From the saved file back to the dashboard's key *)

Section PathsAndKeys.

Local Open Scope string_scope.

Lemma append_cons (c : ascii) (s t : string) :
  String c s ++ t = String c (s ++ t).
Proof. reflexivity. Qed.

Lemma has_char_app (a : ascii) (s1 s2 : string) :
  PyStr.has_char a (s1 ++ s2) = PyStr.has_char a s1 || PyStr.has_char a s2.
Proof.
  induction s1 as [|c s1 IH]; [reflexivity|].
  rewrite append_cons. cbn [PyStr.has_char]. rewrite IH. apply orb_assoc.
Qed.

Lemma has_char_replace (a b : ascii) (s : string) :
  a <> b -> PyStr.has_char a (PyStr.replace a b s) = false.
Proof.
  intros Hne. induction s as [|c s IH]; [reflexivity|].
  cbn [PyStr.replace PyStr.has_char]. rewrite IH, orb_false_r.
  destruct (Ascii.eqb_spec c a) as [->|Hc].
  - apply Ascii.eqb_neq. congruence.
  - now apply Ascii.eqb_neq.
Qed.

Lemma has_char_replace_other (a b c : ascii) (s : string) :
  c <> a -> c <> b ->
  PyStr.has_char c (PyStr.replace a b s) = PyStr.has_char c s.
Proof.
  intros Ha Hb. induction s as [|x s IH]; [reflexivity|].
  cbn [PyStr.replace PyStr.has_char]. rewrite IH. f_equal.
  destruct (Ascii.eqb_spec x a) as [->|Hx]; [|reflexivity].
  transitivity false; [|symmetry]; apply Ascii.eqb_neq; congruence.
Qed.

Lemma replace_absent (a b : ascii) (s : string) :
  PyStr.has_char a s = false -> PyStr.replace a b s = s.
Proof.
  induction s as [|c s IH]; [reflexivity|].
  cbn [PyStr.replace PyStr.has_char]. intros H.
  apply orb_false_elim in H as [H1 H2]. now rewrite H1, IH.
Qed.

Lemma split_cons_form (sep : ascii) (s : string) :
  exists word words, PyStr.split sep s = word :: words.
Proof.
  induction s as [|c s (word & words & IH)]; cbn [PyStr.split]; [eauto|].
  destruct (Ascii.eqb c sep); [eauto|]. rewrite IH. eauto.
Qed.

Lemma split_absent (sep : ascii) (s : string) :
  PyStr.has_char sep s = false -> PyStr.split sep s = [s].
Proof.
  induction s as [|c s IH]; [reflexivity|].
  cbn [PyStr.split PyStr.has_char]. intros H.
  apply orb_false_elim in H as [H1 H2]. now rewrite H1, IH.
Qed.

Lemma split_at_first (sep : ascii) (s1 s2 : string) :
  PyStr.has_char sep s1 = false ->
  PyStr.split sep (s1 ++ String sep s2) = s1 :: PyStr.split sep s2.
Proof.
  induction s1 as [|c s1 IH].
  - intros _. change (EmptyString ++ String sep s2) with (String sep s2).
    cbn [PyStr.split]. now rewrite Ascii.eqb_refl.
  - rewrite append_cons. cbn [PyStr.split PyStr.has_char]. intros H.
    apply orb_false_elim in H as [H1 H2]. now rewrite H1, IH.
Qed.

Lemma head_split_app (sep : ascii) (s t : string) :
  head (PyStr.split sep (s ++ String sep t)) = head (PyStr.split sep s).
Proof.
  induction s as [|c s IH].
  - change (EmptyString ++ String sep t) with (String sep t).
    cbn [PyStr.split]. now rewrite Ascii.eqb_refl.
  - rewrite append_cons. cbn [PyStr.split].
    destruct (Ascii.eqb c sep); [reflexivity|].
    destruct (split_cons_form sep (s ++ String sep t)) as (w1 & ws1 & E1).
    destruct (split_cons_form sep s) as (w2 & ws2 & E2).
    rewrite E1, E2 in *. cbn in *. congruence.
Qed.

Lemma output_path_split (symbol : string) :
  PyStr.split "/" (output_path symbol)
  = ["data"; PyStr.replace "/" "-" symbol ++ "_historical.csv"].
Proof.
  unfold output_path.
  change ("data/" ++ ?x) with ("data" ++ String "/" x).
  rewrite split_at_first by reflexivity. f_equal.
  apply split_absent. rewrite has_char_app, has_char_replace by discriminate.
  reflexivity.
Qed.

(** X7: the file of an instrument is always written directly in the [data]
    directory, even when the symbol contains slashes: split on "/", the path
    has exactly two components, the directory and a file name that contains
    no slash, and that file name is the path's base name. *)
Theorem output_path_stays_in_data_directory (symbol : string) :
  let file_name := PyStr.replace "/" "-" symbol ++ "_historical.csv" in
  PyStr.split "/" (output_path symbol) = ["data"; file_name] /\
  PyStr.has_char "/" file_name = false /\
  basename (output_path symbol) = file_name.
Proof.
  intros file_name. split; [apply output_path_split|]. split.
  - unfold file_name. rewrite has_char_app, has_char_replace by discriminate.
    reflexivity.
  - unfold basename. now rewrite output_path_split.
Qed.

(** X8: the key under which the dashboard's [load_data] files the series the
    scraper saved for a symbol is the symbol with "/" replaced by "-", cut at
    its first underscore; it is the symbol itself exactly for symbols with
    neither an underscore nor a slash, as the two indices are. *)
Theorem dashboard_key_of_saved_file (symbol : string) :
  let key := symbol_of_file (basename (output_path symbol)) in
  key = symbol_of_file (PyStr.replace "/" "-" symbol) /\
  (PyStr.has_char "_" symbol = false -> key = PyStr.replace "/" "-" symbol) /\
  (PyStr.has_char "_" symbol = false -> PyStr.has_char "/" symbol = false ->
   key = symbol) /\
  (forall s1 s2, symbol = s1 ++ String "_" s2 ->
                 PyStr.has_char "_" s1 = false -> PyStr.has_char "/" s1 = false ->
                 key = s1) /\
  Forall (fun idx => symbol_of_file (basename (output_path idx)) = idx) indices.
Proof.
  intros key.
  assert (K : key = symbol_of_file (PyStr.replace "/" "-" symbol)).
  { unfold key, basename. rewrite output_path_split. cbn [last default from_option].
    unfold symbol_of_file. cbv [Datatypes.id].
    change "_historical.csv" with (String "_" "historical.csv").
    now rewrite head_split_app. }
  assert (K1 : PyStr.has_char "_" symbol = false ->
               key = PyStr.replace "/" "-" symbol).
  { intros H. rewrite K. unfold symbol_of_file.
    rewrite split_absent; [reflexivity|].
    now rewrite has_char_replace_other by discriminate. }
  split; [exact K|]. split; [exact K1|]. split; [|split].
  - intros H1 H2. rewrite K1 by exact H1. now apply replace_absent.
  - intros s1 s2 -> H1 H2. rewrite K. unfold symbol_of_file.
    assert (R : forall a b, PyStr.replace "/" "-" (a ++ b)
                            = PyStr.replace "/" "-" a ++ PyStr.replace "/" "-" b).
    { intros a b. induction a as [|c a IH]; [reflexivity|].
      rewrite append_cons. cbn [PyStr.replace]. now rewrite IH. }
    rewrite R. cbn [PyStr.replace]. cbn [Ascii.eqb Bool.eqb].
    rewrite head_split_app, (replace_absent _ _ s1 H2).
    now rewrite split_absent.
  - repeat constructor.
Qed.

End PathsAndKeys.

(** ** The text format of the saved files *)

Section CsvFormat.

Local Open Scope string_scope.

(** *** Integers *)

Lemma digits_acc (u : Decimal.uint) (p : positive) :
  Sample.digits (N.pos p) (NilEmpty.string_of_uint u)
  = Some (N.pos (Pos.of_uint_acc u p)).
Proof.
  revert p. induction u as [|u IH|u IH|u IH|u IH|u IH|u IH|u IH|u IH|u IH|u IH];
    intros p; cbn [NilEmpty.string_of_uint Sample.digits Pos.of_uint_acc];
    [reflexivity|..];
    cbn [Ascii.is_nat mbind option_bind];
    match goal with
    | |- Sample.digits ?n _ = Some (N.pos (Pos.of_uint_acc _ ?q)) =>
        replace n with (N.pos q) by lia
    end; apply IH.
Qed.

Lemma digits_zero (u : Decimal.uint) :
  Sample.digits 0 (NilEmpty.string_of_uint u) = Some (Pos.of_uint u).
Proof.
  induction u as [|u IH|u IH|u IH|u IH|u IH|u IH|u IH|u IH|u IH|u IH];
    cbn [NilEmpty.string_of_uint Sample.digits Pos.of_uint];
    [reflexivity|exact IH|..];
    cbn [Ascii.is_nat mbind option_bind]; apply digits_acc.
Qed.

Lemma uint_string_of_uint (u : Decimal.uint) :
  Sample.uint (NilZero.string_of_uint u) = Some (Pos.of_uint u).
Proof.
  destruct u; [reflexivity|..]; apply (digits_zero (_ u)).
Qed.

Lemma signed_digit (c : ascii) (s : string) :
  Csv.is_digit c = true -> Sample.signed (String c s) = (false, String c s).
Proof.
  destruct c as [[] [] [] [] [] [] [] []]; try discriminate; reflexivity.
Qed.

Lemma string_of_uint_digit (u : Decimal.uint) :
  exists c s, NilZero.string_of_uint u = String c s /\ Csv.is_digit c = true.
Proof. destruct u; eexists _, _; split; reflexivity. Qed.

Lemma py_int_fmt_int (v : Z) : Sample.py_int (Csv.fmt_int v) = Some v.
Proof.
  unfold Csv.fmt_int, SampleCsv.fmt_int, Sample.py_int.
  assert (P : forall u, Sample.signed (NilZero.string_of_uint u)
                        = (false, NilZero.string_of_uint u)).
  { intros u. destruct (string_of_uint_digit u) as (c & s & -> & Hc).
    now apply signed_digit. }
  destruct v as [|p|p]; cbn [Z.to_int NilZero.string_of_int].
  - reflexivity.
  - rewrite P, uint_string_of_uint, DecimalPos.Unsigned.of_to. reflexivity.
  - cbn [Sample.signed]. rewrite uint_string_of_uint, DecimalPos.Unsigned.of_to.
    reflexivity.
Qed.

Lemma markers_are_not_integers :
  Forall (fun s => Sample.py_int s = None) SampleCsv.na_values.
Proof. repeat constructor. Qed.

Lemma markers_are_short :
  Forall (fun s => (String.length s <= 8)%nat) SampleCsv.na_values.
Proof. repeat constructor; cbn; lia. Qed.

(** *** Dates *)

Ltac split_if :=
  repeat match goal with
         | |- context [if ?b then _ else _] =>
             let E := fresh "E" in destruct b eqn:E
         | H : context [if ?b then _ else _] |- _ =>
             let E := fresh "E" in destruct b eqn:E
         end.

Ltac to_Z :=
  repeat match goal with
         | H : (_ <? _) = true |- _ => apply Z.ltb_lt in H
         | H : (_ <? _) = false |- _ => apply Z.ltb_ge in H
         | H : (_ <=? _) = true |- _ => apply Z.leb_le in H
         | H : (_ <=? _) = false |- _ => apply Z.leb_gt in H
         | H : (_ >? _) = true |- _ => rewrite Z.gtb_ltb in H
         | H : (_ >? _) = false |- _ => rewrite Z.gtb_ltb in H
         | H : (_ =? _) = true |- _ => apply Z.eqb_eq in H
         | H : (_ =? _) = false |- _ => apply Z.eqb_neq in H
         end.

Ltac bools :=
  repeat match goal with
         | H : _ || _ = true |- _ => apply orb_true_iff in H; destruct H as [H|H]
         | H : _ || _ = false |- _ => apply orb_false_iff in H; destruct H
         | H : _ && _ = true |- _ => apply andb_true_iff in H; destruct H
         | H : _ && _ = false |- _ => apply andb_false_iff in H; destruct H as [H|H]
         | H : negb _ = true |- _ => apply negb_true_iff in H
         | H : negb _ = false |- _ => apply negb_false_iff in H
         end.

(** The day number of the civil date of a day is that day. *)
Lemma days_round_trip (day : Z) :
  let '(y, m, d) := Csv.civil_from_days day in
  1 <= m <= 12 /\ 1 <= d /\ Sample.days_from_civil y m d = day.
Proof.
  unfold Csv.civil_from_days, Sample.days_from_civil. cbv zeta.
  split_if; to_Z; Z.div_mod_to_equations; lia.
Qed.

Lemma day_of_month_bound (day : Z) :
  let '(y, m, d) := Csv.civil_from_days day in d <= Sample.days_in_month y m.
Proof.
  unfold Csv.civil_from_days, Sample.days_in_month, Sample.leap. cbv zeta.
  split_if; bools; to_Z; Z.div_mod_to_equations; lia.
Qed.

Lemma year_bounds (day : Z) :
  Csv.is_timestamp day ->
  let '(y, m, d) := Csv.civil_from_days day in 1677 <= y <= 2262.
Proof.
  unfold Csv.is_timestamp, Csv.timestamp_min, Csv.timestamp_max,
    Csv.civil_from_days. cbv zeta. intros H.
  split_if; to_Z; Z.div_mod_to_equations; lia.
Qed.

Lemma fmt_date_civil (day : Z) :
  Csv.fmt_date day
  = let '(y, m, d) := Csv.civil_from_days day in
    SampleCsv.pad4 y ++ String "-" (SampleCsv.pad2 m ++ String "-" (SampleCsv.pad2 d)).
Proof. reflexivity. Qed.

(** The years of the timestamp range are written with four digits, months
    and days with two. *)
Lemma year_text (y : Z) :
  1677 <= y <= 2262 -> Csv.field_ok 4 y (SampleCsv.pad4 y) = true.
Proof.
  intros H.
  assert (A : forallb (fun y => Csv.field_ok 4 y (SampleCsv.pad4 y)) (seqZ 1677 586)
              = true) by (vm_compute; reflexivity).
  rewrite forallb_forall in A. apply A. apply list_elem_of_In.
  apply elem_of_seqZ. lia.
Qed.

Lemma two_digit_text (n : Z) :
  1 <= n <= 31 -> Csv.field_ok 2 n (SampleCsv.pad2 n) = true.
Proof.
  intros H.
  assert (A : forallb (fun n => Csv.field_ok 2 n (SampleCsv.pad2 n)) (seqZ 1 31)
              = true) by (vm_compute; reflexivity).
  rewrite forallb_forall in A. apply A. apply list_elem_of_In.
  apply elem_of_seqZ. lia.
Qed.

Lemma field_ok_spec (width : nat) (n : Z) (s : string) :
  Csv.field_ok width n s = true ->
  String.length s = width /\ Csv.digits_only s = true /\
  Sample.uint s = Some (Z.to_N n) /\ 0 <= n.
Proof.
  unfold Csv.field_ok. intros H.
  apply andb_true_iff in H as [H H3]. apply andb_true_iff in H as [H1 H2].
  apply Nat.eqb_eq in H1. destruct (Sample.uint s) as [k|]; [|discriminate].
  apply Z.eqb_eq in H3. subst n. rewrite N2Z.id. repeat split; auto. lia.
Qed.

Lemma digits_only_no_hyphen (s : string) :
  Csv.digits_only s = true -> PyStr.has_char "-" s = false.
Proof.
  induction s as [|c s IH]; [reflexivity|]. cbn [Csv.digits_only PyStr.has_char].
  intros H. apply andb_true_iff in H as [H1 H2]. rewrite (IH H2), orb_false_r.
  destruct c as [[] [] [] [] [] [] [] []]; try discriminate; reflexivity.
Qed.

Lemma digits_only_plain (s : string) :
  Csv.digits_only s = true -> Csv.plain s = true.
Proof.
  induction s as [|c s IH]; [reflexivity|]. cbn [Csv.digits_only Csv.plain].
  intros H. apply andb_true_iff in H as [H1 H2]. now rewrite H1, IH.
Qed.

Lemma plain_hyphen (s t : string) :
  Csv.plain s = true -> Csv.plain t = true -> Csv.plain (s ++ String "-" t) = true.
Proof.
  intros Hs Ht. induction s as [|c s IH].
  - exact Ht.
  - rewrite append_cons. cbn [Csv.plain] in *.
    apply andb_true_iff in Hs as [H1 H2]. now rewrite H1, IH.
Qed.

Lemma length_append (s t : string) :
  String.length (s ++ t) = (String.length s + String.length t)%nat.
Proof.
  induction s as [|c s IH]; [reflexivity|]. rewrite append_cons. cbn. now rewrite IH.
Qed.

Lemma digits_hyphen (s : string) (acc : N) :
  PyStr.has_char "-" s = true -> Sample.digits acc s = None.
Proof.
  revert acc. induction s as [|c s IH]; intros acc; [discriminate|].
  cbn [PyStr.has_char Sample.digits]. intros H.
  destruct (Ascii.eqb_spec c "-") as [->|Hc]; [reflexivity|].
  destruct (Ascii.is_nat c); [|reflexivity]. cbn [mbind option_bind].
  apply IH. exact H.
Qed.

(** The three fields of a written date. *)
Lemma date_fields (day : Z) :
  Csv.is_timestamp day ->
  exists y m d,
    Csv.civil_from_days day = (y, m, d) /\
    Csv.fmt_date day
    = SampleCsv.pad4 y ++ String "-" (SampleCsv.pad2 m ++ String "-" (SampleCsv.pad2 d)) /\
    Csv.field_ok 4 y (SampleCsv.pad4 y) = true /\
    Csv.field_ok 2 m (SampleCsv.pad2 m) = true /\
    Csv.field_ok 2 d (SampleCsv.pad2 d) = true /\
    Sample.civil (Z.to_N y) (Z.to_N m) (Z.to_N d) = Some day.
Proof.
  intros H. pose proof (days_round_trip day) as R.
  pose proof (day_of_month_bound day) as B. pose proof (year_bounds day H) as Y.
  pose proof (fmt_date_civil day) as F.
  destruct (Csv.civil_from_days day) as [[y m] d].
  destruct R as (Hm & Hd & R).
  assert (D : d <= 31).
  { revert B. unfold Sample.days_in_month.
    repeat match goal with |- context [if ?b then _ else _] => destruct b end; lia. }
  exists y, m, d. split; [reflexivity|]. split; [exact F|].
  split; [apply year_text; lia|]. split; [apply two_digit_text; lia|].
  split; [apply two_digit_text; lia|].
  unfold Sample.civil. rewrite !Z2N.id by lia.
  replace (1 <=? y)%Z with true by (symmetry; apply Z.leb_le; lia).
  replace (1 <=? m)%Z with true by (symmetry; apply Z.leb_le; lia).
  replace (m <=? 12)%Z with true by (symmetry; apply Z.leb_le; lia).
  replace (1 <=? d)%Z with true by (symmetry; apply Z.leb_le; lia).
  replace (d <=? Sample.days_in_month y m)%Z with true
    by (symmetry; apply Z.leb_le; lia).
  cbn [andb]. now rewrite R.
Qed.

(** A written date is read as that date. *)
Lemma iso_date_fmt_date (day : Z) :
  Csv.is_timestamp day -> Csv.iso_date (Csv.fmt_date day) = Some day.
Proof.
  intros H. destruct (date_fields day H) as (y & m & d & _ & -> & Hy & Hm & Hd & C).
  apply field_ok_spec in Hy as (Ly & Dy & Uy & _).
  apply field_ok_spec in Hm as (Lm & Dm & Um & _).
  apply field_ok_spec in Hd as (Ld & Dd & Ud & _).
  unfold Csv.iso_date, Sample.to_datetime.
  rewrite split_at_first by now apply digits_only_no_hyphen.
  rewrite split_at_first by now apply digits_only_no_hyphen.
  rewrite split_absent by now apply digits_only_no_hyphen.
  rewrite Ly, Lm, Ld. cbn [Nat.eqb andb].
  rewrite Uy, Um, Ud. cbn [mbind option_bind]. now rewrite C.
Qed.

Section Fields.

Variable other_token : string -> token.
Variable other_datetime : cell -> option cell.

Local Abbreviation csv_token := (Csv.csv_token other_token).
Local Abbreviation to_datetime := (Csv.to_datetime other_datetime).

Lemma token_of_integer (v : Z) : csv_token (Csv.fmt_int v) = TNumber (of_Z v).
Proof.
  unfold Csv.csv_token.
  destruct (decide (Csv.fmt_int v ∈ SampleCsv.na_values)) as [Hin|_].
  - exfalso. pose proof markers_are_not_integers as M.
    rewrite Forall_forall in M. specialize (M _ Hin).
    rewrite py_int_fmt_int in M. discriminate M.
  - now rewrite py_int_fmt_int.
Qed.

Lemma token_of_empty : csv_token EmptyString = TMissing.
Proof. reflexivity. Qed.

Lemma to_datetime_date (day : Z) :
  Csv.is_timestamp day -> to_datetime (CStr (Csv.fmt_date day)) = Some (CDate day).
Proof.
  intros H. unfold Csv.to_datetime. rewrite iso_date_fmt_date by exact H.
  destruct H as [H1 H2]. apply Z.leb_le in H1, H2. now rewrite H1, H2.
Qed.

Lemma token_of_date (day : Z) :
  Csv.is_timestamp day -> csv_token (Csv.fmt_date day) = TText.
Proof.
  intros H. destruct (date_fields day H) as (y & m & d & _ & -> & Hy & Hm & Hd & _).
  apply field_ok_spec in Hy as (Ly & Dy & _).
  apply field_ok_spec in Hm as (Lm & Dm & _).
  apply field_ok_spec in Hd as (Ld & Dd & _).
  set (text := SampleCsv.pad4 y ++ _).
  assert (L : String.length text = 10%nat).
  { unfold text. rewrite length_append. cbn [String.length].
    rewrite length_append. cbn [String.length]. lia. }
  assert (P : Csv.plain text = true).
  { unfold text. apply plain_hyphen; [now apply digits_only_plain|].
    apply plain_hyphen; now apply digits_only_plain. }
  assert (I : Sample.py_int text = None).
  { unfold Sample.py_int.
    assert (S : Sample.signed text = (false, text)).
    { unfold text. destruct (SampleCsv.pad4 y) as [|c r]; [discriminate Ly|].
      rewrite append_cons. apply signed_digit.
      cbn [Csv.digits_only] in Dy. now apply andb_true_iff in Dy as [Dy _]. }
    rewrite S. unfold Sample.uint.
    destruct (PyStr.truthy text); [|reflexivity].
    rewrite digits_hyphen; [reflexivity|].
    unfold text. rewrite has_char_app. cbn [PyStr.has_char Ascii.eqb Bool.eqb].
    now rewrite orb_true_r. }
  unfold Csv.csv_token.
  destruct (decide (text ∈ SampleCsv.na_values)) as [Hin|_].
  - exfalso. pose proof markers_are_short as M.
    rewrite Forall_forall in M. specialize (M _ Hin). lia.
  - now rewrite I, P.
Qed.

(** C8 (amended): take a non-empty series, strictly ascending by date, whose
    dates are days a pandas timestamp can hold, and a reader that reads the
    text of every present price back as that price (the float round trip)
    and the series' symbol as text.  Integers, dates and missing values need
    no assumption: they are read back as written.  Loading the file written
    for the series gives the frame of the same records in the same order,
    with the same dates, prices (missing ones included), volumes and symbol;
    [load_data] on a directory holding that file alone returns this frame
    under the file name's prefix. *)
Theorem C8_load_after_save (fmt_float : float -> string)
  (series : list price_record) (file_name : string) :
  series <> [] ->
  Sorted Z.lt (pr_date <$> series) ->
  (forall p, p ∈ series -> Csv.is_timestamp (pr_date p)) ->
  (forall p x, p ∈ series ->
               x ∈ [pr_open p; pr_high p; pr_low p; pr_close p] ->
               isnan x = false -> csv_token (fmt_float x) = TNumber x) ->
  (forall p, p ∈ series -> csv_token (pr_symbol p) = TText) ->
  Csv.load other_token other_datetime (Csv.save fmt_float (row_of <$> series))
  = Some (frame_of series) /\
  load_data csv_token to_datetime
    [(file_name, Csv.save fmt_float (row_of <$> series))]
  = <[symbol_of_file file_name := frame_of series]> ∅.
Proof.
  intros Hne Hsorted Hrange Hfloat Hsym.
  apply (load_after_save_format fmt_float Csv.fmt_int Csv.fmt_date
           csv_token to_datetime series file_name Hne Hsorted token_of_empty Hfloat).
  - intros p _. apply token_of_integer.
  - intros p Hp. split; [apply token_of_date | apply to_datetime_date];
      now apply Hrange.
  - exact Hsym.
Qed.

End Fields.

(** The sample prices under the reader above, completed by the sample
    float reader. *)
Lemma sample_price_token (r : R) :
  r = 90%R \/ r = 100%R \/ r = 105%R \/ r = 110%R ->
  Csv.csv_token SampleCsv.csv_token (SampleCsv.fmt_float (Fin r)) = TNumber (Fin r).
Proof.
  intros H. pose proof (sample_price_text r H) as S. revert S.
  assert (D : forall s : string,
             bool_decide (s ∉ SampleCsv.na_values) = true ->
             Sample.py_int s = None -> Csv.plain s = false ->
             Csv.csv_token SampleCsv.csv_token s = SampleCsv.csv_token s).
  { intros s N I P. apply bool_decide_eq_true in N. unfold Csv.csv_token.
    destruct (decide (s ∈ SampleCsv.na_values)); [contradiction|].
    now rewrite I, P. }
  unfold SampleCsv.fmt_float.
  repeat match goal with
         | |- context [Req_dec_T ?a ?b] => destruct (Req_dec_T a b)
         end;
    intros <-; apply D; vm_compute; reflexivity.
Qed.

Lemma two_days_in_range (symbol : string) (p : price_record) :
  p ∈ SampleCsv.two_days symbol -> Csv.is_timestamp (pr_date p).
Proof.
  intros Hp. unfold SampleCsv.two_days in Hp.
  rewrite !elem_of_cons, elem_of_nil in Hp.
  destruct Hp as [->|[->|[]]]; cbn [pr_date];
    unfold Csv.is_timestamp, Csv.timestamp_min, Csv.timestamp_max; lia.
Qed.

Lemma two_days_price_tokens (symbol : string) (p : price_record) (x : float) :
  p ∈ SampleCsv.two_days symbol ->
  x ∈ [pr_open p; pr_high p; pr_low p; pr_close p] ->
  isnan x = false ->
  Csv.csv_token SampleCsv.csv_token (SampleCsv.fmt_float x) = TNumber x.
Proof.
  intros Hp Hx Hnan. unfold SampleCsv.two_days in Hp.
  rewrite !elem_of_cons, elem_of_nil in Hp.
  destruct Hp as [->|[->|[]]]; cbn [pr_open pr_high pr_low pr_close] in Hx;
    rewrite !elem_of_cons, elem_of_nil in Hx;
    destruct Hx as [->|[->|[->|[->|[]]]]]; try discriminate Hnan;
    apply sample_price_token; auto.
Qed.

(** The two sample days of SNTS. *)
Lemma C8_load_after_save_witness :
  let series := SampleCsv.two_days "SNTS" in
  let file := Csv.save SampleCsv.fmt_float (row_of <$> series) in
  Csv.load SampleCsv.csv_token Sample.to_datetime file = Some (frame_of series) /\
  load_data (Csv.csv_token SampleCsv.csv_token) (Csv.to_datetime Sample.to_datetime)
    [("SNTS_historical.csv", file)]
  = <[symbol_of_file "SNTS_historical.csv" := frame_of series]> ∅.
Proof.
  apply (C8_load_after_save SampleCsv.csv_token Sample.to_datetime
           SampleCsv.fmt_float (SampleCsv.two_days "SNTS") "SNTS_historical.csv").
  - discriminate.
  - apply two_days_sorted.
  - apply two_days_in_range.
  - apply two_days_price_tokens.
  - intros p Hp. unfold SampleCsv.two_days in Hp.
    rewrite !elem_of_cons, elem_of_nil in Hp.
    destruct Hp as [->|[->|[]]]; reflexivity.
Defined.

(** C8 (as stated, refuted): the same two days, written and read in the same
    way, for an instrument whose symbol is spelled NA are loaded with a
    symbol column of missing values, not with the symbol that was saved. *)
Lemma C8_symbol_read_as_missing :
  let series := SampleCsv.two_days "NA" in
  exists df,
    Csv.load SampleCsv.csv_token Sample.to_datetime
      (Csv.save SampleCsv.fmt_float (row_of <$> series)) = Some df /\
    lookup_col "Symbole" (columns df) = Some (NumCol [NaN; NaN]) /\
    lookup_col "Symbole" (columns (frame_of series))
    = Some (StrCol [Some "NA"; Some "NA"]) /\
    df <> frame_of series.
Proof.
  cbv zeta. eexists. split.
  - unfold Csv.load, Csv.save.
    apply (load_after_save_columns SampleCsv.fmt_float Csv.fmt_int Csv.fmt_date
             (Csv.csv_token SampleCsv.csv_token) (Csv.to_datetime Sample.to_datetime)
             (SampleCsv.two_days "NA") (NumCol [NaN; NaN])).
    + discriminate.
    + apply two_days_sorted.
    + reflexivity.
    + apply two_days_price_tokens.
    + intros p _. apply token_of_integer.
    + intros p Hp. apply two_days_in_range in Hp.
      split; [now apply token_of_date | now apply to_datetime_date].
    + reflexivity.
    + reflexivity.
  - split; [reflexivity|]. split; [reflexivity|].
    intros E. apply (f_equal (fun df => lookup_col "Symbole" (columns df))) in E.
    cbn in E. discriminate E.
Qed.

End CsvFormat.

(** ** What [load_data] hands to the analytics *)

Section LoadedFrames.

Variable csv_token : string -> token.
Variable to_datetime : cell -> option cell.

Local Abbreviation load := (load_file csv_token to_datetime).
Local Abbreviation read := (read_csv csv_token).
Local Abbreviation coerce := (coerce_numeric csv_token).

Lemma lookup_col_names (name : string) (cols : list (string * column)) :
  is_Some (lookup_col name cols) <-> name ∈ fst <$> cols.
Proof.
  induction cols as [|[n c] cols IH]; cbn.
  - split; [intros [x H]; discriminate H | intros H; inversion H].
  - rewrite elem_of_cons. destruct (String.eqb_spec n name) as [->|Hne].
    + split; eauto.
    + rewrite IH. split; [tauto|]. intros [E|H]; [congruence | exact H].
Qed.

Lemma assign_col_names (name : string) (c : column) (cols : list (string * column)) :
  is_Some (lookup_col name cols) ->
  fst <$> assign_col name c cols = fst <$> cols.
Proof.
  induction cols as [|[n c0] cols IH]; cbn.
  - intros [x H]. discriminate H.
  - destruct (String.eqb n name); cbn; [reflexivity|].
    intros H. now rewrite IH.
Qed.

Lemma lookup_col_fmap (f : column -> column) (name : string)
  (cols : list (string * column)) :
  lookup_col name ((fun nc => (fst nc, f (snd nc))) <$> cols)
  = f <$> lookup_col name cols.
Proof.
  induction cols as [|[n c] cols IH]; cbn; [reflexivity|].
  destruct (String.eqb n name); [reflexivity | exact IH].
Qed.

(** *** Reading the file *)

Lemma col_length_read_column (fields : list string) :
  col_length (read_column csv_token fields) = length fields.
Proof.
  unfold read_column. destruct (forallb _ _); cbn; apply length_fmap.
Qed.

Lemma read_csv_names (file : csv_file) : fst <$> columns (read file) = header file.
Proof.
  unfold read_csv. cbn [columns].
  apply list_eq. intros i. rewrite list_lookup_fmap, list_lookup_imap.
  destruct (header file !! i); reflexivity.
Qed.

Lemma read_csv_well_formed (file : csv_file) : well_formed (read file).
Proof.
  unfold well_formed, read_csv. cbn [columns nrows].
  apply Forall_lookup. intros i [n c]. rewrite list_lookup_imap.
  destruct (header file !! i); cbn; [|discriminate].
  intros [= <- <-]. cbn. rewrite col_length_read_column. apply length_fmap.
Qed.

(** *** Typing the columns *)

Lemma col_length_to_numeric (c : column) :
  col_length (to_numeric csv_token c) = col_length c.
Proof. destruct c; cbn; now rewrite ?length_fmap. Qed.

Lemma coerce_lookup_eq (df : DataFrame) (name : string) :
  lookup_col name (columns (coerce df name))
  = to_numeric csv_token <$> lookup_col name (columns df).
Proof.
  unfold coerce_numeric. destruct (lookup_col name (columns df)) eqn:E; cbn.
  - apply lookup_assign_eq.
  - exact E.
Qed.

Lemma coerce_lookup_ne (df : DataFrame) (name name' : string) :
  name <> name' ->
  lookup_col name' (columns (coerce df name)) = lookup_col name' (columns df).
Proof.
  intros Hne. unfold coerce_numeric.
  destruct (lookup_col name (columns df)); cbn; [|reflexivity].
  now apply lookup_assign_ne.
Qed.

Lemma coerce_nrows (df : DataFrame) (name : string) :
  nrows (coerce df name) = nrows df.
Proof. unfold coerce_numeric. now destruct (lookup_col name (columns df)). Qed.

Lemma coerce_names (df : DataFrame) (name : string) :
  fst <$> columns (coerce df name) = fst <$> columns df.
Proof.
  unfold coerce_numeric. destruct (lookup_col name (columns df)) eqn:E; cbn;
    [|reflexivity].
  apply assign_col_names. now rewrite E.
Qed.

Lemma coerce_well_formed (df : DataFrame) (name : string) :
  well_formed df -> well_formed (coerce df name).
Proof.
  intros H. unfold coerce_numeric.
  destruct (lookup_col name (columns df)) as [c|] eqn:E; [|exact H].
  unfold well_formed. cbn [columns nrows].
  apply assign_col_well_formed; [exact H|].
  rewrite col_length_to_numeric. exact (lookup_col_well_formed _ _ _ H E).
Qed.

Lemma to_numeric_NumCol (c : column) : exists xs, to_numeric csv_token c = NumCol xs.
Proof. destruct c; cbn; eauto. Qed.

(** *** Sorting by date *)

Lemma sort_order_Permutation (ds : list Z) : sort_order ds ≡ₚ seq 0 (length ds).
Proof.
  unfold sort_order. rewrite merge_sort_Permutation.
  rewrite snd_zip; [reflexivity|]. rewrite length_seq. lia.
Qed.

Lemma take_rows_length {A} (order : list nat) (xs : list A) :
  Forall (fun i => (i < length xs)%nat) order ->
  length (take_rows order xs) = length order.
Proof.
  unfold take_rows. induction 1 as [|i order Hi _ IH]; [reflexivity|].
  cbn [omap list_omap]. apply lookup_lt_is_Some in Hi as [x ->].
  cbn. now rewrite IH.
Qed.

Lemma sort_order_bound (ds : list Z) :
  Forall (fun i => (i < length ds)%nat) (sort_order ds).
Proof.
  rewrite sort_order_Permutation. apply Forall_forall. intros i Hi.
  apply elem_of_seq in Hi. lia.
Qed.

Lemma col_length_reorder (ds : list Z) (c : column) :
  col_length c = length ds -> col_length (reorder (sort_order ds) c) = length ds.
Proof.
  intros H.
  assert (L : length (sort_order ds) = length ds).
  { rewrite sort_order_Permutation. apply length_seq. }
  destruct c; cbn in *; rewrite take_rows_length, ?L; try reflexivity;
    rewrite H; apply sort_order_bound.
Qed.

Lemma take_rows_pairs (ds : list Z) (l : list (Z * nat)) :
  Forall (fun p => ds !! snd p = Some (fst p)) l ->
  take_rows (snd <$> l) ds = fst <$> l.
Proof.
  unfold take_rows. induction 1 as [|[d i] l H _ IH]; [reflexivity|].
  cbn in H. cbn [fmap list_fmap omap list_omap snd fst]. rewrite H. cbn.
  f_equal. exact IH.
Qed.

(** The date column after [sort_values('Date')] is in ascending order. *)
Lemma take_rows_sort_order_Sorted (ds : list Z) :
  Sorted Z.le (take_rows (sort_order ds) ds).
Proof.
  unfold sort_order. rewrite take_rows_pairs.
  - apply (Sorted_fmap _ pair_le Z.le); [intros a b H; exact H|].
    apply Sorted_merge_sort. intros a b. unfold pair_le. lia.
  - apply Forall_forall. intros [d i] H.
    rewrite merge_sort_Permutation in H.
    apply zip_seq_lookup in H as [H _]. rewrite Nat.sub_0_r in H. exact H.
Qed.

(** *** The loaded frame *)

Lemma load_file_inv (file : csv_file) (df : DataFrame) :
  load file = Some df ->
  exists c dates,
    lookup_col "Date" (columns (read file)) = Some c /\
    to_datetime_column to_datetime c = Some dates /\
    df = sort_values_Date
           (foldl coerce
              (mkDataFrame (nrows (read file))
                 (assign_col "Date" (DateCol dates) (columns (read file))))
              ["Ouverture"; "Plus_Haut"; "Plus_Bas"; "Cloture"; "Volume"]%string).
Proof.
  unfold load_file.
  destruct (lookup_col "Date" (columns (read file))) as [c|]; [|discriminate].
  cbn. destruct (to_datetime_column to_datetime c) as [dates|] eqn:Ed;
    [|discriminate].
  cbn. intros [= <-]. exists c, dates. auto.
Qed.

Lemma to_datetime_column_length (c : column) (dates : list Z) :
  to_datetime_column to_datetime c = Some dates -> length dates = col_length c.
Proof.
  unfold to_datetime_column.
  destruct (mapM to_datetime (column_cells c)) as [cells|] eqn:E; [|discriminate].
  cbn. intros H. apply length_mapM in H. apply length_mapM in E.
  rewrite <- H, <- E. destruct c; cbn; now rewrite length_fmap.
Qed.

(** The frame before the final sort: typed columns, in file order. *)
Lemma typed_frame_facts (file : csv_file) (c : column) (dates : list Z) :
  lookup_col "Date" (columns (read file)) = Some c ->
  to_datetime_column to_datetime c = Some dates ->
  let typed :=
    foldl coerce
      (mkDataFrame (nrows (read file))
         (assign_col "Date" (DateCol dates) (columns (read file))))
      ["Ouverture"; "Plus_Haut"; "Plus_Bas"; "Cloture"; "Volume"]%string in
  nrows typed = length (lines file) /\
  length dates = length (lines file) /\
  fst <$> columns typed = header file /\
  well_formed typed /\
  lookup_col "Date" (columns typed) = Some (DateCol dates) /\
  (forall name col,
     name ∈ ["Ouverture"; "Plus_Haut"; "Plus_Bas"; "Cloture"; "Volume"]%string ->
     lookup_col name (columns typed) = Some col -> exists xs, col = NumCol xs).
Proof.
  intros Hc Hd typed.
  pose proof (read_csv_well_formed file) as Hwf.
  pose proof (lookup_col_well_formed _ _ _ Hwf Hc) as Lc.
  pose proof (to_datetime_column_length _ _ Hd) as Ld.
  assert (Hn : nrows (read file) = length (lines file)) by reflexivity.
  set (df0 := mkDataFrame (nrows (read file))
                (assign_col "Date" (DateCol dates) (columns (read file)))) in *.
  assert (Hwf0 : well_formed df0).
  { unfold well_formed, df0. cbn [columns nrows].
    apply assign_col_well_formed; [exact Hwf|]. cbn. lia. }
  assert (Hnames0 : fst <$> columns df0 = header file).
  { unfold df0. cbn [columns]. rewrite assign_col_names by now rewrite Hc.
    apply read_csv_names. }
  unfold typed. cbn [foldl].
  split; [now rewrite !coerce_nrows|]. split; [lia|].
  split; [now rewrite !coerce_names|].
  split; [now repeat apply coerce_well_formed|].
  split.
  - rewrite !coerce_lookup_ne by discriminate. apply lookup_assign_eq.
  - intros name col Hin. rewrite !elem_of_cons, elem_of_nil in Hin.
    destruct Hin as [->|[->|[->|[->|[->|[]]]]]];
      rewrite ?coerce_lookup_ne by discriminate;
      rewrite coerce_lookup_eq;
      intros H; apply fmap_Some in H as (c0 & _ & ->);
      apply to_numeric_NumCol.
Qed.

Lemma sort_values_Date_facts (df : DataFrame) (dates : list Z) :
  well_formed df ->
  lookup_col "Date" (columns df) = Some (DateCol dates) ->
  nrows (sort_values_Date df) = nrows df /\
  fst <$> columns (sort_values_Date df) = fst <$> columns df /\
  well_formed (sort_values_Date df) /\
  (forall name,
     lookup_col name (columns (sort_values_Date df))
     = reorder (sort_order dates) <$> lookup_col name (columns df)).
Proof.
  intros Hwf Hd. unfold sort_values_Date. rewrite Hd. cbn [nrows columns].
  pose proof (lookup_col_well_formed _ _ _ Hwf Hd) as Ld. cbn in Ld.
  split; [reflexivity|]. split; [|split].
  - rewrite <- list_fmap_compose. reflexivity.
  - unfold well_formed in *. cbn [nrows columns].
    apply Forall_fmap. eapply Forall_impl; [exact Hwf|].
    intros [n c] H. cbn in *. rewrite <- Ld. apply col_length_reorder. lia.
  - intros name. apply lookup_col_fmap.
Qed.

Lemma load_file_facts (file : csv_file) (df : DataFrame) :
  load file = Some df ->
  nrows df = length (lines file) /\
  fst <$> columns df = header file /\
  well_formed df /\
  (exists dates,
     lookup_col "Date" (columns df) = Some (DateCol dates) /\ Sorted Z.le dates) /\
  (forall name col,
     name ∈ ["Ouverture"; "Plus_Haut"; "Plus_Bas"; "Cloture"; "Volume"]%string ->
     lookup_col name (columns df) = Some col -> exists xs, col = NumCol xs).
Proof.
  intros H. apply load_file_inv in H as (c & dates & Hc & Hd & ->).
  destruct (typed_frame_facts file c dates Hc Hd)
    as (T1 & T2 & T3 & T4 & T5 & T6).
  destruct (sort_values_Date_facts _ dates T4 T5) as (S1 & S2 & S3 & S4).
  split; [congruence|]. split; [congruence|]. split; [exact S3|]. split.
  - exists (take_rows (sort_order dates) dates). rewrite S4, T5. cbn.
    split; [reflexivity | apply take_rows_sort_order_Sorted].
  - intros name col Hin. rewrite S4. intros H.
    apply fmap_Some in H as (c0 & E & ->).
    destruct (T6 name c0 Hin E) as [xs ->]. cbn. eauto.
Qed.


Lemma Sorted_head_le_last (ds : list Z) (a b : Z) :
  Sorted Z.le ds -> head ds = Some a -> last ds = Some b -> a <= b.
Proof.
  intros H Ha Hb. apply Sorted_StronglySorted in H; [|intros x y z; lia].
  destruct ds as [|d ds]; [discriminate Ha|]. cbn in Ha. injection Ha as ->.
  inversion_clear H as [|? ? _ Hall].
  destruct ds as [|d' ds]; [cbn in Hb; injection Hb as ->; lia|].
  rewrite last_cons_cons in Hb. apply last_Some_elem_of in Hb.
  rewrite Forall_forall in Hall. now apply Hall.
Qed.

(** X10: a file in which no [Date] field is read as a missing date, that
    [load_data] reads successfully, with at least two data lines and a
    [Cloture] column, never makes [calculate_performance] raise or return
    the empty dictionary: the call returns metrics whose start and end dates
    are the first and last dates of the loaded frame, in that order, and
    whose initial and final prices are its first and last closing prices. *)
Theorem loaded_frame_can_be_analysed (pow : float -> float -> float)
  (file : csv_file) (df : DataFrame) :
  NoDup (header file) ->
  Forall (fun line => length line = length (header file)) (lines file) ->
  (forall c, lookup_col "Date" (columns (read file)) = Some c ->
             Forall (fun cell => to_datetime cell <> Some CNull) (column_cells c)) ->
  load file = Some df ->
  (2 <= length (lines file))%nat ->
  "Cloture"%string ∈ header file ->
  exists df' m dates cloture,
    calculate_performance pow df = (df', Some (Some m)) /\
    lookup_col "Date" (columns df) = Some (DateCol dates) /\
    lookup_col "Cloture" (columns df) = Some (NumCol cloture) /\
    head dates = Some (start_date m) /\ last dates = Some (end_date m) /\
    start_date m <= end_date m /\
    head cloture = Some (initial_price m) /\
    last cloture = Some (final_price m).
Proof.
  intros _ _ _ Hload Hn Hcl.
  destruct (load_file_facts file df Hload)
    as (F1 & F2 & F3 & (dates & Hd & Hs) & F5).
  assert (Hc : exists cloture,
             lookup_col "Cloture" (columns df) = Some (NumCol cloture)).
  { rewrite <- F2 in Hcl. apply lookup_col_names in Hcl as [c Hc].
    destruct (F5 "Cloture"%string c) as [xs ->]; [|exact Hc|eauto].
    rewrite !elem_of_cons. auto. }
  destruct Hc as [cloture Hc].
  destruct (calculate_performance_total pow df cloture dates F3) as
    (d0 & d1 & p0 & p1 & E0 & E1 & E2 & E3 & Hrun); [lia|exact Hc|exact Hd|].
  rewrite date_min_sorted in E0 by exact Hs.
  rewrite date_max_sorted in E1 by exact Hs.
  eexists _, _, dates, cloture. split; [exact Hrun|].
  cbn [metrics_of start_date end_date initial_price final_price].
  repeat split; try assumption.
  exact (Sorted_head_le_last dates d0 d1 Hs E0 E1).
Qed.

Local Abbreviation load_all := (load_data csv_token to_datetime).
Local Abbreviation step :=
  (fun (data_frames : gmap string DataFrame) (entry : string * csv_file) =>
     match load (snd entry) with
     | Some df => <[symbol_of_file (fst entry) := df]> data_frames
     | None => data_frames
     end).

Lemma load_file_without_Date (file : csv_file) :
  "Date"%string ∉ header file -> load file = None.
Proof.
  intros H. unfold load_file.
  destruct (lookup_col "Date" (columns (read file))) as [c|] eqn:E; [|reflexivity].
  exfalso. apply H. rewrite <- read_csv_names. apply lookup_col_names.
  now rewrite E.
Qed.

(** X11: a file without a [Date] column is passed over by [load_data] and
    changes nothing for the other files: the dictionary is the one the
    directory without that file gives. *)
Theorem file_without_Date_is_skipped (before after : list (string * csv_file))
  (name : string) (file : csv_file) :
  "Date"%string ∉ header file ->
  load_all (before ++ (name, file) :: after) = load_all (before ++ after).
Proof.
  intros H. unfold load_data. rewrite !foldl_app. cbn [foldl snd].
  now rewrite (load_file_without_Date file H).
Qed.

Lemma foldl_step_lookup (directory : list (string * csv_file))
  (acc : gmap string DataFrame) (key : string) (df : DataFrame) :
  foldl step acc directory !! key = Some df ->
  acc !! key = Some df \/
  exists name file, (name, file) ∈ directory /\ symbol_of_file name = key /\
                    load file = Some df.
Proof.
  revert acc. induction directory as [|[name file] rest IH]; intros acc;
    [now left|].
  cbn [foldl]. intros H. apply IH in H as [H|(n & f & Hin & Hk & Hl)].
  - cbn [fst snd] in H. destruct (load file) as [df0|] eqn:E; [|now left].
    destruct (decide (symbol_of_file name = key)) as [<-|Hne].
    + rewrite lookup_insert_eq in H. injection H as ->.
      right. exists name, file. split; [apply list_elem_of_here | auto].
    + rewrite lookup_insert_ne in H by exact Hne. now left.
  - right. exists n, f. split; [now apply list_elem_of_further | auto].
Qed.

(** X12: every frame of the dictionary [load_data] returns is the loaded
    content of a file of the directory, filed under the part of that file's
    name that precedes its first underscore. *)
Theorem loaded_frames_come_from_files (directory : list (string * csv_file))
  (key : string) (df : DataFrame) :
  load_all directory !! key = Some df ->
  exists name file, (name, file) ∈ directory /\ symbol_of_file name = key /\
                    load file = Some df.
Proof.
  intros H. apply foldl_step_lookup in H as [H|H]; [|exact H].
  rewrite lookup_empty in H. discriminate H.
Qed.

End LoadedFrames.

(** ** Every outcome of [calculate_performance] *)

Section PerformanceOutcomes.

Variable pow : float -> float -> float.

Local Abbreviation with_rendement :=
  (fun (df : DataFrame) (cloture : list float) =>
     mkDataFrame (nrows df)
       (assign_col "Rendement" (NumCol (Series.pct_change cloture)) (columns df))).

(** The call in closed form: the empty dictionary on a short or empty frame,
    an exception on a missing or ill-typed column (after 'Rendement' was set
    when the column is [Date]), and otherwise the complete run. *)
Lemma calculate_performance_cases (df : DataFrame) :
  calculate_performance pow df
  = if empty df || (nrows df <? 2)%nat then (df, Some None)
    else match lookup_col "Cloture" (columns df) with
         | Some (NumCol cloture) =>
             match lookup_col "Date" (columns df) with
             | Some (DateCol dates) =>
                 match date_min dates, date_max dates,
                       head cloture, last cloture with
                 | Some d0, Some d1, Some p0, Some p1 =>
                     (frame_after df cloture,
                      Some (Some (metrics_of pow cloture d0 d1 p0 p1)))
                 | _, _, _, _ => (with_rendement df cloture, None)
                 end
             | _ => (with_rendement df cloture, None)
             end
         | _ => (df, None)
         end.
Proof.
  destruct (empty df || (nrows df <? 2)%nat) eqn:E.
  { unfold calculate_performance, bind, get_frame. now rewrite E. }
  assert (Hn : (2 <= nrows df)%nat).
  { apply orb_false_elim in E as [_ E]. apply Nat.ltb_ge in E. exact E. }
  destruct (lookup_col "Cloture" (columns df)) as [[?|cloture|?]|] eqn:Hc;
    try (unfold calculate_performance, bind, get_frame, getitem_num;
         now rewrite E, Hc).
  destruct (lookup_col "Date" (columns df)) as [[dates|?|?]|] eqn:Hd;
    try (unfold calculate_performance, bind, get_frame; rewrite E;
         unfold getitem_num at 1; rewrite Hc;
         unfold setitem at 1; cbn [columns nrows];
         unfold getitem_date; cbn [columns nrows];
         rewrite lookup_assign_ne, Hd by discriminate; reflexivity).
  destruct (date_min dates) as [d0|] eqn:E0, (date_max dates) as [d1|] eqn:E1,
           (head cloture) as [p0|] eqn:E2, (last cloture) as [p1|] eqn:E3;
    try (unfold calculate_performance, bind, get_frame; rewrite E;
         unfold getitem_num at 1; rewrite Hc;
         unfold setitem at 1; cbn [columns nrows];
         unfold getitem_date; cbn [columns nrows];
         rewrite lookup_assign_ne, Hd by discriminate;
         rewrite E0, ?E1; cbn [of_option ret raise];
         try reflexivity;
         unfold getitem_num at 1; cbn [columns nrows];
         rewrite lookup_assign_ne, Hc by discriminate;
         rewrite E2, ?E3; cbn [of_option ret raise]; reflexivity).
  now apply calculate_performance_run with (dates := dates).
Qed.

Lemma assign_col_same (name : string) (c : column) (cols : list (string * column)) :
  lookup_col name cols = Some c -> assign_col name c cols = cols.
Proof.
  induction cols as [|[n c0] cols IH]; cbn; [discriminate|].
  destruct (String.eqb n name); [now intros [= ->] | intros H; now rewrite IH].
Qed.

Lemma assign_col_twice (name : string) (c : column) (cols : list (string * column)) :
  assign_col name c (assign_col name c cols) = assign_col name c cols.
Proof. apply assign_col_same, lookup_assign_eq. Qed.

Lemma frame_after_twice (df : DataFrame) (cloture : list float) :
  frame_after (frame_after df cloture) cloture = frame_after df cloture.
Proof.
  destruct (frame_after_derived df cloture) as (R1 & R2 & R3).
  unfold frame_after in *. cbn [nrows columns] in *. f_equal.
  rewrite (assign_col_same _ _ _ R1), (assign_col_same _ _ _ R2).
  apply (assign_col_same _ _ _ R3).
Qed.

Lemma not_short_after_assign (n : nat) (name : string) (c : column)
  (cols : list (string * column)) :
  (2 <= n)%nat ->
  empty (mkDataFrame n (assign_col name c cols)) || (n <? 2)%nat = false.
Proof.
  intros Hn. unfold empty. cbn [nrows columns].
  destruct (assign_col name c cols) eqn:E.
  - destruct cols as [|[n0 c0] cols]; cbn in E; [discriminate|].
    destruct (String.eqb n0 name); discriminate.
  - cbn. destruct n as [|[|n]]; [lia|lia|reflexivity].
Qed.

(** X13: calling [calculate_performance] again on the frame a first call
    left behind gives the same result and leaves the frame as it is, whatever
    the first call did (returned metrics, returned the empty dictionary, or
    raised): the derived columns are overwritten with the values they hold. *)
Theorem second_call_changes_nothing (df : DataFrame) :
  calculate_performance pow (fst (calculate_performance pow df))
  = calculate_performance pow df.
Proof.
  rewrite (calculate_performance_cases df).
  destruct (empty df || (nrows df <? 2)%nat) eqn:E.
  { cbn [fst]. now rewrite calculate_performance_cases, E. }
  assert (Hn : (2 <= nrows df)%nat).
  { apply orb_false_elim in E as [_ E]. apply Nat.ltb_ge in E. exact E. }
  destruct (lookup_col "Cloture" (columns df)) as [[?|cloture|?]|] eqn:Hc;
    try (cbn [fst]; now rewrite calculate_performance_cases, E, Hc).
  assert (Partial :
    calculate_performance pow (with_rendement df cloture)
    = match lookup_col "Date" (columns df) with
      | Some (DateCol dates) =>
          match date_min dates, date_max dates, head cloture, last cloture with
          | Some d0, Some d1, Some p0, Some p1 =>
              (frame_after (with_rendement df cloture) cloture,
               Some (Some (metrics_of pow cloture d0 d1 p0 p1)))
          | _, _, _, _ => (with_rendement df cloture, None)
          end
      | _ => (with_rendement df cloture, None)
      end).
  { rewrite calculate_performance_cases. cbn [nrows columns].
    rewrite not_short_after_assign by exact Hn.
    rewrite !lookup_assign_ne, Hc by discriminate.
    cbn [nrows columns]. rewrite assign_col_twice. reflexivity. }
  destruct (lookup_col "Date" (columns df)) as [[dates|?|?]|] eqn:Hd;
    try (cbn [fst]; exact Partial).
  destruct (date_min dates) as [d0|] eqn:E0, (date_max dates) as [d1|] eqn:E1,
           (head cloture) as [p0|] eqn:E2, (last cloture) as [p1|] eqn:E3;
    try (cbn [fst]; exact Partial).
  cbn [fst]. rewrite calculate_performance_cases.
  unfold frame_after at 1 2. cbn [nrows columns].
  rewrite not_short_after_assign by exact Hn.
  fold (frame_after df cloture).
  rewrite frame_after_other, Hc by discriminate.
  rewrite frame_after_other, Hd by discriminate.
  rewrite E0, E1, E2, E3. now rewrite frame_after_twice.
Qed.

(** X14: on a frame with at least two rows, a missing [Cloture] column makes
    the call raise with the frame untouched, whereas a missing [Date] column
    makes it raise after the 'Rendement' column was already added: the
    caller's frame, and the dictionary of the calling loop, keep the new
    column although no metrics were returned. *)
Theorem exception_can_leave_rendement_behind (symbol : string) (df : DataFrame) :
  (2 <= nrows df)%nat -> columns df <> [] ->
  (lookup_col "Cloture" (columns df) = None ->
   calculate_performance pow df = (df, None) /\
   performances_loop pow [(symbol, df)] = ([(symbol, df)], [])) /\
  (forall cloture,
     lookup_col "Cloture" (columns df) = Some (NumCol cloture) ->
     lookup_col "Date" (columns df) = None ->
     let df' := with_rendement df cloture in
     calculate_performance pow df = (df', None) /\
     performances_loop pow [(symbol, df)] = ([(symbol, df')], []) /\
     lookup_col "Rendement" (columns df')
     = Some (NumCol (Series.pct_change cloture)) /\
     (lookup_col "Rendement" (columns df) = None -> df' <> df)).
Proof.
  intros Hn Hcols.
  assert (E : empty df || (nrows df <? 2)%nat = false).
  { unfold empty. destruct (columns df); [contradiction|]. cbn.
    destruct (nrows df) as [|[|n]]; [lia|lia|reflexivity]. }
  split.
  - intros Hc.
    assert (R : calculate_performance pow df = (df, None))
      by now rewrite calculate_performance_cases, E, Hc.
    split; [exact R|]. cbn [performances_loop]. now rewrite R.
  - intros cloture Hc Hd df'.
    assert (R : calculate_performance pow df = (df', None))
      by now rewrite calculate_performance_cases, E, Hc, Hd.
    split; [exact R|]. split; [cbn [performances_loop]; now rewrite R|].
    assert (L : lookup_col "Rendement" (columns df')
                = Some (NumCol (Series.pct_change cloture)))
      by apply lookup_assign_eq.
    split; [exact L|]. intros Hnone Heq. rewrite Heq in L. congruence.
Qed.

(** What a call that returned metrics found in the frame. *)
Lemma calculate_performance_inv (df df' : DataFrame) (m : metrics) :
  calculate_performance pow df = (df', Some (Some m)) ->
  exists cloture dates d0 d1 p0 p1,
    (2 <= nrows df)%nat /\
    lookup_col "Cloture" (columns df) = Some (NumCol cloture) /\
    lookup_col "Date" (columns df) = Some (DateCol dates) /\
    date_min dates = Some d0 /\ date_max dates = Some d1 /\
    head cloture = Some p0 /\ last cloture = Some p1 /\
    df' = frame_after df cloture /\
    m = metrics_of pow cloture d0 d1 p0 p1.
Proof.
  rewrite calculate_performance_cases.
  destruct (empty df || (nrows df <? 2)%nat) eqn:E; [discriminate|].
  assert (Hn : (2 <= nrows df)%nat).
  { apply orb_false_elim in E as [_ E]. apply Nat.ltb_ge in E. exact E. }
  destruct (lookup_col "Cloture" (columns df)) as [[?|cloture|?]|];
    try discriminate.
  destruct (lookup_col "Date" (columns df)) as [[dates|?|?]|]; try discriminate.
  destruct (date_min dates) as [d0|] eqn:E0, (date_max dates) as [d1|] eqn:E1,
           (head cloture) as [p0|] eqn:E2, (last cloture) as [p1|] eqn:E3;
    try discriminate.
  intros [= <- <-]. exists cloture, dates, d0, d1, p0, p1.
  repeat split; assumption || reflexivity.
Qed.

Lemma foldl_min_spec (d : Z) (ds : list Z) :
  foldl Z.min d ds ∈ d :: ds /\ Forall (Z.le (foldl Z.min d ds)) (d :: ds).
Proof.
  revert d. induction ds as [|x ds IH]; intros d; cbn [foldl].
  - split; [apply list_elem_of_here | repeat constructor; lia].
  - destruct (IH (Z.min d x)) as [Hin Hall]. split.
    + apply elem_of_cons in Hin as [->|Hin].
      * destruct (Z.min_spec d x) as [[_ ->]|[_ ->]];
          [apply list_elem_of_here | apply list_elem_of_further, list_elem_of_here].
      * now do 2 apply list_elem_of_further.
    + inversion_clear Hall as [|? ? H1 H2].
      constructor; [lia|]. constructor; [lia | exact H2].
Qed.

Lemma foldl_max_spec (d : Z) (ds : list Z) :
  foldl Z.max d ds ∈ d :: ds /\ Forall (fun x => x <= foldl Z.max d ds) (d :: ds).
Proof.
  revert d. induction ds as [|x ds IH]; intros d; cbn [foldl].
  - split; [apply list_elem_of_here | repeat constructor; lia].
  - destruct (IH (Z.max d x)) as [Hin Hall]. split.
    + apply elem_of_cons in Hin as [->|Hin].
      * destruct (Z.max_spec d x) as [[_ ->]|[_ ->]];
          [apply list_elem_of_further, list_elem_of_here | apply list_elem_of_here].
      * now do 2 apply list_elem_of_further.
    + inversion_clear Hall as [|? ? H1 H2].
      constructor; [lia|]. constructor; [lia | exact H2].
Qed.

Lemma sqrt_not_negative (x : float) : (zero >? Float.sqrt x)%fl = false.
Proof.
  destruct x as [|a| |]; cbn; try reflexivity.
  destruct (Rlt_dec a 0); cbn; [reflexivity|].
  destruct (Rlt_dec (R_sqrt.sqrt a) 0) as [H|]; [|reflexivity].
  pose proof (sqrt_pos a). lra.
Qed.

Lemma scale_not_negative (x : float) (k : R) :
  (0 < k)%R -> (zero >? x)%fl = false -> (zero >? x * Fin k)%fl = false.
Proof.
  intros Hk. destruct x as [|a| |]; cbn; try reflexivity; try discriminate.
  - destruct (Rlt_dec a 0); [discriminate|]. intros _.
    destruct (Rlt_dec (a * k) 0) as [H|]; [|reflexivity].
    assert (0 <= a * k)%R by (apply Rmult_le_pos; lra). lra.
  - intros _. unfold sgn. destruct (Rlt_dec 0 k); [reflexivity | contradiction].
Qed.

Lemma volatility_not_negative (cloture : list float) :
  (zero >? volatility_of cloture)%fl = false.
Proof.
  unfold volatility_of, Series.std, hundred. rewrite sqrt_252.
  apply scale_not_negative; [lra|].
  apply scale_not_negative; [apply sqrt_lt_R0; lra|].
  apply sqrt_not_negative.
Qed.

(** X15: whenever [calculate_performance] returns metrics, whether or not
    the frame is sorted by date, the start and end dates are dates of the
    frame that bracket all the others, the duration in days is their
    difference and is not negative, the annualized return is 0 when all dates
    coincide, the volatility is never below zero, and the frame keeps its
    number of rows. *)
Theorem returned_metrics_are_consistent (df df' : DataFrame) (m : metrics) :
  calculate_performance pow df = (df', Some (Some m)) ->
  (2 <= nrows df)%nat /\ nrows df' = nrows df /\
  (exists dates,
     lookup_col "Date" (columns df) = Some (DateCol dates) /\
     start_date m ∈ dates /\ end_date m ∈ dates /\
     Forall (fun d => start_date m <= d <= end_date m) dates) /\
  duration_days m = end_date m - start_date m /\
  0 <= duration_days m /\
  (duration_days m = 0 -> annual_return m = zero) /\
  (zero >? volatility m)%fl = false.
Proof.
  intros H. apply calculate_performance_inv in H
    as (cloture & dates & d0 & d1 & p0 & p1
        & Hn & Hc & Hd & E0 & E1 & E2 & E3 & -> & ->).
  cbn [metrics_of start_date end_date duration_days annual_return volatility].
  destruct dates as [|d ds]; [discriminate E0|].
  cbn in E0, E1. injection E0 as <-. injection E1 as <-.
  destruct (foldl_min_spec d ds) as [Min1 Min2].
  destruct (foldl_max_spec d ds) as [Max1 Max2].
  assert (B : Forall (fun x => foldl Z.min d ds <= x <= foldl Z.max d ds) (d :: ds)).
  { rewrite Forall_forall in *. intros x Hx.
    split; [now apply Min2 | now apply Max2]. }
  split; [exact Hn|]. split; [reflexivity|].
  split; [exists (d :: ds); auto|]. split; [reflexivity|].
  assert (L : foldl Z.min d ds <= foldl Z.max d ds).
  { rewrite Forall_forall in B. destruct (B d); [apply list_elem_of_here | lia]. }
  split; [lia|]. split; [|apply volatility_not_negative].
  intros Hz. unfold annual_return_of.
  destruct (_ >? _)%fl eqn:G; [|reflexivity].
  apply duration_years_positive in G. lia.
Qed.

(** X16: the loop that fills [performances] keeps one frame per symbol, in
    the order of [data_frames]; the symbols that get metrics form a
    subsequence of those of [data_frames], each with the metrics its own
    frame gave, and a symbol whose frame has fewer than two rows, or on which
    the call raised, gets no entry. *)
Theorem performances_follow_data_frames (data_frames : list (string * DataFrame)) :
  let frames := fst (performances_loop pow data_frames) in
  let performances := snd (performances_loop pow data_frames) in
  frames = (fun entry => (fst entry, fst (calculate_performance pow (snd entry))))
             <$> data_frames /\
  fst <$> performances `sublist_of` fst <$> data_frames /\
  (forall symbol m,
     (symbol, m) ∈ performances <->
     exists df, (symbol, df) ∈ data_frames /\
                snd (calculate_performance pow df) = Some (Some m)) /\
  (forall symbol m,
     (symbol, m) ∈ performances ->
     exists df, (symbol, df) ∈ data_frames /\ (2 <= nrows df)%nat).
Proof.
  cbv zeta.
  assert (Core :
    fst (performances_loop pow data_frames)
    = (fun entry => (fst entry, fst (calculate_performance pow (snd entry))))
        <$> data_frames /\
    fst <$> snd (performances_loop pow data_frames) `sublist_of` fst <$> data_frames /\
    (forall symbol m,
       (symbol, m) ∈ snd (performances_loop pow data_frames) <->
       exists df, (symbol, df) ∈ data_frames /\
                  snd (calculate_performance pow df) = Some (Some m))).
  { induction data_frames as [|[s df] rest (IH1 & IH2 & IH3)].
    - cbn. split; [reflexivity|]. split; [constructor|].
      intros symbol m. split; [intros H; inversion H|].
      intros (df & H & _). inversion H.
    - cbn [performances_loop].
      destruct (calculate_performance pow df) as [df' outcome] eqn:E.
      destruct (performances_loop pow rest) as [frames performances].
      cbn [fst snd] in *. split; [|split].
      + cbn [fmap list_fmap fst snd]. rewrite E. cbn [fst]. now rewrite IH1.
      + destruct outcome as [[m|]|]; cbn [fmap list_fmap fst];
          [now apply sublist_skip | now apply sublist_cons..].
      + intros symbol m. split.
        * intros H.
          assert (Hcase : (symbol, m) ∈ performances \/
                          (symbol = s /\ outcome = Some (Some m))).
          { destruct outcome as [[m0|]|]; [|now left..].
            apply elem_of_cons in H as [[= -> ->]|H]; [now right | now left]. }
          destruct Hcase as [H'|[-> ->]].
          -- apply IH3 in H' as (df0 & Hin & Hr). exists df0.
             split; [now apply list_elem_of_further | exact Hr].
          -- exists df. split; [apply list_elem_of_here | now rewrite E].
        * intros (df0 & Hin & Hr).
          apply elem_of_cons in Hin as [[= -> ->]|Hin].
          -- rewrite E in Hr. cbn in Hr. subst outcome. apply list_elem_of_here.
          -- assert ((symbol, m) ∈ performances) by (apply IH3; eauto).
             destruct outcome as [[m0|]|];
               [now apply list_elem_of_further | assumption..]. }
  destruct Core as (C1 & C2 & C3).
  split; [exact C1|]. split; [exact C2|]. split; [exact C3|].
  intros symbol m H. apply C3 in H as (df & Hin & Hr). exists df.
  split; [exact Hin|].
  destruct (calculate_performance pow df) as [df' o] eqn:E. cbn in Hr. subst o.
  now apply calculate_performance_inv in E as (? & ? & ? & ? & ? & ? & Hn & _).
Qed.

Lemma getitem_columns_ext (names : list string) (df1 df2 : DataFrame) :
  nrows df1 = nrows df2 ->
  (forall name, name ∈ names ->
                lookup_col name (columns df1) = lookup_col name (columns df2)) ->
  getitem_columns names df1 = getitem_columns names df2.
Proof.
  intros Hn H. unfold getitem_columns. rewrite Hn.
  assert (E : mapM (fun name => pair name <$> lookup_col name (columns df1)) names
              = mapM (fun name => pair name <$> lookup_col name (columns df2)) names).
  { induction names as [|name names IH]; [reflexivity|].
    cbn [mapM]. rewrite (H name) by apply list_elem_of_here.
    rewrite IH; [reflexivity|].
    intros n Hin. apply H. now apply list_elem_of_further. }
  now rewrite E.
Qed.

(** X17: the six columns [export_to_excel] writes on the sheet of a symbol
    are the same whether or not [calculate_performance] was called on the
    frame before, and whatever that call did: the derived columns it adds to
    the caller's frame never reach the sheet, and the selection fails after
    the call exactly when it failed before. *)
Theorem export_ignores_derived_columns (df : DataFrame) :
  getitem_columns export_names (fst (calculate_performance pow df))
  = getitem_columns export_names df.
Proof.
  assert (K : forall name,
            name ∈ export_names ->
            name <> "Rendement"%string /\ name <> "Cumul"%string /\
            name <> "Drawdown"%string).
  { intros name Hin. unfold export_names in Hin.
    rewrite !elem_of_cons, elem_of_nil in Hin.
    repeat (destruct Hin as [->|Hin]; [repeat split; discriminate|]).
    destruct Hin. }
  assert (P : forall cloture,
            getitem_columns export_names (with_rendement df cloture)
            = getitem_columns export_names df).
  { intros cloture. apply getitem_columns_ext; [reflexivity|].
    intros name Hin. cbn [columns]. apply lookup_assign_ne.
    destruct (K name Hin) as (H & _). congruence. }
  rewrite calculate_performance_cases.
  destruct (empty df || (nrows df <? 2)%nat); [reflexivity|].
  destruct (lookup_col "Cloture" (columns df)) as [[?|cloture|?]|];
    [reflexivity| |reflexivity..].
  destruct (lookup_col "Date" (columns df)) as [[dates|?|?]|];
    [|exact (P cloture)..].
  destruct (date_min dates); [|exact (P cloture)].
  destruct (date_max dates); [|exact (P cloture)].
  destruct (head cloture); [|exact (P cloture)].
  destruct (last cloture); [|exact (P cloture)].
  cbn [fst]. apply getitem_columns_ext; [reflexivity|].
  intros name Hin. destruct (K name Hin) as (H1 & H2 & H3).
  now apply frame_after_other.
Qed.

End PerformanceOutcomes.

Section SheetNames.

Lemma length_slice_to (n : nat) (s : string) :
  String.length (PyStr.slice_to n s) = Nat.min n (String.length s).
Proof.
  revert s. induction n as [|n IH]; intros [|c s]; cbn; try reflexivity.
  now rewrite IH.
Qed.

Lemma prefix_slice_to (n : nat) (s : string) :
  String.prefix (PyStr.slice_to n s) s = true.
Proof.
  revert s. induction n as [|n IH]; intros [|c s]; cbn; try reflexivity.
  destruct (ascii_dec c c); [apply IH | contradiction].
Qed.

Lemma prefix_refl (s : string) : String.prefix s s = true.
Proof.
  induction s as [|c s IH]; cbn; [reflexivity|].
  destruct (ascii_dec c c); [exact IH | contradiction].
Qed.

(** X18: the sheet [export_to_excel] creates for a symbol is named by a
    prefix of the symbol of at most 20 characters, within the 31 characters a
    sheet name may have; it is the symbol itself when the symbol has at most
    20 characters, so two symbols get the same sheet only if they agree on
    their first 20 characters. *)
Theorem sheet_name_fits (symbol : string) :
  (String.length (sheet_name symbol) <= 20)%nat /\
  String.prefix (sheet_name symbol) symbol = true /\
  ((String.length symbol <= 20)%nat -> sheet_name symbol = symbol) /\
  (forall other, sheet_name other = sheet_name symbol ->
                 PyStr.slice_to 20 other = PyStr.slice_to 20 symbol).
Proof.
  assert (S : forall s, (String.length s <= 20)%nat -> PyStr.slice_to 20 s = s).
  { intros s. generalize 20%nat as n. intros n. revert s.
    induction n as [|n IH]; intros [|c s]; cbn; intros H; try reflexivity;
      [lia|]. f_equal. apply IH. lia. }
  assert (T : forall s, sheet_name s = PyStr.slice_to 20 s).
  { intros s. unfold sheet_name. destruct (20 <? String.length s)%nat eqn:E;
      [reflexivity|]. apply Nat.ltb_ge in E. symmetry. now apply S. }
  split; [|split; [|split]].
  - rewrite T, length_slice_to. lia.
  - rewrite T. apply prefix_slice_to.
  - intros H. rewrite T. now apply S.
  - intros other H. now rewrite <- !T.
Qed.

End SheetNames.

(** ** The derived columns of a complete run *)

Section PricedSeries.

Local Open Scope R_scope.

Variable pow : float -> float -> float.

(** The drawdown column next to a wealth index whose first cell is missing
    and whose second cell is a non-zero number: the running maximum at the
    second cell is that cell itself. *)
Lemma drawdown_after_first (w : R) (rest : list float) :
  w <> 0 ->
  exists later,
    Series.sub_scalar
      (Series.div (NaN :: Fin w :: rest) (Series.cummax (NaN :: Fin w :: rest))) one
    = NaN :: Fin 0 :: later /\
    length later = length rest.
Proof.
  intros Hw. unfold Series.cummax, Series.na_accum_func.
  cbn [fmap list_fmap isnan Series.putmask zip_with Series.np_accumulate
         Series.accumulate_from].
  rewrite maximum_NInf_Fin.
  unfold Series.div, Series.sub_scalar. cbn [zip_with fmap list_fmap].
  rewrite div_Fin by exact Hw.
  eexists. split.
  - f_equal. f_equal. unfold Float.sub, one. cbn [Float.opp Float.add].
    f_equal. field. exact Hw.
  - rewrite length_fmap, length_zip_with, length_zip_with,
      length_accumulate_from, length_zip_with, !length_fmap. lia.
Qed.

Lemma minimum_not_positive (x y : float) :
  isnan x = false -> (x >? zero)%fl = false -> isnan y = false ->
  isnan (Float.minimum x y) = false /\ (Float.minimum x y >? zero)%fl = false.
Proof.
  unfold zero. destruct x as [|a| |], y as [|b| |]; cbn; try discriminate;
    intros _ Ha _; auto;
    repeat match goal with
           | |- context [Rlt_dec ?p ?q] => destruct (Rlt_dec p q)
           | H : context [Rlt_dec ?p ?q] |- _ => destruct (Rlt_dec p q)
           end; cbn; auto; try discriminate;
    repeat match goal with
           | |- context [Rlt_dec ?p ?q] => destruct (Rlt_dec p q)
           end; auto; exfalso; lra.
Qed.

Lemma foldl_minimum_not_positive (xs : list float) (x : float) :
  isnan x = false -> (x >? zero)%fl = false ->
  Forall (fun y => isnan y = false) xs ->
  isnan (foldl Float.minimum x xs) = false /\
  (foldl Float.minimum x xs >? zero)%fl = false.
Proof.
  intros Hn Hx H. revert x Hn Hx. induction H as [|y xs Hy _ IH]; intros x Hn Hx;
    [auto|].
  cbn [foldl]. destruct (minimum_not_positive x y Hn Hx Hy). now apply IH.
Qed.

Lemma scale_not_positive (x : float) :
  isnan x = false -> (x >? zero)%fl = false ->
  isnan (x * hundred)%fl = false /\ (x * hundred >? zero)%fl = false.
Proof.
  unfold zero, hundred. destruct x as [|a| |]; cbn; try discriminate.
  - intros _ H. split; [reflexivity|].
    destruct (Rlt_dec 0 a); [discriminate H|].
    destruct (Rlt_dec 0 (a * 100)); [exfalso; lra | reflexivity].
  - intros _ _. unfold sgn. destruct (Rlt_dec 0 100); [|exfalso; lra].
    cbn. auto.
Qed.

(** X20: in the frame a complete run leaves, the drawdown of the second
    record is 0 whenever its wealth index ('Cumul') is a non-zero number:
    the wealth index of the first record is missing, so the running maximum
    starts at the second record and the first close never counts as a peak.
    The reported max drawdown is then a number, never positive, and with
    exactly two records it is 0, whatever the two prices are. *)
Theorem first_close_is_never_a_peak (df df' : DataFrame) (m : metrics) (w : R)
  (rest : list float) :
  calculate_performance pow df = (df', Some (Some m)) ->
  lookup_col "Cumul" (columns df') = Some (NumCol (NaN :: Fin w :: rest)) ->
  w <> 0 ->
  exists later,
    lookup_col "Drawdown" (columns df') = Some (NumCol (NaN :: Fin 0 :: later)) /\
    length later = length rest /\
    isnan (max_drawdown m) = false /\
    (max_drawdown m >? zero)%fl = false /\
    (rest = [] -> max_drawdown m = Fin 0).
Proof.
  intros H Hcumul Hw.
  destruct (calculate_performance_inv pow df df' m H)
    as (cloture & dates & d0 & d1 & p0 & p1 & _ & _ & _ & _ & _ & _ & _ & -> & ->).
  destruct (frame_after_derived df cloture) as (_ & R2 & R3).
  cbv zeta in R2, R3. rewrite R2 in Hcumul. injection Hcumul as Hcumul.
  destruct (drawdown_after_first w rest Hw) as (later & Hdd & Hlen).
  assert (E : drawdown_of cloture = NaN :: Fin 0 :: later).
  { unfold drawdown_of. rewrite Hcumul. exact Hdd. }
  exists later. split; [now rewrite R3, E|]. split; [exact Hlen|].
  cbn [max_drawdown metrics_of]. rewrite E.
  unfold Series.min, Series.dropna.
  rewrite filter_cons_False by (cbn; discriminate).
  rewrite filter_cons_True by reflexivity.
  assert (F : Forall (fun y => isnan y = false)
                (filter (fun x => isnan x = false) later)).
  { apply Forall_forall. intros y Hy. now apply list_elem_of_filter in Hy as [Hy _]. }
  destruct (foldl_minimum_not_positive _ (Fin 0) eq_refl
              ltac:(unfold zero; cbn; destruct (Rlt_dec 0 0); [exfalso; lra | reflexivity]) F)
    as [M1 M2].
  destruct (scale_not_positive _ M1 M2) as [S1 S2].
  split; [exact S1|]. split; [exact S2|].
  intros ->. destruct later; [|discriminate Hlen].
  cbn. unfold hundred. cbn. f_equal. ring.
Qed.

(** X21: whenever [calculate_performance] returns metrics, each of the three
    derived columns it leaves in the frame has one cell per closing price and
    a missing first cell: the first record has no return, no wealth index and
    no drawdown. *)
Theorem derived_columns_start_missing (df df' : DataFrame) (m : metrics) :
  calculate_performance pow df = (df', Some (Some m)) ->
  exists cloture rendement cumul drawdown,
    lookup_col "Cloture" (columns df) = Some (NumCol cloture) /\
    lookup_col "Rendement" (columns df') = Some (NumCol (NaN :: rendement)) /\
    lookup_col "Cumul" (columns df') = Some (NumCol (NaN :: cumul)) /\
    lookup_col "Drawdown" (columns df') = Some (NumCol (NaN :: drawdown)) /\
    length (NaN :: rendement) = length cloture /\
    length (NaN :: cumul) = length cloture /\
    length (NaN :: drawdown) = length cloture.
Proof.
  intros H.
  destruct (calculate_performance_inv pow df df' m H)
    as (cloture & dates & d0 & d1 & p0 & p1
        & _ & Hc & _ & _ & _ & E2 & _ & -> & _).
  destruct (frame_after_derived df cloture) as (R1 & R2 & R3).
  destruct (length_derived cloture) as (L1 & L2 & L3).
  destruct cloture as [|x xs]; [discriminate E2|].
  assert (Hr : exists r, rendement_of (x :: xs) = NaN :: r).
  { unfold rendement_of, Series.pct_change, Series.shift.
    cbn [length take zip_with]. destruct x; cbn; eauto. }
  destruct Hr as [r Hr].
  assert (Hw : exists w, cumul_of (x :: xs) = NaN :: w).
  { unfold cumul_of. rewrite Hr. cbn. eauto. }
  destruct Hw as [w Hw].
  assert (Hd : exists d, drawdown_of (x :: xs) = NaN :: d).
  { unfold drawdown_of. rewrite Hw. cbn. eauto. }
  destruct Hd as [d Hd].
  rewrite Hr in R1, L1. rewrite Hw in R2, L2. rewrite Hd in R3, L3.
  exists (x :: xs), r, w, d. auto 10.
Qed.

End PricedSeries.

(** ** Sectors and the selections of the charts *)

Section SectorSelections.

Import Sector.
Local Open Scope string_scope.

(** No key of the sector map starts with "BRVM", and no value is "Indice". *)
Lemma sector_map_entries (x s : string) :
  get_sector_classification !! x = Some s ->
  String.prefix "BRVM" x = false /\ s <> "Indice".
Proof.
  intros E. apply elem_of_map_to_list in E.
  revert E. vm_compute (map_to_list _).
  rewrite !elem_of_cons, elem_of_nil.
  intros H.
  repeat (destruct H as [H|H];
          [injection H as -> ->; split; [reflexivity | discriminate]|]).
  destruct H.
Qed.

(** X22: a symbol is classified "Indice" exactly when it starts with "BRVM";
    the risk/return chart, which drops the rows whose symbol starts with
    "BRVM", therefore shows exactly the rows whose sector is not "Indice". *)
Theorem indices_are_the_BRVM_prefixed_symbols (x : string)
  (perf_df : list (string * metrics)) (row : string * metrics) :
  (classify x = "Indice" <-> String.prefix "BRVM" x = true) /\
  (row ∈ values_only perf_df <->
   row ∈ perf_df /\ classify (fst row) <> "Indice").
Proof.
  assert (K : forall y, classify y = "Indice" <-> String.prefix "BRVM" y = true).
  { intros y. destruct (get_sector_classification !! y) as [s|] eqn:E.
    - destruct (sector_map_entries y s E) as [Hp Hs].
      rewrite (classify_known _ _ E), Hp. split; [contradiction | discriminate].
    - rewrite (classify_unknown _ E).
      destruct (String.prefix "BRVM" y); split; auto; discriminate. }
  split; [apply K|].
  unfold values_only. rewrite list_elem_of_filter, K.
  destruct (String.prefix "BRVM" (fst row)); intuition congruence.
Qed.

(** X23: every symbol listed in the table [sectors] is classified under the
    sector that lists it: no symbol is listed twice, so no later entry of the
    dictionary overwrites an earlier one, and the dictionary has one key per
    listed symbol. *)
Theorem listed_symbol_gets_its_sector (sector symbol : string)
  (symbols : list string) :
  (sector, symbols) ∈ sectors -> symbol ∈ symbols ->
  classify symbol = sector /\
  get_sector_classification !! symbol = Some sector /\
  size get_sector_classification = length (concat (snd <$> sectors)).
Proof.
  intros Hs Hin. unfold sectors in Hs.
  rewrite !elem_of_cons, elem_of_nil in Hs.
  repeat (destruct Hs as [Hs|Hs];
          [injection Hs as -> ->;
           rewrite !elem_of_cons, elem_of_nil in Hin;
           repeat (destruct Hin as [->|Hin];
                   [repeat split; vm_compute; reflexivity|]);
           destruct Hin|]).
  destruct Hs.
Qed.

End SectorSelections.

Section TopRows.

Local Open Scope R_scope.

Ltac split_Rlt :=
  repeat match goal with
         | |- context [Rlt_dec ?x ?y] => destruct (Rlt_dec x y)
         end.

Lemma desc_le_total : Total desc_le.
Proof.
  intros [|a| |] [|b| |]; cbn; try tauto.
  split_Rlt; try tauto. exfalso. lra.
Qed.

Lemma desc_le_trans : Transitive desc_le.
Proof.
  intros [|a| |] [|b| |] [|c| |]; cbn; try tauto; try discriminate.
  split_Rlt; try tauto; try discriminate. exfalso. lra.
Qed.

Lemma desc_le_Fin (a b : R) : desc_le (Fin a) (Fin b) <-> b <= a.
Proof.
  cbn. split_Rlt; split; try discriminate; try reflexivity; lra.
Qed.

Lemma sort_values_desc_StronglySorted (key : metrics -> float)
  (perf_df : list (string * metrics)) :
  StronglySorted (by_desc key) (sort_values_desc key perf_df).
Proof.
  apply Sorted_StronglySorted.
  - intros a b c. unfold by_desc. apply desc_le_trans.
  - apply Sorted_merge_sort. intros a b. unfold by_desc. apply desc_le_total.
Qed.

(** X24: on a performance table with at least one row, the rows a chart or
    table takes with [sort_values(by, ascending=False).head(n)] are at most
    [n] rows of the table, none invented and none repeated; every row shown
    comes before every row left out in the descending order of the key, so no
    instrument left out has a larger finite value than one shown, and a row
    whose value is missing is shown only if the value of every row left out
    is missing too.  It holds in particular for the 15 best total returns of
    the performance chart and the 10 best Sharpe ratios of the report. *)
Theorem top_rows_dominate_the_rest (key : metrics -> float) (n : nat)
  (perf_df : list (string * metrics)) :
  perf_df <> [] ->
  let shown := top_by key n perf_df in
  let left_out := drop n (sort_values_desc key perf_df) in
  length shown = Nat.min n (length perf_df) /\
  shown ++ left_out ≡ₚ perf_df /\
  (forall a b, a ∈ shown -> b ∈ left_out ->
               desc_le (key (snd a)) (key (snd b))) /\
  (forall a b x y, a ∈ shown -> b ∈ left_out ->
                   key (snd a) = Fin x -> key (snd b) = Fin y -> y <= x) /\
  (forall a b, a ∈ shown -> b ∈ left_out ->
               key (snd a) = NaN -> key (snd b) = NaN) /\
  (length (top_perf perf_df) <= 15)%nat /\
  (length (top_sharpe perf_df) <= 10)%nat.
Proof.
  intros _ shown left_out.
  assert (P : sort_values_desc key perf_df ≡ₚ perf_df)
    by apply merge_sort_Permutation.
  assert (D : forall a b, a ∈ shown -> b ∈ left_out ->
                          desc_le (key (snd a)) (key (snd b))).
  { intros a b Ha Hb.
    pose proof (sort_values_desc_StronglySorted key perf_df) as S.
    rewrite <- (take_drop n (sort_values_desc key perf_df)) in S.
    exact (StronglySorted_app_1_elem_of _ _ _ _ _ S Ha Hb). }
  split; [|split; [|split; [|split; [|split; [|split]]]]].
  - unfold shown, top_by. rewrite length_take, (Permutation_length P). lia.
  - unfold shown, left_out, top_by. now rewrite take_drop.
  - exact D.
  - intros a b x y Ha Hb Ea Eb. specialize (D a b Ha Hb).
    rewrite Ea, Eb in D. now apply desc_le_Fin.
  - intros a b Ha Hb Ea. specialize (D a b Ha Hb). rewrite Ea in D.
    destruct (key (snd b)); [reflexivity | contradiction..].
  - unfold top_perf, top_by. rewrite length_take. lia.
  - unfold top_sharpe, top_by. rewrite length_take. lia.
Qed.

End TopRows.

(** ** The live quotation table *)

Section QuotationRows.

Variable py_float : string -> option float.
Variable py_int : string -> option Z.

Local Abbreviation quote_row := (quote_of py_float py_int).
Local Abbreviation values_of := (get_brvm_values py_float py_int).

Local Abbreviation keep :=
  (fun cells : list td =>
     if (9 <=? length cells)%nat then quote_row cells else None).

Lemma length_omap_le {A B} (f : A -> option B) (l : list A) :
  (length (omap f l) <= length l)%nat.
Proof.
  induction l as [|x l IH]; [reflexivity|].
  cbn [omap list_omap]. destruct (f x); cbn [length]; lia.
Qed.

(** X25: in the quotation table a row that has fewer than nine cells, or on
    which a conversion fails, is passed over on its own: the quotations of
    the rows before and after it are returned as if the row were not there,
    in page order, and the header row never yields a quotation. *)
Theorem bad_quotation_row_is_skipped_alone (header bad : list td)
  (before after : list (list td)) :
  (length bad < 9)%nat \/ quote_row bad = None ->
  values_of (HttpOk (Some (header :: before ++ bad :: after)))
  = values_of (HttpOk (Some (header :: before ++ after))) /\
  values_of (HttpOk (Some (header :: before ++ after)))
  = values_of (HttpOk (Some (header :: before)))
    ++ values_of (HttpOk (Some (header :: after))) /\
  (length (values_of (HttpOk (Some (header :: before ++ bad :: after))))
   <= length before + length after)%nat.
Proof.
  intros Hbad. unfold get_brvm_values. cbn [skipn]. rewrite !drop_0.
  assert (E : keep bad = None).
  { destruct Hbad as [H|H].
    - apply Nat.leb_gt in H. now rewrite H.
    - destruct (9 <=? length bad)%nat; [exact H | reflexivity]. }
  rewrite !omap_app. cbn [omap list_omap]. rewrite E.
  split; [reflexivity|]. split; [reflexivity|].
  rewrite length_app.
  pose proof (length_omap_le keep before). pose proof (length_omap_le keep after).
  lia.
Qed.

Lemma absolute_link_spec (href : option string) (link : string) :
  absolute_link href = Some link ->
  link = EmptyString \/ String.prefix "http" link = true.
Proof.
  unfold absolute_link. destruct href as [l|]; [|discriminate].
  destruct l as [|c l]; cbn [PyStr.truthy andb].
  - intros [= <-]. now left.
  - destruct (String.prefix "http" (String c l)) eqn:E; cbn [negb];
      intros [= <-]; right; [exact E | reflexivity].
Qed.

Lemma quote_of_link (cells : list td) (q : Quote.t) :
  quote_row cells = Some q ->
  exists c0, head cells = Some c0 /\
             Quote.detail_link q = absolute_link (td_href c0) /\
             Quote.symbol q = PyStr.strip (td_text c0).
Proof.
  unfold quote_of.
  destruct cells as [|c0 [|c1 [|c2 [|c3 [|c4 [|c5 [|c6 [|c7 [|c8 more]]]]]]]]];
    try discriminate.
  destruct (float_or_0 _ (price_text (td_text c3))); [|discriminate]. cbn.
  destruct (float_or_0 _ (change_text (td_text c4))); [|discriminate]. cbn.
  destruct (int_or_0 _ _); [|discriminate]. cbn.
  destruct (float_or_0 _ (price_text (td_text c6))); [|discriminate]. cbn.
  destruct (float_or_0 _ (price_text (td_text c7))); [|discriminate]. cbn.
  destruct (float_or_0 _ (price_text (td_text c8))); [|discriminate]. cbn.
  intros [= <-]. exists c0. auto.
Qed.

(** X26: the detail link of every quotation returned is absent, empty, or
    starts with "http": a relative link of the page is always prefixed with
    the site's address. *)
Theorem detail_links_are_absolute (response : http quotation_table)
  (q : Quote.t) (link : string) :
  q ∈ values_of response ->
  Quote.detail_link q = Some link ->
  link = EmptyString \/ String.prefix "http" link = true.
Proof.
  intros Hq Hl. unfold get_brvm_values in Hq.
  destruct response as [|[rows|]]; try (inversion Hq; fail).
  apply list_elem_of_omap in Hq as (cells & _ & Hq).
  destruct (9 <=? length cells)%nat; [|discriminate].
  apply quote_of_link in Hq as (c0 & _ & E & _).
  rewrite E in Hl. exact (absolute_link_spec _ _ Hl).
Qed.

End QuotationRows.

(** ** The columns of the saved files *)

Section SavedColumns.

Variable py_float : string -> option float.
Variable py_int : string -> option Z.
Variable strptime_dmy : string -> option Z.
Variable to_datetime : cell -> option cell.
Variable fmt_float : float -> string.
Variable fmt_int : Z -> string.
Variable fmt_date : Z -> string.

Local Abbreviation save := (to_csv_text fmt_float fmt_int fmt_date).
Local Abbreviation add_key :=
  (fun (acc : list string) (k : string) =>
     if decide (k ∈ acc) then acc else acc ++ [k]).

(** A frame all of whose rows have the keys [ks], in that order, has the
    columns [ks]. *)
Lemma all_keys_uniform (ks : list string) (df : RowFrame) :
  foldl add_key [] ks = ks -> foldl add_key ks ks = ks ->
  Forall (fun r : record => fst <$> r = ks) df -> df <> [] ->
  all_keys df = ks.
Proof.
  intros E0 E1 H Hne. destruct H as [|r df Hr H]; [congruence|].
  unfold all_keys. cbn [foldl]. unfold add_keys at 2. rewrite Hr, E0.
  clear Hne Hr r. induction H as [|r df Hr _ IH]; [reflexivity|].
  cbn [foldl]. unfold add_keys at 2. rewrite Hr, E1. exact IH.
Qed.

Lemma save_uniform (ks : list string) (df : RowFrame) :
  foldl add_key [] ks = ks -> foldl add_key ks ks = ks ->
  Forall (fun r : record => fst <$> r = ks) df -> df <> [] ->
  header (save df) = ks /\
  length (lines (save df)) = length df /\
  Forall (fun line => length line = length ks) (lines (save df)).
Proof.
  intros E0 E1 H Hne. unfold to_csv_text.
  rewrite (all_keys_uniform ks df E0 E1 H Hne). cbn [header lines].
  split; [reflexivity|]. split; [apply length_fmap|].
  apply Forall_fmap, Forall_forall. intros r _. cbn. apply length_fmap.
Qed.

(** X27: the file saved from a non-empty result of the official-site adapter
    has the seven canonical columns, in the canonical order, one line per
    record and seven fields on every line. *)
Theorem brvm_file_has_canonical_columns (symbol : string)
  (page : http html_table) :
  let df := scrape_brvm_official py_float py_int strptime_dmy symbol page in
  df <> [] ->
  header (save df) = canonical_columns /\
  length (lines (save df)) = length df /\
  Forall (fun line => length line = 7%nat) (lines (save df)).
Proof.
  intros df Hne.
  apply (save_uniform canonical_columns df); [reflexivity | reflexivity | | exact Hne].
  apply scrape_brvm_Forall. intros cols r Hr.
  now apply brvm_record_shape in Hr as (d & o & h & l & c & n & -> & _).
Qed.

Lemma set_keys_present (k : string) (v : cell) (r : record) :
  k ∈ fst <$> r -> fst <$> Rec.set k v r = fst <$> r.
Proof.
  induction r as [|[k' v'] r IH]; cbn; [intros H; inversion H|].
  destruct (String.eqb_spec k' k) as [->|Hne]; [reflexivity|].
  rewrite elem_of_cons. intros [E|H]; [congruence|]. cbn. f_equal. now apply IH.
Qed.

Lemma set_keys_absent (k : string) (v : cell) (r : record) :
  k ∉ fst <$> r -> fst <$> Rec.set k v r = (fst <$> r) ++ [k].
Proof.
  induction r as [|[k' v'] r IH]; cbn; [reflexivity|].
  rewrite not_elem_of_cons. intros [Hne H].
  destruct (String.eqb_spec k' k) as [->|_]; [congruence|].
  cbn. f_equal. now apply IH.
Qed.

Lemma rename_keys (mapping : list (string * string)) (r : record) :
  fst <$> Rec.rename mapping r
  = (fun k => Rec.lookup_name k mapping) <$> (fst <$> r).
Proof. unfold Rec.rename. rewrite <- !list_fmap_compose. reflexivity. Qed.

(** X28: when every object of the history API's reply has the seven fields
    the adapter renames, the file saved from a non-empty result has eight
    columns: the seven renamed fields, [Variation] among them, followed by
    [Symbole].  The files of the two sources therefore differ in their
    columns: only those of the history API have a [Variation] column. *)
Theorem sika_file_has_variation_column (symbol : string)
  (intraday : list record) :
  let df := scrape_sika_finance to_datetime symbol (HttpOk (Some intraday)) in
  Forall (fun r : record => fst <$> r = fst <$> sika_columns) intraday ->
  df <> [] ->
  header (save df)
  = ["Date"; "Ouverture"; "Plus_Haut"; "Plus_Bas"; "Cloture"; "Variation";
     "Volume"; "Symbole"]%string /\
  length (lines (save df)) = length df /\
  "Variation"%string ∈ header (save df) /\
  "Variation"%string ∉ canonical_columns.
Proof.
  intros df Hkeys Hne.
  assert (Hdf : Forall (fun r : record =>
                          fst <$> r
                          = ["Date"; "Ouverture"; "Plus_Haut"; "Plus_Bas";
                             "Cloture"; "Variation"; "Volume"; "Symbole"]%string)
                       df).
  { unfold df, scrape_sika_finance, sika_try in *.
    destruct (0 <? length intraday)%nat; [|congruence].
    destruct (Rows.has_column _ _); [|congruence].
    destruct (mapM _ _) as [dates|]; cbn in *; [|congruence].
    unfold Rows.set_scalar. apply Forall_fmap.
    unfold Rows.sort_values_date. rewrite merge_sort_Permutation.
    apply Forall_forall. intros r Hr. cbn.
    unfold Rows.set_column in Hr.
    apply elem_of_zip_with in Hr as (r0 & d & -> & Hr0 & _).
    apply list_elem_of_fmap in Hr0 as (r1 & -> & Hr1).
    rewrite Forall_forall in Hkeys. specialize (Hkeys r1 Hr1).
    assert (K : fst <$> Rec.set "Date" d (Rec.rename sika_columns r1)
                = ["Date"; "Ouverture"; "Plus_Haut"; "Plus_Bas"; "Cloture";
                   "Variation"; "Volume"]%string).
    { rewrite set_keys_present; rewrite rename_keys, Hkeys; [reflexivity|].
      apply list_elem_of_here. }
    rewrite set_keys_absent; rewrite K; [reflexivity|].
    rewrite !not_elem_of_cons. repeat split; try discriminate.
    apply not_elem_of_nil. }
  destruct (save_uniform _ df eq_refl eq_refl Hdf Hne) as (H1 & H2 & _).
  split; [exact H1|]. split; [exact H2|]. split.
  - rewrite H1. do 5 apply list_elem_of_further. apply list_elem_of_here.
  - unfold canonical_columns. rewrite !not_elem_of_cons.
    repeat split; try discriminate. apply not_elem_of_nil.
Qed.

End SavedColumns.

Lemma brvm_file_has_canonical_columns_witness :
  let df := sample_brvm "SNTS" (HttpOk (Some [good_row; same_day_row])) in
  header (SampleCsv.save df) = canonical_columns /\
  length (lines (SampleCsv.save df)) = length df /\
  Forall (fun line => length line = 7%nat) (lines (SampleCsv.save df)).
Proof.
  apply (brvm_file_has_canonical_columns
           Sample.py_float Sample.py_int Sample.strptime_dmy
           SampleCsv.fmt_float SampleCsv.fmt_int SampleCsv.fmt_date
           "SNTS" (HttpOk (Some [good_row; same_day_row]))).
  vm_compute. discriminate.
Defined.

Lemma sika_file_has_variation_column_witness :
  let df := sample_sika "SNTS" (HttpOk (Some sika_same_day)) in
  header (SampleCsv.save df)
  = ["Date"; "Ouverture"; "Plus_Haut"; "Plus_Bas"; "Cloture"; "Variation";
     "Volume"; "Symbole"]%string /\
  length (lines (SampleCsv.save df)) = length df /\
  "Variation"%string ∈ header (SampleCsv.save df) /\
  "Variation"%string ∉ canonical_columns.
Proof.
  apply (sika_file_has_variation_column Sample.to_datetime
           SampleCsv.fmt_float SampleCsv.fmt_int SampleCsv.fmt_date
           "SNTS" sika_same_day).
  - repeat constructor.
  - vm_compute. discriminate.
Defined.

(** ** The properties above on the sample data *)

(** The run of the sample world from an empty state writes the history-API
    frame of "BRVM-30" under that index's path. *)
Lemma written_files_are_nonempty_witness :
  let df := sample_sika "BRVM-30" (HttpOk (Some sika_same_day)) in
  files (mkRun ∅ []) !! output_path "BRVM-30" = Some df \/
  (Rows.empty df = false /\
   exists symbol,
     output_path "BRVM-30" = output_path symbol /\
     (df = (fun symbol => scrape_sika_finance Sample.to_datetime symbol
                            (sika_api sample_world symbol)) symbol \/
      df = (fun symbol => scrape_brvm_official Sample.py_float Sample.py_int
                            Sample.strptime_dmy symbol
                            (brvm_site sample_world symbol)) symbol)).
Proof.
  apply (written_files_are_nonempty Sample.py_float Sample.py_int
           Sample.strptime_dmy Sample.to_datetime sample_world true true
           (mkRun ∅ [])).
  vm_compute. reflexivity.
Defined.

(** The record parsed from one table row. *)
Lemma brvm_records_have_canonical_schema_witness :
  exists r,
    r ∈ sample_brvm "SNTS" (HttpOk (Some [good_row])) /\
    fst <$> r = canonical_columns /\
    Rec.get "Symbole" r = Some (CStr "SNTS").
Proof.
  assert (E : exists r, sample_brvm "SNTS" (HttpOk (Some [good_row])) = [r])
    by (vm_compute; eexists; reflexivity).
  destruct E as [r E].
  assert (Hin : r ∈ sample_brvm "SNTS" (HttpOk (Some [good_row])))
    by (rewrite E; apply list_elem_of_here).
  destruct (brvm_records_have_canonical_schema
              Sample.py_float Sample.py_int Sample.strptime_dmy
              "SNTS" (HttpOk (Some [good_row])) r Hin) as (H1 & _ & _ & _ & H5).
  exists r. auto.
Defined.


Lemma loaded_frame_can_be_analysed_witness :
  exists df df' m,
    SampleCsv.load sample_file = Some df /\
    calculate_performance real_pow df = (df', Some (Some m)) /\
    start_date m <= end_date m.
Proof.
  assert (E : exists df, SampleCsv.load sample_file = Some df)
    by (vm_compute; eexists; reflexivity).
  destruct E as [df E].
  destruct (loaded_frame_can_be_analysed
              SampleCsv.csv_token Sample.to_datetime real_pow sample_file df)
    as (df' & m & dates & cloture & H1 & _ & _ & _ & _ & H6 & _).
  - apply (bool_decide_unpack _). vm_compute. exact I.
  - repeat constructor.
  - intros c Hc. vm_compute in Hc. injection Hc as <-.
    repeat constructor; vm_compute; discriminate.
  - exact E.
  - simpl. lia.
  - apply (bool_decide_unpack _). vm_compute. exact I.
  - exists df, df', m. auto.
Defined.

(** A directory with the sample file and a file without a [Date] column. *)
Lemma file_without_Date_is_skipped_witness :
  load_data SampleCsv.csv_token Sample.to_datetime
    ([("SNTS_historical.csv"%string, sample_file)]
       ++ ("ORAC_historical.csv"%string, no_date_file) :: [])
  = load_data SampleCsv.csv_token Sample.to_datetime
      ([("SNTS_historical.csv"%string, sample_file)] ++ []).
Proof.
  apply (file_without_Date_is_skipped SampleCsv.csv_token Sample.to_datetime).
  apply (bool_decide_unpack _). vm_compute. exact I.
Defined.

Lemma loaded_frames_come_from_files_witness :
  exists name file df,
    (name, file) ∈ [("SNTS_historical.csv"%string, sample_file)] /\
    symbol_of_file name = "SNTS"%string /\
    SampleCsv.load file = Some df.
Proof.
  assert (E : exists df,
             load_data SampleCsv.csv_token Sample.to_datetime
               [("SNTS_historical.csv"%string, sample_file)] !! "SNTS"%string
             = Some df)
    by (vm_compute; eexists; reflexivity).
  destruct E as [df E].
  destruct (loaded_frames_come_from_files
              SampleCsv.csv_token Sample.to_datetime _ _ _ E)
    as (name & file & H).
  exists name, file, df. exact H.
Defined.

(** A frame of two rows that has closing prices but no dates. *)
Lemma exception_can_leave_rendement_behind_witness :
  let df := mkDataFrame 2 [("Cloture"%string, NumCol [Fin 100; Fin 110]%R)] in
  exists df', calculate_performance real_pow df = (df', None) /\ df' <> df.
Proof.
  intros df.
  destruct (exception_can_leave_rendement_behind real_pow "SNTS" df)
    as [_ H]; [simpl; lia | discriminate |].
  destruct (H [Fin 100; Fin 110]%R eq_refl eq_refl) as (R & _ & _ & Hne).
  eexists. split; [exact R|]. apply Hne. reflexivity.
Defined.

(** Two records one year apart. *)
Lemma returned_metrics_are_consistent_witness :
  exists df' m,
    calculate_performance real_pow (sample_frame [0; 365] [100; 110]%R)
    = (df', Some (Some m)) /\
    duration_days m = end_date m - start_date m /\ 0 <= duration_days m.
Proof.
  destruct (calculate_performance_total real_pow
              (sample_frame [0; 365] [100; 110]%R) [Fin 100; Fin 110]%R [0; 365])
    as (d0 & d1 & p0 & p1 & _ & _ & _ & _ & Hrun);
    [repeat constructor | simpl; lia | reflexivity | reflexivity |].
  destruct (returned_metrics_are_consistent real_pow _ _ _ Hrun)
    as (_ & _ & _ & H4 & H5 & _).
  eexists _, _. split; [exact Hrun|]. split; [exact H4 | exact H5].
Defined.

(** Two records, the price falling from 100 to 50. *)
Lemma first_close_is_never_a_peak_witness :
  exists df' m,
    calculate_performance real_pow (sample_frame [0; 1] [100; 50]%R)
    = (df', Some (Some m)) /\
    max_drawdown m = Fin 0.
Proof.
  assert (Hnz : Forall (fun c => c <> 0%R) [100; 50]%R)
    by (repeat constructor; lra).
  destruct (calculate_performance_total real_pow
              (sample_frame [0; 1] [100; 50]%R) (Fin <$> [100; 50]%R) [0; 1])
    as (d0 & d1 & p0 & p1 & _ & _ & _ & _ & Hrun);
    [repeat constructor | simpl; lia | reflexivity | reflexivity |].
  destruct (drawdown_pipeline 100 50 [] Hnz) as (w & ws & Hscan & P1 & _).
  cbn in Hscan. injection Hscan as <- <-.
  destruct (frame_after_derived (sample_frame [0; 1] [100; 50]%R)
              (Fin <$> [100; 50]%R)) as (_ & R2 & _).
  cbv zeta in R2. rewrite P1 in R2.
  destruct (first_close_is_never_a_peak real_pow _ _ _ _ _ Hrun R2)
    as (later & _ & _ & _ & _ & Hzero); [lra|].
  eexists _, _. split; [exact Hrun|]. now apply Hzero.
Defined.

Lemma derived_columns_start_missing_witness :
  exists df' rendement,
    fst (calculate_performance real_pow (sample_frame [0; 365] [100; 110]%R)) = df' /\
    lookup_col "Rendement" (columns df') = Some (NumCol (NaN :: rendement)) /\
    length (NaN :: rendement) = 2%nat.
Proof.
  destruct (calculate_performance_total real_pow
              (sample_frame [0; 365] [100; 110]%R) [Fin 100; Fin 110]%R [0; 365])
    as (d0 & d1 & p0 & p1 & _ & _ & _ & _ & Hrun);
    [repeat constructor | simpl; lia | reflexivity | reflexivity |].
  destruct (derived_columns_start_missing real_pow _ _ _ Hrun)
    as (cloture & r & w & d & Hc & Hr & _ & _ & L & _).
  injection Hc as <-.
  eexists _, r. split; [now rewrite Hrun|]. split; [exact Hr | exact L].
Defined.

Lemma listed_symbol_gets_its_sector_witness :
  Sector.classify "SONATEL" = "Services publics"%string /\
  Sector.get_sector_classification !! "SONATEL"%string
  = Some "Services publics"%string /\
  size Sector.get_sector_classification
  = length (concat (snd <$> Sector.sectors)).
Proof.
  apply (listed_symbol_gets_its_sector "Services publics" "SONATEL"
           ["SODECI"; "CIE"; "SONATEL"; "ONATEL"]%string).
  - do 3 apply list_elem_of_further. apply list_elem_of_here.
  - do 2 apply list_elem_of_further. apply list_elem_of_here.
Defined.

(** A page of three rows under an empty header row; the price of the second
    is not a number. *)
Lemma bad_quotation_row_is_skipped_alone_witness :
  let values := get_brvm_values Sample.py_float Sample.py_int in
  let first := quote_cells "SNTS" "15 000" in
  let bad := quote_cells "BAD" "abc" in
  let third := quote_cells "ORAC" "9 000" in
  values (HttpOk (Some ([] :: [first] ++ bad :: [third])))
  = values (HttpOk (Some ([] :: [first] ++ [third]))) /\
  values (HttpOk (Some ([] :: [first] ++ [third])))
  = values (HttpOk (Some ([] :: [first]))) ++ values (HttpOk (Some ([] :: [third]))) /\
  (length (values (HttpOk (Some ([] :: [first] ++ bad :: [third]))))
   <= length [first] + length [third])%nat.
Proof.
  apply (bad_quotation_row_is_skipped_alone Sample.py_float Sample.py_int).
  right. vm_compute. reflexivity.
Defined.

Lemma detail_links_are_absolute_witness :
  exists q link,
    q ∈ get_brvm_values Sample.py_float Sample.py_int
          (HttpOk (Some [[]; quote_cells "SNTS" "15 000"])) /\
    Quote.detail_link q = Some link /\
    (link = EmptyString \/ String.prefix "http" link = true).
Proof.
  assert (E : exists q link,
             get_brvm_values Sample.py_float Sample.py_int
               (HttpOk (Some [[]; quote_cells "SNTS" "15 000"])) = [q] /\
             Quote.detail_link q = Some link)
    by (vm_compute; eexists _, _; split; reflexivity).
  destruct E as (q & link & E & Hl).
  assert (Hin : q ∈ get_brvm_values Sample.py_float Sample.py_int
                      (HttpOk (Some [[]; quote_cells "SNTS" "15 000"])))
    by (rewrite E; apply list_elem_of_here).
  exists q, link. split; [exact Hin|]. split; [exact Hl|].
  exact (detail_links_are_absolute Sample.py_float Sample.py_int _ q link Hin Hl).
Defined.

(** A table of two rows, kept to its best row. *)
Lemma top_rows_dominate_the_rest_witness :
  let m1 := metrics_of real_pow [Fin 100; Fin 110]%R 0 365 (Fin 100%R) (Fin 110%R) in
  let m2 := metrics_of real_pow [Fin 100; Fin 150]%R 0 365 (Fin 100%R) (Fin 150%R) in
  let perf_df := [("SNTS"%string, m1); ("ORAC"%string, m2)] in
  length (top_by total_return 1 perf_df) = 1%nat /\
  top_by total_return 1 perf_df
    ++ drop 1 (sort_values_desc total_return perf_df) ≡ₚ perf_df.
Proof.
  intros m1 m2 perf_df.
  destruct (top_rows_dominate_the_rest total_return 1 perf_df) as (H1 & H2 & _);
    [discriminate|].
  split; [exact H1 | exact H2].
Defined.
